(** * agent-os contracts: cost-governor decision engine and contract validators

  A shallow embedding of the Python sources under [contracts/]:

  - [cost-governor/runtime_validator/{types,decision,validator,policy_index}.py]
  - [health/runtime_validator/validator.py]
  - [logging/runtime_validator/validator.py]
  - [routing/runtime_validator/validator.py]

  and of the two scripts under [mcp-server-config/scripts/]:

  - [validate-mcp-config.py] and [convert-config.py], their [main] apart.

  Conventions of the embedding.

  - A Python [str] is a [string]; one [ascii] stands for one character, so
    the texts covered are those whose characters have code points below 256.
  - A Python [float] is a binary64 [float] of the kernel; [a > b] is
    [PrimFloat.ltb b a] and [a + b] is [PrimFloat.add a b].
  - A Python [int] is a [Z].
  - The [errors] list that every checker receives and appends to is passed
    in and returned explicitly.
  - A call either returns or raises: [InvariantViolation] with its message,
    or the [TypeError] of hashing or ordering a value of the wrong type.
  - Built-ins of the interpreter that recurse through containers (the
    printing, [==] and [>] of lists and dicts), the printing of a float,
    [datetime.fromisoformat] and the casbin enforcer that [load_enforcer]
    builds from the policy files are parameters of the model. *)

From Stdlib Require Import List String Ascii Bool ZArith Lia.
From Stdlib Require Import Floats.PrimFloat Floats.SpecFloat Floats.FloatOps.
From Stdlib Require Floats.FloatAxioms.
From Stdlib Require Import Numbers.DecimalString.
From Stdlib Require Import Sorting.Sorted Sorting.Permutation.
Import ListNotations.

Set Warnings "-register-all".

Local Open Scope list_scope.
Local Open Scope string_scope.

(* ================================================================== *)
(** * Part I — the embedded program                                     *)
(* ================================================================== *)

(** ** Python string built-ins *)

Module PyStr.

(** [s.startswith(p)] *)
Definition startswith (s p : string) : bool := String.prefix p s.

(** [needle in hay] for two strings. *)
Fixpoint str_in (needle hay : string) : bool :=
  String.prefix needle hay
  || match hay with
     | EmptyString => false
     | String _ rest => str_in needle rest
     end.

(** [s[:n]] *)
Definition take (n : nat) (s : string) : string := String.substring 0 n s.

(** One character of [s.lower()]: A–Z, and the upper-case letters of the
    Latin-1 block (192–222 without the multiplication sign 215). *)
Definition lower_char (c : ascii) : ascii :=
  let n := nat_of_ascii c in
  if ((65 <=? n) && (n <=? 90))%nat then ascii_of_nat (n + 32)
  else if ((192 <=? n) && (n <=? 222) && negb (n =? 215))%nat
       then ascii_of_nat (n + 32)
  else c.

Fixpoint lower (s : string) : string :=
  match s with
  | EmptyString => EmptyString
  | String c rest => String (lower_char c) (lower rest)
  end.

(** [re.compile(pat, re.IGNORECASE).search(s)] for a pattern made of
    lower-case letters and punctuation only: a character of the text
    matches a pattern character when its lower-case form is that
    character. *)
Definition search_ignorecase (pat s : string) : bool := str_in pat (lower s).

(** [c.isspace()] on code points below 256. *)
Definition isspace (c : ascii) : bool :=
  let n := nat_of_ascii c in
  (((9 <=? n) && (n <=? 13)) || ((28 <=? n) && (n <=? 32))
   || (n =? 133) || (n =? 160))%nat.

Fixpoint all_space (s : string) : bool :=
  match s with
  | EmptyString => true
  | String c rest => isspace c && all_space rest
  end.

(** [not s.strip()]: stripping leaves nothing exactly when every character
    is white space. *)
Definition blank (s : string) : bool := all_space s.

(** [str(n)] for a natural number (an index of [enumerate], a [len]). *)
Definition of_nat (n : nat) : string := NilEmpty.string_of_uint (Nat.to_uint n).

(** [str(n)] for an integer. *)
Definition of_Z (n : Z) : string := NilZero.string_of_int (Z.to_int n).

(** [sep.join(parts)] *)
Definition join (sep : string) (parts : list string) : string :=
  String.concat sep parts.

Definition newline : string := String (ascii_of_nat 10) EmptyString.

(** [s.endswith(suffix)] *)
Definition endswith (s suffix : string) : bool :=
  let n := String.length s in
  let m := String.length suffix in
  (m <=? n)%nat && String.eqb (String.substring (n - m) m s) suffix.

(** [s[:-1]] *)
Definition drop_last (s : string) : string :=
  String.substring 0 (String.length s - 1) s.

(** [sorted(xs)] for a list of strings.  Strings are totally ordered, so the
    result is the one ascending arrangement of [xs], whatever the sorting
    algorithm; here it is built by insertion. *)
Fixpoint insert (x : string) (xs : list string) : list string :=
  match xs with
  | [] => [x]
  | y :: rest => if String.leb x y then x :: xs else y :: insert x rest
  end.

Fixpoint sorted (xs : list string) : list string :=
  match xs with
  | [] => []
  | x :: rest => insert x (sorted rest)
  end.

(** [xs == ys] for two lists of strings. *)
Fixpoint list_eqb (xs ys : list string) : bool :=
  match xs, ys with
  | [], [] => true
  | x :: xs', y :: ys' => String.eqb x y && list_eqb xs' ys'
  | _, _ => false
  end.

(** [set(xs)], as the distinct elements of [xs]. *)
Definition distinct (xs : list string) : list string :=
  nodup string_dec xs.

End PyStr.

(** ** cost-governor: [types.py] *)

Module OnSoftCap.
Inductive t := LOG_ONLY | DEGRADE_MODEL | NOTIFY_OPS | QUEUE_REQUESTS.
Definition value (x : t) : string :=
  match x with
  | LOG_ONLY => "log-only"
  | DEGRADE_MODEL => "degrade-model"
  | NOTIFY_OPS => "notify-ops"
  | QUEUE_REQUESTS => "queue-requests"
  end.
End OnSoftCap.

Module OnHardCap.
Inductive t := HALT_ALL | HALT_NONCRITICAL | QUEUE_REQUESTS
             | QUEUE_REQUESTS_DEFER | NONE.
Definition value (x : t) : string :=
  match x with
  | HALT_ALL => "halt-all"
  | HALT_NONCRITICAL => "halt-noncritical"
  | QUEUE_REQUESTS => "queue-requests"
  | QUEUE_REQUESTS_DEFER => "queue-requests-defer"
  | NONE => "none"
  end.
Definition eqb (x y : t) : bool :=
  match x, y with
  | HALT_ALL, HALT_ALL | HALT_NONCRITICAL, HALT_NONCRITICAL
  | QUEUE_REQUESTS, QUEUE_REQUESTS
  | QUEUE_REQUESTS_DEFER, QUEUE_REQUESTS_DEFER | NONE, NONE => true
  | _, _ => false
  end.
End OnHardCap.

Module DropPolicy.
Inductive t := DROP_OLDEST | DROP_NEWEST | DROP_NONCRITICAL_FIRST.
Definition value (x : t) : string :=
  match x with
  | DROP_OLDEST => "drop-oldest"
  | DROP_NEWEST => "drop-newest"
  | DROP_NONCRITICAL_FIRST => "drop-noncritical-first"
  end.
End DropPolicy.

Inductive DecisionAction := ALLOW | BLOCK | QUEUE | DEGRADE.

Record QueuePolicy := {
qp_enabled : bool;
max_queue_depth : Z;
default_ttl_seconds : Z;
drop_policy : DropPolicy.t
}.

Record SpendMonitoring := {
sm_enabled : bool;
alert_emails : list string;
daily_report : bool;
anomaly_detection : bool;
alert_threshold_percent : float
}.

Record CostGovernor := {
currency : string;
daily_soft_cap : float;
daily_hard_cap : option float;
on_soft_cap : OnSoftCap.t;
on_hard_cap : OnHardCap.t;
model_degrade_ladder : list string;
allowlist_tasks_under_hard_cap : list string;
per_request_cap : option float;
reset_timezone : string;
queue_policy : option QueuePolicy;
spend_monitoring : option SpendMonitoring
}.

Record Decision := {
action : DecisionAction;
reason : string;
deferred : bool;
degraded_model : option string;
log : bool;
notify : bool
}.

(** [Decision(action=a, reason=r)] with every other field at its default. *)
Definition Decision_default (a : DecisionAction) (r : string) : Decision :=
{| action := a; reason := r; deferred := false; degraded_model := None;
   log := false; notify := false |}.

(** [a > b] on floats. *)
Definition float_gt (a b : float) : bool := PrimFloat.ltb b a.

(** ** cost-governor: [decision.py] *)

Module DecisionEngine.
Section WithFloatPrinting.

(** The text an f-string puts for a float. *)
Variable float_repr : float -> string.

(** [_apply_queue_overflow] *)
Definition _apply_queue_overflow (gov : CostGovernor) (decision : Decision)
           (queue_depth : Z) : Decision :=
  match queue_policy gov with
  | Some qp =>
      let max_depth := max_queue_depth qp in
      if (queue_depth >=? max_depth)%Z
      then Decision_default BLOCK "queue_overflow"
      else decision
  | None => decision
  end.

(** [evaluate]; the early [return]s of the source are the branches of the
    nested conditionals. *)
Definition evaluate (gov : CostGovernor) (estimated_cost spent_today : float)
           (task_id : string) (is_critical : bool) (queue_depth : Z)
  : Decision :=
  let after_gate :=
    let projected := PrimFloat.add spent_today estimated_cost in
    let after_hard_cap :=
      (* Phase 2: soft cap check *)
      if float_gt projected (daily_soft_cap gov) then
        match on_soft_cap gov with
        | OnSoftCap.LOG_ONLY =>
            {| action := ALLOW; reason := "soft_cap_exceeded: log-only";
               deferred := false; degraded_model := None;
               log := true; notify := false |}
        | OnSoftCap.DEGRADE_MODEL =>
            let degraded :=
              match model_degrade_ladder gov with
              | m :: _ => Some m
              | [] => None
              end in
            {| action := DEGRADE; reason := "soft_cap_exceeded: degrade-model";
               deferred := false; degraded_model := degraded;
               log := false; notify := false |}
        | OnSoftCap.NOTIFY_OPS =>
            {| action := ALLOW; reason := "soft_cap_exceeded: notify-ops";
               deferred := false; degraded_model := None;
               log := false; notify := true |}
        | OnSoftCap.QUEUE_REQUESTS =>
            let decision :=
              Decision_default QUEUE "soft_cap_exceeded: queue-requests" in
            _apply_queue_overflow gov decision queue_depth
        end
      else
        (* Phase 3: under budget *)
        Decision_default ALLOW "under_budget" in
    (* Phase 1: hard cap check *)
    match daily_hard_cap gov with
    | Some hard_cap =>
        if float_gt projected hard_cap then
          match on_hard_cap gov with
          | OnHardCap.HALT_ALL =>
              Decision_default BLOCK "hard_cap_exceeded: halt-all"
          | OnHardCap.HALT_NONCRITICAL =>
              if is_critical
              then Decision_default ALLOW
                     ("hard_cap_exceeded: halt-noncritical, '" ++ task_id
                      ++ "' is critical")
              else Decision_default BLOCK
                     ("hard_cap_exceeded: halt-noncritical, '" ++ task_id
                      ++ "' not in allowlist")
          | OnHardCap.QUEUE_REQUESTS =>
              let decision :=
                Decision_default QUEUE "hard_cap_exceeded: queue-requests" in
              _apply_queue_overflow gov decision queue_depth
          | OnHardCap.QUEUE_REQUESTS_DEFER =>
              let decision :=
                {| action := QUEUE;
                   reason := "hard_cap_exceeded: queue-requests-defer";
                   deferred := true; degraded_model := None;
                   log := false; notify := false |} in
              _apply_queue_overflow gov decision queue_depth
          | OnHardCap.NONE =>
              Decision_default BLOCK
                "invariant_violation: on_hard_cap='none' with non-null daily_hard_cap"
          end
        else after_hard_cap
    | None => after_hard_cap
    end in
  (* Phase 0: per-request cap gate *)
  match per_request_cap gov with
  | Some cap =>
      if float_gt estimated_cost cap
      then Decision_default BLOCK
             ("estimated_cost (" ++ float_repr estimated_cost
              ++ ") exceeds per_request_cap (" ++ float_repr cap ++ ")")
      else after_gate
  | None => after_gate
  end.

(** The three conditions [evaluate] tests, named for the statements below:
    line 57, line 69 and line 112 of [decision.py]. *)
Definition per_request_gate (gov : CostGovernor) (estimated_cost : float)
  : bool :=
  match per_request_cap gov with
  | Some cap => float_gt estimated_cost cap
  | None => false
  end.

Definition hard_cap_crossed (gov : CostGovernor) (projected : float) : bool :=
  match daily_hard_cap gov with
  | Some hard_cap => float_gt projected hard_cap
  | None => false
  end.

Definition soft_cap_crossed (gov : CostGovernor) (projected : float) : bool :=
  float_gt projected (daily_soft_cap gov).

(** The QUEUE outcome that the hard-cap or soft-cap dispatch builds before
    it hands it to [_apply_queue_overflow] (lines 88–101 and 136–141), when
    the request reaches one of those three branches. *)
Definition queue_outcome (gov : CostGovernor)
           (estimated_cost spent_today : float) : option Decision :=
  if per_request_gate gov estimated_cost then None
  else
    let projected := PrimFloat.add spent_today estimated_cost in
    if hard_cap_crossed gov projected then
      match on_hard_cap gov with
      | OnHardCap.QUEUE_REQUESTS =>
          Some (Decision_default QUEUE "hard_cap_exceeded: queue-requests")
      | OnHardCap.QUEUE_REQUESTS_DEFER =>
          Some {| action := QUEUE;
                  reason := "hard_cap_exceeded: queue-requests-defer";
                  deferred := true; degraded_model := None;
                  log := false; notify := false |}
      | _ => None
      end
    else if soft_cap_crossed gov projected then
      match on_soft_cap gov with
      | OnSoftCap.QUEUE_REQUESTS =>
          Some (Decision_default QUEUE "soft_cap_exceeded: queue-requests")
      | _ => None
      end
    else None.

End WithFloatPrinting.
End DecisionEngine.

(** ** Parsed documents and the Python operators used on them *)

(** A document as [json.load] returns it.  A [dict] keeps its items in
    insertion order, which is the order the scanners report in. *)
Inductive json :=
| JNull
| JBool (b : bool)
| JInt (n : Z)
| JFloat (f : float)
| JStr (s : string)
| JList (items : list json)
| JDict (fields : list (string * json)).

Module Py.

Fixpoint lookup (key : string) (fields : list (string * json)) : option json :=
  match fields with
  | [] => None
  | (k, v) :: rest => if String.eqb k key then Some v else lookup key rest
  end.

(** [d.get(key)]: [None] when the key is missing. *)
Definition get (fields : list (string * json)) (key : string) : json :=
  match lookup key fields with
  | Some v => v
  | None => JNull
  end.

(** [key in d] *)
Definition has (fields : list (string * json)) (key : string) : bool :=
  match lookup key fields with
  | Some _ => true
  | None => false
  end.

(** [x in xs] for strings. *)
Definition mem (x : string) (xs : list string) : bool :=
  existsb (String.eqb x) xs.

(** The exact value of a Python number: numbers of different types are
    compared by value, never after a rounding conversion. *)
Inductive number :=
| Nan
| Inf (negative : bool)
| Dyadic (m e : Z).   (* m * 2^e *)

Definition number_of_float (f : float) : number :=
  match Prim2SF f with
  | S754_nan => Nan
  | S754_infinity s => Inf s
  | S754_zero _ => Dyadic 0 0
  | S754_finite s m e => Dyadic (if s then Zneg m else Zpos m) e
  end.

(** [bool] is a subclass of [int]: [True == 1]. *)
Definition as_number (v : json) : option number :=
  match v with
  | JBool b => Some (Dyadic (if b then 1 else 0) 0)
  | JInt n => Some (Dyadic n 0)
  | JFloat f => Some (number_of_float f)
  | _ => None
  end.

(** Order of two numbers; [None] when one of them is a NaN. *)
Definition number_compare (a b : number) : option comparison :=
  match a, b with
  | Nan, _ | _, Nan => None
  | Inf s, Inf t =>
      Some (if Bool.eqb s t then Eq else if s then Lt else Gt)
  | Inf s, Dyadic _ _ => Some (if s then Lt else Gt)
  | Dyadic _ _, Inf t => Some (if t then Gt else Lt)
  | Dyadic m1 e1, Dyadic m2 e2 =>
      let e := Z.min e1 e2 in
      Some (Z.compare (m1 * 2 ^ (e1 - e)) (m2 * 2 ^ (e2 - e)))
  end.

Definition number_eqb (a b : number) : bool :=
  match number_compare a b with
  | Some Eq => true
  | _ => false
  end.

Definition number_gtb (a b : number) : bool :=
  match number_compare a b with
  | Some Gt => true
  | _ => false
  end.

(** [v == s] for a string constant [s]. *)
Definition eq_str (v : json) (s : string) : bool :=
  match v with
  | JStr t => String.eqb t s
  | _ => false
  end.

(** [v == n] for an integer [n]. *)
Definition eq_int (v : json) (n : Z) : bool :=
  match as_number v with
  | Some x => number_eqb x (Dyadic n 0)
  | None => false
  end.

(** [v in {s1, s2, ...}] for a set of strings: the value is hashed first,
    and a list or a dict is unhashable ([None] is the [TypeError]). *)
Definition in_str_set (v : json) (set : list string) : option bool :=
  match v with
  | JList _ | JDict _ => None
  | JStr s => Some (mem s set)
  | _ => Some false
  end.

Section Operators.

(** How the interpreter prints a float, and what it does with two
    containers: [repr], [==] and [>] of lists and dicts recurse through
    their elements and are left to the interpreter. *)
Variable float_repr : float -> string.
Variable container_repr : json -> string.
Variable container_eq : json -> json -> bool.
Variable list_gt : list json -> list json -> option bool.

(** [str(v)], which an f-string uses. *)
Definition str (v : json) : string :=
  match v with
  | JNull => "None"
  | JBool true => "True"
  | JBool false => "False"
  | JInt n => PyStr.of_Z n
  | JFloat f => float_repr f
  | JStr s => s
  | JList _ | JDict _ => container_repr v
  end.

(** [a == b] *)
Definition eq (a b : json) : bool :=
  match a, b with
  | JNull, JNull => true
  | JStr s, JStr t => String.eqb s t
  | JList _, JList _ | JDict _, JDict _ => container_eq a b
  | _, _ =>
      match as_number a, as_number b with
      | Some x, Some y => number_eqb x y
      | _, _ => false
      end
  end.

(** [a > b]; [None] is the [TypeError] of two operands without an order. *)
Definition gt (a b : json) : option bool :=
  match a, b with
  | JStr s, JStr t => Some (String.ltb t s)
  | JList xs, JList ys => list_gt xs ys
  | _, _ =>
      match as_number a, as_number b with
      | Some x, Some y => Some (number_gtb x y)
      | _, _ => None
      end
  end.

End Operators.
End Py.

(** [errors.append(msg)] *)
Definition push (errors : list string) (msg : string) : list string :=
  (errors ++ [msg])%list.

(** What a validator call does: it returns [None], or raises. *)
Inductive exn :=
| InvariantViolation (message : string)
| TypeError.

Inductive outcome :=
| Returns
| Raises (e : exn).

(** The bullet that opens each line of a report, as the bytes of its UTF-8
    encoding.  [logging/runtime_validator/validator.py] has the three
    characters of a twice-encoded bullet in its place. *)
Definition bullet : string := "•".
Definition bullet_logging : string := "â€¢".

(** [header + "\n" + "\n".join(f"  {mark} {e}" for e in errors)] *)
Definition report (header mark : string) (errors : list string) : string :=
  header ++ PyStr.newline
  ++ PyStr.join PyStr.newline (map (fun e => "  " ++ mark ++ " " ++ e) errors).

(** [if errors: raise InvariantViolation(...)], the last statement of every
    [runtime_invariants]. *)
Definition raise_if_any (header mark : string) (errors : list string)
  : outcome :=
  match errors with
  | [] => Returns
  | _ :: _ => Raises (InvariantViolation (report header mark errors))
  end.

(** ** Loops over the items of a list *)

Section Loops.
Context {A : Type}.

(** [for i, x in enumerate(items): errors = body(i, x, errors)], counting
    from [i]. *)
Definition for_enumerate (body : nat -> A -> list string -> list string)
  : list A -> nat -> list string -> list string :=
  fix loop (items : list A) (i : nat) (errors : list string) :=
    match items with
    | [] => errors
    | x :: rest => loop rest (S i) (body i x errors)
    end.

(** [for x in items: errors = body(x, errors)] *)
Definition for_each (body : A -> list string -> list string)
  : list A -> list string -> list string :=
  fix loop (items : list A) (errors : list string) :=
    match items with
    | [] => errors
    | x :: rest => loop rest (body x errors)
    end.

End Loops.

(** ** cost-governor: [validator.py] *)

(** The objects [_check_no_secrets] tells apart with [isinstance] and
    [hasattr]. *)
Inductive pyobj :=
| PStr (s : string)                        (* a [str]; the enums of [types.py]
                                              derive from [str] *)
| PSeq (items : list pyobj)                (* a [list] or a [tuple] *)
| PData (fields : list (string * pyobj))   (* a dataclass instance, fields in
                                              the order of [dataclasses.fields] *)
| PScalar                                  (* an [int], [float], [bool] or [None] *)
| PEnum (value : string).                  (* any other object with a string
                                              [value] attribute *)

Module CostGovernorValidator.

Definition _SK_PATTERN : string := "sk-".
Definition _API_KEY_PATTERN : string := "apikey".

(** The branch [if isinstance(obj, str)], the same statements in
    [_check_no_secrets] (lines 151–156) and [_check_no_secrets_raw]
    (lines 185–190). *)
Definition scan_str (obj path : string) (errors : list string) : list string :=
  let errors :=
    if PyStr.search_ignorecase _SK_PATTERN obj
    then push errors ("Secret-like 'sk-' pattern found at " ++ path ++ ": '"
                      ++ PyStr.take 30 obj ++ "'")
    else errors in
  if PyStr.search_ignorecase _API_KEY_PATTERN obj
     && negb (PyStr.startswith obj "${")
  then push errors ("Bare apiKey literal found at " ++ path ++ ": '"
                    ++ PyStr.take 30 obj ++ "'")
  else errors.

(** [f"{path}.{name}" if path else name] *)
Definition field_path (path name : string) : string :=
  match path with
  | EmptyString => name
  | _ => path ++ "." ++ name
  end.

(** [f"{path}[{i}]"] *)
Definition item_path (path : string) (i : nat) : string :=
  path ++ "[" ++ PyStr.of_nat i ++ "]".

(** [_check_no_secrets] *)
Fixpoint _check_no_secrets (obj : pyobj) (path : string) (errors : list string)
  {struct obj} : list string :=
  match obj with
  | PStr s => scan_str s path errors
  | PSeq items =>
      for_enumerate
        (fun i item errors => _check_no_secrets item (item_path path i) errors)
        items 0%nat errors
  | PData fields =>
      for_each
        (fun (f : string * pyobj) errors =>
           let (name, val) := f in
           _check_no_secrets val (field_path path name) errors)
        fields errors
  | PScalar => errors
  | PEnum value => scan_str value path errors
  end.

(** [_check_no_secrets_raw] *)
Fixpoint _check_no_secrets_raw (obj : json) (path : string)
  (errors : list string) {struct obj} : list string :=
  match obj with
  | JStr s => scan_str s path errors
  | JDict fields =>
      for_each
        (fun (kv : string * json) errors =>
           let (k, v) := kv in
           _check_no_secrets_raw v (field_path path k) errors)
        fields errors
  | JList items =>
      for_enumerate
        (fun i item errors =>
           _check_no_secrets_raw item (item_path path i) errors)
        items 0%nat errors
  | _ => errors
  end.

(** A [CostGovernor] as the object tree [dataclasses.fields] walks. *)
Definition tree_of_QueuePolicy (qp : QueuePolicy) : pyobj :=
  PData [ ("enabled", PScalar); ("max_queue_depth", PScalar);
          ("default_ttl_seconds", PScalar);
          ("drop_policy", PStr (DropPolicy.value (drop_policy qp))) ].

Definition tree_of_SpendMonitoring (sm : SpendMonitoring) : pyobj :=
  PData [ ("enabled", PScalar);
          ("alert_emails", PSeq (map PStr (alert_emails sm)));
          ("daily_report", PScalar); ("anomaly_detection", PScalar);
          ("alert_threshold_percent", PScalar) ].

Definition tree_of_CostGovernor (gov : CostGovernor) : pyobj :=
  PData [ ("currency", PStr (currency gov));
          ("daily_soft_cap", PScalar);
          ("daily_hard_cap", PScalar);
          ("on_soft_cap", PStr (OnSoftCap.value (on_soft_cap gov)));
          ("on_hard_cap", PStr (OnHardCap.value (on_hard_cap gov)));
          ("model_degrade_ladder", PSeq (map PStr (model_degrade_ladder gov)));
          ("allowlist_tasks_under_hard_cap",
            PSeq (map PStr (allowlist_tasks_under_hard_cap gov)));
          ("per_request_cap", PScalar);
          ("reset_timezone", PStr (reset_timezone gov));
          ("queue_policy",
            match queue_policy gov with
            | Some qp => tree_of_QueuePolicy qp
            | None => PScalar
            end);
          ("spend_monitoring",
            match spend_monitoring gov with
            | Some sm => tree_of_SpendMonitoring sm
            | None => PScalar
            end) ].

Definition is_empty {A} (xs : list A) : bool :=
  match xs with [] => true | _ => false end.

Definition is_none {A} (x : option A) : bool :=
  match x with None => true | Some _ => false end.

Definition soft_eqb (x y : OnSoftCap.t) : bool :=
  match x, y with
  | OnSoftCap.LOG_ONLY, OnSoftCap.LOG_ONLY
  | OnSoftCap.DEGRADE_MODEL, OnSoftCap.DEGRADE_MODEL
  | OnSoftCap.NOTIFY_OPS, OnSoftCap.NOTIFY_OPS
  | OnSoftCap.QUEUE_REQUESTS, OnSoftCap.QUEUE_REQUESTS => true
  | _, _ => false
  end.

Section WithFloatPrinting.
Variable float_repr : float -> string.

(** The six numbered blocks of [runtime_invariants], each as the step it
    makes on [errors]. *)

(* 1) daily_soft_cap <= daily_hard_cap when hard cap is set *)
Definition check_soft_le_hard (gov : CostGovernor) (errors : list string)
  : list string :=
  match daily_hard_cap gov with
  | Some hard =>
      if float_gt (daily_soft_cap gov) hard
      then push errors ("daily_soft_cap (" ++ float_repr (daily_soft_cap gov)
                        ++ ") must be <= daily_hard_cap ("
                        ++ float_repr hard ++ ")")
      else errors
  | None => errors
  end.

(* 2) daily_hard_cap == null => on_hard_cap must be "none" *)
Definition check_no_hard_cap_policy (gov : CostGovernor) (errors : list string)
  : list string :=
  if is_none (daily_hard_cap gov)
     && negb (OnHardCap.eqb (on_hard_cap gov) OnHardCap.NONE)
  then push errors ("daily_hard_cap is null so on_hard_cap must be 'none', got '"
                    ++ OnHardCap.value (on_hard_cap gov) ++ "'")
  else errors.

(* 3) degrade-model => model_degrade_ladder must be non-empty *)
Definition check_degrade_ladder (gov : CostGovernor) (errors : list string)
  : list string :=
  if soft_eqb (on_soft_cap gov) OnSoftCap.DEGRADE_MODEL
     && is_empty (model_degrade_ladder gov)
  then push errors
         "on_soft_cap='degrade-model' requires a non-empty model_degrade_ladder"
  else errors.

(* 4) halt-noncritical => allowlist_tasks_under_hard_cap must be non-empty *)
Definition check_allowlist (gov : CostGovernor) (errors : list string)
  : list string :=
  if OnHardCap.eqb (on_hard_cap gov) OnHardCap.HALT_NONCRITICAL
     && is_empty (allowlist_tasks_under_hard_cap gov)
  then push errors
         "on_hard_cap='halt-noncritical' requires a non-empty allowlist_tasks_under_hard_cap"
  else errors.

(* 5) No secrets: recursive scan for "sk-" and bare apiKey literals *)
Definition check_secrets (gov : CostGovernor) (errors : list string)
  : list string :=
  _check_no_secrets (tree_of_CostGovernor gov) "" errors.

(* 6) queue_policy required when cap actions use queue-* *)
Definition check_queue_policy (gov : CostGovernor) (errors : list string)
  : list string :=
  let _needs_queue :=
    soft_eqb (on_soft_cap gov) OnSoftCap.QUEUE_REQUESTS
    || (OnHardCap.eqb (on_hard_cap gov) OnHardCap.QUEUE_REQUESTS
        || OnHardCap.eqb (on_hard_cap gov) OnHardCap.QUEUE_REQUESTS_DEFER) in
  if _needs_queue && is_none (queue_policy gov)
  then push errors
         "queue_policy is required when on_soft_cap or on_hard_cap uses a queue-* action"
  else errors.

(** The body of [runtime_invariants] up to the final [if errors:]: the
    value of [errors] there. *)
Definition collect (gov : CostGovernor) : list string :=
  let errors : list string := [] in
  let errors := check_soft_le_hard gov errors in
  let errors := check_no_hard_cap_policy gov errors in
  let errors := check_degrade_ladder gov errors in
  let errors := check_allowlist gov errors in
  let errors := check_secrets gov errors in
  check_queue_policy gov errors.

(** [runtime_invariants] *)
Definition runtime_invariants (gov : CostGovernor) : outcome :=
  raise_if_any "CostGovernor invariant violation(s):" bullet (collect gov).

End WithFloatPrinting.
End CostGovernorValidator.

(** ** The scanner of the health, logging and routing validators

    [_scan_secrets] and [_API_KEY_FIELDS] are the same text in the three
    [validator.py] files. *)

Module SecretScan.

Definition _API_KEY_FIELDS : list string := ["apiKey"; "api_key"; "API_KEY"].

Definition item_path (path : string) (idx : nat) : string :=
  path ++ "[" ++ PyStr.of_nat idx ++ "]".

(** [not isinstance(value, str) or not value.startswith("${")] *)
Definition not_env_reference (value : json) : bool :=
  match value with
  | JStr s => negb (PyStr.startswith s "${")
  | _ => true
  end.

(** The statements of the [for key, value in obj.items()] body that come
    before the recursive call. *)
Definition scan_key (key : string) (value : json) (key_path : string)
  (errors : list string) : list string :=
  let errors :=
    if PyStr.str_in "sk-" key
    then push errors ("secret-like 'sk-' substring found in key at " ++ key_path)
    else errors in
  if Py.mem key _API_KEY_FIELDS then
    if not_env_reference value
    then push errors ("literal " ++ key ++ " detected at " ++ key_path
                      ++ "; use ${ENV_VAR}")
    else errors
  else errors.

(** [_scan_secrets] *)
Fixpoint _scan_secrets (obj : json) (path : string) (errors : list string)
  {struct obj} : list string :=
  match obj with
  | JStr s =>
      if PyStr.str_in "sk-" s
      then push errors ("secret-like 'sk-' substring found at " ++ path)
      else errors
  | JDict fields =>
      for_each
        (fun (kv : string * json) errors =>
           let (key, value) := kv in
           let key_path := path ++ "." ++ key in
           let errors := scan_key key value key_path errors in
           _scan_secrets value key_path errors)
        fields errors
  | JList items =>
      for_enumerate
        (fun idx item errors => _scan_secrets item (item_path path idx) errors)
        items 0%nat errors
  | _ => errors
  end.

End SecretScan.

(** ** health: [validator.py] *)

Module Health.

Definition _ALLOWED_STATES : list string :=
  ["healthy"; "degraded"; "unhealthy"; "unknown"].

Definition _PROBE_TYPES : list string := ["liveness"; "readiness"; "startup"].

(** [sum(1 for item in checks if isinstance(item, dict)
        and item.get("status") == state)] *)
Definition has_status (state : string) (item : json) : bool :=
  match item with
  | JDict item => Py.eq_str (Py.get item "status") state
  | _ => false
  end.

Definition count_status (checks : list json) (state : string) : nat :=
  List.length (filter (has_status state) checks).

(** The dict [computed], with its items in the order they are written. *)
Definition computed_counts (checks : list json) : list (string * nat) :=
  [ ("total", List.length checks);
    ("healthy", count_status checks "healthy");
    ("degraded", count_status checks "degraded");
    ("unhealthy", count_status checks "unhealthy");
    ("unknown", count_status checks "unknown") ].

(** [counts[key]]; every key asked for is among the five of [computed]. *)
Fixpoint item (counts : list (string * nat)) (key : string) : nat :=
  match counts with
  | [] => 0%nat
  | (k, n) :: rest => if String.eqb k key then n else item rest key
  end.

(** [_derive_status] *)
Definition _derive_status (counts : list (string * nat)) : string :=
  if (0 <? item counts "unhealthy")%nat then "unhealthy"
  else if (0 <? item counts "degraded")%nat then "degraded"
  else if ((item counts "healthy" =? item counts "total")
           && (0 <? item counts "total"))%nat then "healthy"
  else "unknown".

(** [_check_service_name] *)
Definition _check_service_name (value : json) (errors : list string)
  : list string :=
  match value with
  | JStr s =>
      if PyStr.blank s then push errors "service must be a non-empty string"
      else errors
  | _ => push errors "service must be a non-empty string"
  end.

Section WithBuiltins.

Variable float_repr : float -> string.
Variable container_repr : json -> string.
(** [datetime.fromisoformat(text)]: [None] for a [ValueError], otherwise
    whether the parsed value carries a [tzinfo]. *)
Variable fromisoformat : string -> option bool.

(** [_check_timestamp] *)
Definition _check_timestamp (value : json) (field : string)
  (errors : list string) : list string :=
  match value with
  | JStr value =>
      if negb (PyStr.str_in "T" value)
      then push errors (field ++ " must use RFC3339 date-time format")
      else
        let candidate :=
          if PyStr.endswith value "Z"
          then PyStr.drop_last value ++ "+00:00"
          else value in
        match fromisoformat candidate with
        | None => push errors (field ++ " is not a valid RFC3339 date-time")
        | Some has_tzinfo =>
            if has_tzinfo then errors
            else push errors (field ++ " must include timezone (Z or +/-HH:MM)")
        end
  | _ => push errors (field ++ " must be a string in RFC3339 format")
  end.

(** The [for idx, check in enumerate(checks)] loop of [_check_checks];
    [None] is the [TypeError] of testing an unhashable value for membership
    in a set. *)
Fixpoint check_items (checks : list json) (idx : nat)
  (seen_names : list string) (errors : list string)
  : option (list string) :=
  match checks with
  | [] => Some errors
  | check :: rest =>
      let path := "checks[" ++ PyStr.of_nat idx ++ "]" in
      match check with
      | JDict check =>
          let name := Py.get check "name" in
          let '(errors, seen_names) :=
            match name with
            | JStr name =>
                if PyStr.blank name
                then (push errors (path ++ ".name must be a non-empty string"),
                      seen_names)
                else if Py.mem name seen_names
                then (push errors ("duplicate check name: " ++ name), seen_names)
                else (errors, name :: seen_names)
            | _ =>
                (push errors (path ++ ".name must be a non-empty string"),
                 seen_names)
            end in
          match Py.in_str_set (Py.get check "probe_type") _PROBE_TYPES with
          | None => None
          | Some known_probe =>
              let errors :=
                if known_probe then errors
                else push errors
                       (path ++ ".probe_type must be one of liveness/readiness/startup") in
              match Py.in_str_set (Py.get check "status") _ALLOWED_STATES with
              | None => None
              | Some known_state =>
                  let errors :=
                    if known_state then errors
                    else push errors
                           (path ++ ".status must be one of healthy/degraded/unhealthy/unknown") in
                  let errors :=
                    _check_timestamp (Py.get check "timestamp")
                      (path ++ ".timestamp") errors in
                  check_items rest (S idx) seen_names errors
              end
          end
      | _ =>
          check_items rest (S idx) seen_names
            (push errors (path ++ " must be an object"))
      end
  end.

(** [_check_checks] *)
Definition _check_checks (checks : json) (errors : list string)
  : option (list string) :=
  match checks with
  | JList ((_ :: _) as checks) => check_items checks 0%nat [] errors
  | _ => Some (push errors "checks must be a non-empty list")
  end.

(** [_check_summary_and_status] *)
Definition _check_summary_and_status (data : list (string * json))
  (errors : list string) : list string :=
  match Py.get data "checks", Py.get data "summary" with
  | JList checks, JDict summary =>
      let computed := computed_counts checks in
      let errors :=
        for_each
          (fun (kv : string * nat) errors =>
             let (key, expected) := kv in
             let actual := Py.get summary key in
             if negb (Py.eq_int actual (Z.of_nat expected))
             then push errors
                    ("summary." ++ key ++ " must equal computed value "
                     ++ PyStr.of_nat expected ++ ", got "
                     ++ Py.str float_repr container_repr actual)
             else errors)
          computed errors in
      let expected_status := _derive_status computed in
      let actual_status := Py.get data "status" in
      if negb (Py.eq_str actual_status expected_status)
      then push errors
             ("status must be '" ++ expected_status
              ++ "' for current checks/summary, got '"
              ++ Py.str float_repr container_repr actual_status ++ "'")
      else errors
  | _, _ => errors
  end.

(** The body of [runtime_invariants] up to the final [if errors:]. *)
Definition collect (data : list (string * json)) : option (list string) :=
  let errors : list string := [] in
  let errors := _check_timestamp (Py.get data "timestamp") "timestamp" errors in
  let errors := _check_service_name (Py.get data "service") errors in
  match _check_checks (Py.get data "checks") errors with
  | None => None
  | Some errors =>
      let errors := _check_summary_and_status data errors in
      Some (SecretScan._scan_secrets (JDict data) "$" errors)
  end.

(** [runtime_invariants] *)
Definition runtime_invariants (data : list (string * json)) : outcome :=
  match collect data with
  | None => Raises TypeError
  | Some errors => raise_if_any "HealthStatus invariant violation(s):" bullet errors
  end.

End WithBuiltins.
End Health.

(** ** logging: [validator.py] *)

Module Logging.

(** [isinstance(value, str) and bool(value.strip())] *)
Definition non_empty_str (value : json) : bool :=
  match value with
  | JStr s => negb (PyStr.blank s)
  | _ => false
  end.

Definition is_dict (value : json) : bool :=
  match value with
  | JDict _ => true
  | _ => false
  end.

(** [_check_non_empty_ids] *)
Definition _check_non_empty_ids (event_dict : list (string * json))
  (errors : list string) : list string :=
  for_each
    (fun field errors =>
       let value := Py.get event_dict field in
       if negb (non_empty_str value)
       then push errors (field ++ " must be a non-empty string")
       else errors)
    ["event_id"; "task_id"; "trace_id"] errors.

(** [_check_tokens] *)
Definition _check_tokens (event_dict : list (string * json))
  (errors : list string) : list string :=
  let has_tokens_in := Py.has event_dict "tokens_in" in
  let has_tokens_out := Py.has event_dict "tokens_out" in
  if negb (Bool.eqb has_tokens_in has_tokens_out)
  then push errors
         "tokens_in and tokens_out must both be present when either is provided"
  else errors.

(** [_check_decision] *)
Definition _check_decision (decision : json) (errors : list string)
  : list string :=
  match decision with
  | JDict decision =>
      let action := Py.get decision "action" in
      let errors :=
        if Py.eq_str action "DEGRADE" then
          let degraded_model := Py.get decision "degraded_model" in
          if negb (non_empty_str degraded_model)
          then push errors
                 "decision.degraded_model is required when decision.action == DEGRADE"
          else errors
        else errors in
      if Py.eq_str action "QUEUE"
         && match Py.get decision "deferred" with
            | JBool true => true
            | _ => false
            end
      then
        let reason := Py.get decision "reason" in
        if match reason with
           | JStr reason => negb (PyStr.str_in "defer" (PyStr.lower reason))
           | _ => true
           end
        then push errors
               "decision.reason must include 'defer' when decision.action == QUEUE and deferred is true"
        else errors
      else errors
  | _ => errors
  end.

(** [_check_decision_link] *)
Definition _check_decision_link (event_dict : list (string * json))
  (errors : list string) : list string :=
  if negb (Py.eq_str (Py.get event_dict "event_type") "decision") then errors
  else
    let routing_decision_id := Py.get event_dict "routing_decision_id" in
    let has_routing_decision_id := non_empty_str routing_decision_id in
    let meta := Py.get event_dict "meta" in
    let has_embedded_routing_decision :=
      match meta with
      | JDict meta => is_dict (Py.get meta "routing_decision")
      | _ => false
      end in
    let errors :=
      if negb (has_routing_decision_id || has_embedded_routing_decision)
      then push errors
             "event_type='decision' requires routing_decision_id or meta.routing_decision"
      else errors in
    if Py.has event_dict "routing_decision_id" && negb has_routing_decision_id
    then push errors
           "routing_decision_id must be a non-empty string when provided"
    else errors.

Section WithBuiltins.

Variable fromisoformat : string -> option bool.

(** [_check_timestamp] *)
Definition _check_timestamp (value : json) (errors : list string)
  : list string :=
  match value with
  | JStr value =>
      if negb (PyStr.str_in "T" value)
      then push errors "timestamp must use RFC3339 date-time format"
      else
        let candidate :=
          if PyStr.endswith value "Z"
          then PyStr.drop_last value ++ "+00:00"
          else value in
        match fromisoformat candidate with
        | None => push errors "timestamp is not a valid RFC3339 date-time"
        | Some has_tzinfo =>
            if has_tzinfo then errors
            else push errors "timestamp must include timezone (Z or +/-HH:MM)"
        end
  | _ => push errors "timestamp must be a string in RFC3339 format"
  end.

(** The body of [runtime_invariants] up to the final [if errors:]. *)
Definition collect (event_dict : list (string * json)) : list string :=
  let errors : list string := [] in
  let errors := _check_timestamp (Py.get event_dict "timestamp") errors in
  let errors := _check_non_empty_ids event_dict errors in
  let errors := _check_tokens event_dict errors in
  let errors := _check_decision_link event_dict errors in
  let errors := _check_decision (Py.get event_dict "decision") errors in
  SecretScan._scan_secrets (JDict event_dict) "$" errors.

(** [runtime_invariants] *)
Definition runtime_invariants (event_dict : list (string * json)) : outcome :=
  raise_if_any "LogEvent invariant violation(s):" bullet_logging
    (collect event_dict).

End WithBuiltins.
End Logging.

(** ** routing: [validator.py] *)

Module Routing.

(** [_check_non_empty_ids] *)
Definition _check_non_empty_ids (data : list (string * json))
  (errors : list string) : list string :=
  for_each
    (fun field errors =>
       let value := Py.get data field in
       if negb (Logging.non_empty_str value)
       then push errors (field ++ " must be a non-empty string")
       else errors)
    ["decision_id"; "task_id"; "trace_id"] errors.

(** [not isinstance(code, str) or not code.strip()] *)
Definition bad_code (code : json) : bool :=
  match code with
  | JStr s => PyStr.blank s
  | _ => true
  end.

(** The entries as strings, once every one of them is known to be a [str]. *)
Definition str_value (code : json) : string :=
  match code with
  | JStr s => s
  | _ => EmptyString
  end.

(** [_check_reason_codes] *)
Definition _check_reason_codes (reason_codes : json) (errors : list string)
  : list string :=
  match reason_codes with
  | JList ((_ :: _) as reason_codes) =>
      if existsb bad_code reason_codes
      then push errors "reason_codes entries must be non-empty strings"
      else
        let codes := map str_value reason_codes in
        let errors :=
          if negb (List.length codes =? List.length (PyStr.distinct codes))%nat
          then push errors "reason_codes must not contain duplicates"
          else errors in
        if negb (PyStr.list_eqb codes (PyStr.sorted codes))
        then push errors "reason_codes must be sorted for deterministic ordering"
        else errors
  | _ => push errors "reason_codes must be a non-empty list"
  end.

(** [_check_cost_currency_pair] *)
Definition _check_cost_currency_pair (data : list (string * json))
  (errors : list string) : list string :=
  if Py.has data "cost_estimate" && negb (Py.has data "currency")
  then push errors "currency is required when cost_estimate is present"
  else errors.

Definition is_null (v : json) : bool :=
  match v with
  | JNull => true
  | _ => false
  end.

Section WithBuiltins.

Variable container_eq : json -> json -> bool.
Variable list_gt : list json -> list json -> option bool.
Variable fromisoformat : string -> option bool.

(** [_check_timestamp], the same text as in the logging validator. *)
Definition _check_timestamp (value : json) (errors : list string)
  : list string :=
  Logging._check_timestamp fromisoformat value errors.

(** [_check_selected_matches_fallback] *)
Definition _check_selected_matches_fallback (data : list (string * json))
  (errors : list string) : list string :=
  match Py.get data "fallback_chain" with
  | JList (first :: _) =>
      match first with
      | JDict first =>
          let selected_provider := Py.get data "selected_provider" in
          let selected_model := Py.get data "selected_model" in
          if negb (Py.eq container_eq (Py.get first "provider") selected_provider)
             || negb (Py.eq container_eq (Py.get first "model") selected_model)
          then push errors
                 "selected_provider/selected_model must match fallback_chain[0].provider/model"
          else errors
      | _ => push errors "fallback_chain[0] must be an object"
      end
  | _ => push errors "fallback_chain must be a non-empty list"
  end.

(** [_check_constraint_caps]; [None] is the [TypeError] of [soft > hard] on
    two values without an order. *)
Definition _check_constraint_caps (constraints : json) (errors : list string)
  : option (list string) :=
  match constraints with
  | JDict constraints =>
      let soft := Py.get constraints "daily_soft_cap" in
      let hard := Py.get constraints "daily_hard_cap" in
      if is_null soft || is_null hard then Some errors
      else
        match Py.gt list_gt soft hard with
        | None => None
        | Some true =>
            Some (push errors
                    "constraints.daily_soft_cap must be <= constraints.daily_hard_cap")
        | Some false => Some errors
        end
  | _ => Some errors
  end.

(** The body of [runtime_invariants] up to the final [if errors:]. *)
Definition collect (data : list (string * json)) : option (list string) :=
  let errors : list string := [] in
  let errors := _check_timestamp (Py.get data "timestamp") errors in
  let errors := _check_non_empty_ids data errors in
  let errors := _check_selected_matches_fallback data errors in
  let errors := _check_reason_codes (Py.get data "reason_codes") errors in
  let errors := _check_cost_currency_pair data errors in
  match _check_constraint_caps (Py.get data "constraints") errors with
  | None => None
  | Some errors => Some (SecretScan._scan_secrets (JDict data) "$" errors)
  end.

(** [runtime_invariants] *)
Definition runtime_invariants (data : list (string * json)) : outcome :=
  match collect data with
  | None => Raises TypeError
  | Some errors =>
      raise_if_any "RoutingDecision invariant violation(s):" bullet errors
  end.

End WithBuiltins.
End Routing.

(** ** cost-governor: [validator.py], the validator of raw documents *)

Module CostGovernorDict.

(** [data.get(key, default)] *)
Definition get_or (data : list (string * json)) (key : string) (default : json)
  : json :=
  match Py.lookup key data with
  | Some v => v
  | None => default
  end.

(** [bool(v)], which [not v] tests: [None], [False], a zero, and an empty
    string, list or dict are false. *)
Definition truthy (v : json) : bool :=
  match v with
  | JNull => false
  | JBool b => b
  | JInt n => negb (n =? 0)%Z
  | JFloat f => negb (PrimFloat.eqb f 0%float)
  | JStr s => negb (String.eqb s "")
  | JList items => negb (CostGovernorValidator.is_empty items)
  | JDict fields => negb (CostGovernorValidator.is_empty fields)
  end.

Section WithBuiltins.

Variable float_repr : float -> string.
Variable container_repr : json -> string.
Variable list_gt : list json -> list json -> option bool.

(** The blocks of [runtime_invariants_dict], each as the step it makes on
    [errors]. *)

(** [if hard is not None and soft > hard]; [None] is the [TypeError] of
    [soft > hard] on two values without an order. *)
Definition check_soft_le_hard (soft hard : json) (errors : list string)
  : option (list string) :=
  if Routing.is_null hard then Some errors
  else
    match Py.gt list_gt soft hard with
    | None => None
    | Some true =>
        Some (push errors
                ("daily_soft_cap (" ++ Py.str float_repr container_repr soft
                 ++ ") must be <= daily_hard_cap ("
                 ++ Py.str float_repr container_repr hard ++ ")"))
    | Some false => Some errors
    end.

Definition check_no_hard_cap_policy (hard on_hard : json)
  (errors : list string) : list string :=
  if Routing.is_null hard && negb (Py.eq_str on_hard "none")
  then push errors ("daily_hard_cap is null so on_hard_cap must be 'none', got '"
                    ++ Py.str float_repr container_repr on_hard ++ "'")
  else errors.

Definition check_degrade_ladder (on_soft ladder : json) (errors : list string)
  : list string :=
  if Py.eq_str on_soft "degrade-model" && negb (truthy ladder)
  then push errors
         "on_soft_cap='degrade-model' requires a non-empty model_degrade_ladder"
  else errors.

Definition check_allowlist (on_hard allowlist : json) (errors : list string)
  : list string :=
  if Py.eq_str on_hard "halt-noncritical" && negb (truthy allowlist)
  then push errors
         "on_hard_cap='halt-noncritical' requires a non-empty allowlist_tasks_under_hard_cap"
  else errors.

Definition check_queue_policy (on_soft on_hard qp : json)
  (errors : list string) : list string :=
  let needs_queue :=
    Py.eq_str on_soft "queue-requests"
    || (Py.eq_str on_hard "queue-requests"
        || Py.eq_str on_hard "queue-requests-defer") in
  if needs_queue && Routing.is_null qp
  then push errors
         "queue_policy is required when on_soft_cap or on_hard_cap uses a queue-* action"
  else errors.

(** The body of [runtime_invariants_dict] up to the final [if errors:]. *)
Definition collect (data : list (string * json)) : option (list string) :=
  let errors : list string := [] in
  let soft := get_or data "daily_soft_cap" (JInt 0) in
  let hard := Py.get data "daily_hard_cap" in
  let on_soft := get_or data "on_soft_cap" (JStr "") in
  let on_hard := get_or data "on_hard_cap" (JStr "") in
  let ladder := get_or data "model_degrade_ladder" (JList []) in
  let allowlist := get_or data "allowlist_tasks_under_hard_cap" (JList []) in
  let qp := Py.get data "queue_policy" in
  match check_soft_le_hard soft hard errors with
  | None => None
  | Some errors =>
      let errors := check_no_hard_cap_policy hard on_hard errors in
      let errors := check_degrade_ladder on_soft ladder errors in
      let errors := check_allowlist on_hard allowlist errors in
      let errors :=
        CostGovernorValidator._check_no_secrets_raw (JDict data) "" errors in
      Some (check_queue_policy on_soft on_hard qp errors)
  end.

(** [runtime_invariants_dict] *)
Definition runtime_invariants_dict (data : list (string * json)) : outcome :=
  match collect data with
  | None => Raises TypeError
  | Some errors =>
      raise_if_any "CostGovernor invariant violation(s):" bullet errors
  end.

End WithBuiltins.
End CostGovernorDict.

(** ** cost-governor: [policy_index.py] *)

Module PolicyIndex.
Section WithEnforcer.

(** The [enforce] method of a [casbin.Enforcer]:
    [enforcer.enforce(tier, obj, act, val)], [None] when the call raises. *)
Definition Enforcer : Type :=
  string -> string -> string -> json -> option bool.

(** [load_enforcer()]: what [casbin.Enforcer(str(MODEL_PATH),
    str(POLICY_PATH))] makes of [policy/model.conf] and
    [policy/policy.csv]; [None] when the constructor raises, as it does on
    a file that is missing or that it cannot parse.  The program only reads
    the two files, so every call of a run has the same outcome. *)
Variable load_enforcer : option Enforcer.
Variable float_repr : float -> string.
Variable container_repr : json -> string.

(** [check_cap]; [None] is an exception of [load_enforcer] or of
    [enforce]. *)
Definition check_cap (tier obj act : string) (val : json) : option bool :=
  match load_enforcer with
  | None => None
  | Some enforcer =>
      (* Null/None means no cap, always allowed *)
      if Routing.is_null val then Some true
      else enforcer tier obj act val
  end.

(** [validate_config] *)
Definition validate_config (config : list (string * json)) (tier : string)
  : option (list string) :=
  let errors : list string := [] in
  match check_cap tier "daily" "soft_cap" (Py.get config "daily_soft_cap") with
  | None => None
  | Some allowed =>
      let errors :=
        if negb allowed
        then push errors
               ("daily_soft_cap "
                ++ Py.str float_repr container_repr
                     (Py.get config "daily_soft_cap")
                ++ " exceeds policy for " ++ tier)
        else errors in
      match check_cap tier "daily" "hard_cap"
              (Py.get config "daily_hard_cap") with
      | None => None
      | Some allowed =>
          let errors :=
            if negb allowed
            then push errors
                   ("daily_hard_cap "
                    ++ Py.str float_repr container_repr
                         (Py.get config "daily_hard_cap")
                    ++ " exceeds policy for " ++ tier)
            else errors in
          match check_cap tier "per_request" "cap"
                  (Py.get config "per_request_cap") with
          | None => None
          | Some allowed =>
              Some (if negb allowed
                    then push errors
                           ("per_request_cap "
                            ++ Py.str float_repr container_repr
                                 (Py.get config "per_request_cap")
                            ++ " exceeds policy for " ++ tier)
                    else errors)
          end
      end
  end.

End WithEnforcer.
End PolicyIndex.

(** ** mcp-server-config: [validate-mcp-config.py] *)

Module McpValidate.

(** [isinstance(v, dict)] and [isinstance(v, list)] *)
Definition is_dict (v : json) : bool :=
  match v with
  | JDict _ => true
  | _ => false
  end.

Definition is_list (v : json) : bool :=
  match v with
  | JList _ => true
  | _ => false
  end.

(** [errors.extend(more)] *)
Definition extend (errors more : list string) : list string :=
  (errors ++ more)%list.

(** The body of the loop of [validate_desktop_config]. *)
Definition desktop_server_step (name : string) (server : json)
  (errors : list string) : list string :=
  match server with
  | JDict server =>
      let errors :=
        if negb (Py.has server "command")
        then push errors ("Server '" ++ name ++ "': missing required 'command'")
        else errors in
      let errors :=
        if Py.has server "args" && negb (is_list (Py.get server "args"))
        then push errors ("Server '" ++ name ++ "': 'args' must be an array")
        else errors in
      let errors :=
        if Py.has server "env" && negb (is_dict (Py.get server "env"))
        then push errors ("Server '" ++ name ++ "': 'env' must be an object")
        else errors in
      if Py.has server "autoApprove"
         && negb (is_list (Py.get server "autoApprove"))
      then push errors ("Server '" ++ name ++ "': 'autoApprove' must be an array")
      else errors
  | _ => push errors ("Server '" ++ name ++ "' must be an object")
  end.

(** [validate_desktop_config] *)
Definition validate_desktop_config (config : list (string * json))
  : list string :=
  let errors : list string := [] in
  if negb (Py.has config "mcpServers")
  then push errors "Missing required key: 'mcpServers'"
  else
    match Py.get config "mcpServers" with
    | JDict servers =>
        for_each
          (fun (kv : string * json) errors =>
             let (name, server) := kv in
             desktop_server_step name server errors)
          servers errors
    | _ => push errors "'mcpServers' must be an object"
    end.

(** The body of the loop of [_validate_cli_servers]. *)
Definition cli_server_step (context name : string) (server : json)
  (errors : list string) : list string :=
  match server with
  | JDict server =>
      let errors :=
        if negb (Py.has server "type")
        then push errors
               ("[" ++ context ++ "] Server '" ++ name
                ++ "': missing required 'type' (should be 'stdio')")
        else if negb (Py.eq_str (Py.get server "type") "stdio")
        then push errors
               ("[" ++ context ++ "] Server '" ++ name
                ++ "': type should be 'stdio'")
        else errors in
      let errors :=
        if negb (Py.has server "command")
        then push errors
               ("[" ++ context ++ "] Server '" ++ name
                ++ "': missing required 'command'")
        else errors in
      let errors :=
        if Py.has server "args" && negb (is_list (Py.get server "args"))
        then push errors
               ("[" ++ context ++ "] Server '" ++ name
                ++ "': 'args' must be an array")
        else errors in
      if Py.has server "env" && negb (is_dict (Py.get server "env"))
      then push errors
             ("[" ++ context ++ "] Server '" ++ name
              ++ "': 'env' must be an object")
      else errors
  | _ =>
      push errors ("[" ++ context ++ "] Server '" ++ name ++ "' must be an object")
  end.

(** [_validate_cli_servers] *)
Definition _validate_cli_servers (servers : json) (context : string)
  : list string :=
  let errors : list string := [] in
  match servers with
  | JDict servers =>
      for_each
        (fun (kv : string * json) errors =>
           let (name, server) := kv in
           cli_server_step context name server errors)
        servers errors
  | _ => push errors ("[" ++ context ++ "] 'mcpServers' must be an object")
  end.

(** The body of the loop over the projects of [validate_cli_config]. *)
Definition project_step (project_path : string) (project_config : json)
  (errors : list string) : list string :=
  match project_config with
  | JDict project_config =>
      if Py.has project_config "mcpServers"
      then extend errors
             (_validate_cli_servers (Py.get project_config "mcpServers")
                ("project '" ++ project_path ++ "'"))
      else errors
  | _ => push errors ("Project '" ++ project_path ++ "': must be an object")
  end.

(** [validate_cli_config] *)
Definition validate_cli_config (config : list (string * json)) : list string :=
  let errors : list string := [] in
  (* Check global mcpServers *)
  let errors :=
    if Py.has config "mcpServers"
    then extend errors
           (_validate_cli_servers (Py.get config "mcpServers") "global")
    else errors in
  (* Check project-specific servers *)
  if Py.has config "projects" then
    match Py.get config "projects" with
    | JDict projects =>
        for_each
          (fun (kv : string * json) errors =>
             let (project_path, project_config) := kv in
             project_step project_path project_config errors)
          projects errors
    | _ => push errors "'projects' must be an object"
    end
  else errors.

End McpValidate.

(** ** mcp-server-config: [convert-config.py] *)

Module McpConvert.

(** What a conversion can raise on a document of the wrong shape: a
    missing key, a subscript on a value that is not a dict, [.items()] on
    a value that is not a dict. *)
Inductive error :=
| KeyError (key : string)
| TypeError
| AttributeError.

Inductive result (A : Type) :=
| Return (a : A)
| Raise (e : error).

Arguments Return {A} a.
Arguments Raise {A} e.

Definition bind {A B : Type} (m : result A) (k : A -> result B) : result B :=
  match m with
  | Return a => k a
  | Raise e => Raise e
  end.

Notation "x <- m ;; k" := (bind m (fun x => k))
  (at level 61, m at next level, right associativity).

(** [d[key] = value]: a key that is there keeps its place. *)
Fixpoint dict_set (d : list (string * json)) (key : string) (value : json)
  : list (string * json) :=
  match d with
  | [] => [(key, value)]
  | (k, v) :: rest =>
      if String.eqb k key then (k, value) :: rest
      else (k, v) :: dict_set rest key value
  end.

(** [d.update(other)] *)
Definition dict_update (d other : list (string * json))
  : list (string * json) :=
  fold_left (fun d (kv : string * json) => dict_set d (fst kv) (snd kv)) other d.

(** [v[key]] *)
Definition subscript (v : json) (key : string) : result json :=
  match v with
  | JDict fields =>
      match Py.lookup key fields with
      | Some x => Return x
      | None => Raise (KeyError key)
      end
  | _ => Raise TypeError
  end.

(** [v.items()] *)
Definition items (v : json) : result (list (string * json)) :=
  match v with
  | JDict fields => Return fields
  | _ => Raise AttributeError
  end.

(** [desktop_to_cli_server] *)
Definition desktop_to_cli_server (desktop_server : json)
  : result (list (string * json)) :=
  command <- subscript desktop_server "command" ;;
  match desktop_server with
  | JDict desktop_server =>
      let cli_server := [("type", JStr "stdio"); ("command", command)] in
      let cli_server :=
        if Py.has desktop_server "args"
        then dict_set cli_server "args" (Py.get desktop_server "args")
        else cli_server in
      let cli_server :=
        if Py.has desktop_server "env"
        then dict_set cli_server "env" (Py.get desktop_server "env")
        else cli_server in
      Return cli_server
  | _ => Raise TypeError
  end.

(** [cli_to_desktop_server] *)
Definition cli_to_desktop_server (cli_server : json)
  : result (list (string * json)) :=
  command <- subscript cli_server "command" ;;
  match cli_server with
  | JDict cli_server =>
      let desktop_server := [("command", command)] in
      let desktop_server :=
        if Py.has cli_server "args"
        then dict_set desktop_server "args" (Py.get cli_server "args")
        else desktop_server in
      let desktop_server :=
        if Py.has cli_server "env"
        then dict_set desktop_server "env" (Py.get cli_server "env")
        else desktop_server in
      (* Add empty autoApprove array (common practice) *)
      Return (dict_set desktop_server "autoApprove" (JList []))
  | _ => Raise TypeError
  end.

(** [{name: convert(server) for name, server in items}], filling [acc]. *)
Fixpoint comprehension (convert : json -> result (list (string * json)))
  (servers : list (string * json)) (acc : list (string * json))
  : result (list (string * json)) :=
  match servers with
  | [] => Return acc
  | (name, server) :: rest =>
      converted <- convert server ;;
      comprehension convert rest (dict_set acc name (JDict converted))
  end.

(** [desktop_to_cli] *)
Definition desktop_to_cli (desktop_config : list (string * json))
  : result (list (string * json)) :=
  let cli_config : list (string * json) := [] in
  if Py.has desktop_config "mcpServers" then
    servers <- items (Py.get desktop_config "mcpServers") ;;
    converted <- comprehension desktop_to_cli_server servers [] ;;
    Return (dict_set cli_config "mcpServers" (JDict converted))
  else Return cli_config.

Section WithPath.

(** [Path(project_path).name] *)
Variable path_name : string -> string.

(** [for name, server in project_config["mcpServers"].items()] *)
Fixpoint project_servers (project_path : string)
  (servers : list (string * json)) (all_servers : list (string * json))
  : result (list (string * json)) :=
  match servers with
  | [] => Return all_servers
  | (name, server) :: rest =>
      (* Prefix with project to avoid collisions *)
      let prefixed_name := path_name project_path ++ "-" ++ name in
      converted <- cli_to_desktop_server server ;;
      project_servers project_path rest
        (dict_set all_servers prefixed_name (JDict converted))
  end.

(** [for project_path, project_config in cli_config["projects"].items()] *)
Fixpoint projects_loop (projects : list (string * json))
  (all_servers : list (string * json)) : result (list (string * json)) :=
  match projects with
  | [] => Return all_servers
  | (project_path, project_config) :: rest =>
      match project_config with
      | JDict project_config =>
          if Py.has project_config "mcpServers" then
            servers <- items (Py.get project_config "mcpServers") ;;
            all_servers <- project_servers project_path servers all_servers ;;
            projects_loop rest all_servers
          else projects_loop rest all_servers
      | _ => projects_loop rest all_servers
      end
  end.

(** [cli_to_desktop] *)
Definition cli_to_desktop (cli_config : list (string * json))
  : result (list (string * json)) :=
  let desktop_config : list (string * json) := [] in
  let all_servers : list (string * json) := [] in
  all_servers <-
    (if Py.has cli_config "mcpServers" then
       servers <- items (Py.get cli_config "mcpServers") ;;
       converted <- comprehension cli_to_desktop_server servers [] ;;
       Return (dict_update all_servers converted)
     else Return all_servers) ;;
  all_servers <-
    (if Py.has cli_config "projects" then
       projects <- items (Py.get cli_config "projects") ;;
       projects_loop projects all_servers
     else Return all_servers) ;;
  if negb (CostGovernorValidator.is_empty all_servers)
  then Return (dict_set desktop_config "mcpServers" (JDict all_servers))
  else Return desktop_config.

End WithPath.
End McpConvert.

(** ** Sample inputs

    Stand-ins for the interpreter built-ins and a few configurations and
    documents, on which the statements of Part II are run. *)

Module Sample.

(** Floats are only ever printed into messages; the stand-in prints a
    placeholder. *)
Definition float_repr (f : float) : string := "<float>".

Definition container_repr (v : json) : string := "<container>".

(** Structural equality of two containers is not needed by any sample. *)
Definition container_eq (a b : json) : bool := false.

Definition list_gt (xs ys : list json) : option bool := None.

(** Accepts exactly the texts that end with a UTC offset. *)
Definition fromisoformat (text : string) : option bool :=
  if PyStr.endswith text "+00:00" then Some true else None.

(** [CostGovernor(currency="USD", daily_soft_cap=10, daily_hard_cap=hard,
    on_soft_cap=soft_policy, on_hard_cap=hard_policy, ...)] *)
Definition governor (hard : option float) (soft_policy : OnSoftCap.t)
  (hard_policy : OnHardCap.t) (ladder : list string)
  (qp : option QueuePolicy) : CostGovernor :=
  {| currency := "USD";
     daily_soft_cap := 10%float;
     daily_hard_cap := hard;
     on_soft_cap := soft_policy;
     on_hard_cap := hard_policy;
     model_degrade_ladder := ladder;
     allowlist_tasks_under_hard_cap := [];
     per_request_cap := None;
     reset_timezone := "UTC";
     queue_policy := qp;
     spend_monitoring := None |}.

Definition queue_of_depth (n : Z) : QueuePolicy :=
  {| qp_enabled := true; max_queue_depth := n;
     default_ttl_seconds := 3600;
     drop_policy := DropPolicy.DROP_NONCRITICAL_FIRST |}.

(** A health document with several things wrong at once: an empty service
    name, a summary that counts the one (unhealthy) check as healthy, and a
    status that does not follow from the checks. *)
Definition health_check (state : string) : json :=
  JDict [ ("name", JStr "runtime_ping"); ("probe_type", JStr "liveness");
          ("status", JStr state); ("message", JStr "runtime alive");
          ("duration_ms", JFloat 4.25%float);
          ("timestamp", JStr "2026-02-08T04:00:00Z") ].

Definition health_summary (total healthy degraded unhealthy unknown : Z)
  : json :=
  JDict [ ("total", JInt total); ("healthy", JInt healthy);
          ("degraded", JInt degraded); ("unhealthy", JInt unhealthy);
          ("unknown", JInt unknown) ].

Definition health_document (status service : string) (checks : list json)
  (summary : json) : list (string * json) :=
  [ ("status", JStr status);
    ("timestamp", JStr "2026-02-08T04:00:00Z");
    ("service", JStr service);
    ("checks", JList checks);
    ("summary", summary) ].

Definition broken_health : list (string * json) :=
  health_document "healthy" "" [health_check "unhealthy"]
    (health_summary 1 1 0 0 0).

(** A log event of type "decision" without a link to a routing decision
    and with only one of the two token counts. *)
Definition broken_log_event : list (string * json) :=
  [ ("event_id", JStr "evt-1"); ("task_id", JStr "build-42");
    ("trace_id", JStr "trace-1");
    ("timestamp", JStr "2026-02-08T04:00:00Z");
    ("level", JStr "info"); ("message", JStr "routed");
    ("event_type", JStr "decision");
    ("tokens_in", JInt 12) ].

(** A routing decision whose reason codes are out of order and whose soft
    cap is above its hard cap. *)
Definition broken_routing : list (string * json) :=
  [ ("decision_id", JStr "dec-1"); ("task_id", JStr "build-42");
    ("trace_id", JStr "trace-1");
    ("timestamp", JStr "2026-02-08T04:00:00Z");
    ("selected_provider", JStr "p1"); ("selected_model", JStr "m1");
    ("fallback_chain",
      JList [JDict [("provider", JStr "p1"); ("model", JStr "m1")]]);
    ("reason_codes", JList [JStr "Z_LAST"; JStr "A_FIRST"]);
    ("constraints",
      JDict [ ("privacy_class", JStr "internal");
              ("daily_soft_cap", JFloat 12%float);
              ("daily_hard_cap", JFloat 9%float) ]) ].

(** A configuration that breaks three invariants: soft cap above hard cap,
    DEGRADE_MODEL without a ladder, a queue-* policy without queue_policy. *)
Definition broken_governor : CostGovernor :=
  {| currency := "USD";
     daily_soft_cap := 30%float;
     daily_hard_cap := Some 20%float;
     on_soft_cap := OnSoftCap.DEGRADE_MODEL;
     on_hard_cap := OnHardCap.QUEUE_REQUESTS;
     model_degrade_ladder := [];
     allowlist_tasks_under_hard_cap := [];
     per_request_cap := None;
     reset_timezone := "UTC";
     queue_policy := None;
     spend_monitoring := None |}.

End Sample.

(** ** Notions the statements of Parts II and III are written with *)

(** The flags of a Decision agree with its action. *)
Definition coherent (d : Decision) : Prop :=
  (deferred d = true -> action d = QUEUE) /\
  (log d = true -> action d = ALLOW) /\
  (notify d = true -> action d = ALLOW) /\
  (degraded_model d <> None -> action d = DEGRADE).

(** A step on [errors] that keeps what it is given and only adds at the
    end. *)
Definition appends (step : list string -> list string) : Prop :=
  forall errors, step errors = (errors ++ step [])%list.

(** The same for a step that may raise. *)
Definition appends_or_raises (step : list string -> option (list string))
  : Prop :=
  forall errors, step errors = option_map (app errors) (step []).

(** [result] is what the final [if errors: raise ...] makes of [found]:
    a plain return when nothing was found, and otherwise one
    [InvariantViolation] whose message is the report of all of [found] and
    contains each of its entries. *)
Definition reports_all (header mark : string) (found : list string)
  (result : outcome) : Prop :=
  (found = [] <-> result = Returns) /\
  (found <> [] <->
   result = Raises (InvariantViolation (report header mark found))) /\
  (forall e, In e found ->
     PyStr.str_in e (report header mark found) = true).

(** [concat (f i x_i, f (i+1) x_(i+1), ...)]: the items of a list taken in
    order with their indices. *)
Definition flat_enumerate {A B : Type} (f : nat -> A -> list B)
  : list A -> nat -> list B :=
  fix go (items : list A) (i : nat) :=
    match items with
    | [] => []
    | x :: rest => (f i x ++ go rest (S i))%list
    end.

(** The string values of an object tree with their structural paths, in
    document order: for the dataclass tree of the cost-governor, and for a
    raw tree whose keys extend a path with [child]. *)
Fixpoint typed_values (obj : pyobj) (path : string) : list (string * string) :=
  match obj with
  | PStr s => [(path, s)]
  | PSeq items =>
      flat_enumerate
        (fun i item => typed_values item (CostGovernorValidator.item_path path i))
        items 0%nat
  | PData fields =>
      flat_map
        (fun f : string * pyobj =>
           typed_values (snd f) (CostGovernorValidator.field_path path (fst f)))
        fields
  | PScalar => []
  | PEnum value => [(path, value)]
  end.

Fixpoint raw_values (child : string -> string -> string) (obj : json)
  (path : string) : list (string * string) :=
  match obj with
  | JStr s => [(path, s)]
  | JDict fields =>
      flat_map
        (fun kv : string * json => raw_values child (snd kv) (child path (fst kv)))
        fields
  | JList items =>
      flat_enumerate
        (fun i item => raw_values child item (SecretScan.item_path path i))
        items 0%nat
  | _ => []
  end.

(** The keys of every mapping of a raw tree, each with the path of its
    entry, in document order. *)
Fixpoint raw_keys (child : string -> string -> string) (obj : json)
  (path : string) : list (string * string) :=
  match obj with
  | JDict fields =>
      flat_map
        (fun kv : string * json =>
           (child path (fst kv), fst kv)
           :: raw_keys child (snd kv) (child path (fst kv)))
        fields
  | JList items =>
      flat_enumerate
        (fun i item => raw_keys child item (SecretScan.item_path path i))
        items 0%nat
  | _ => []
  end.

(** How [_scan_secrets] extends a path with a key. *)
Definition dotted (path key : string) : string := path ++ "." ++ key.

(** The findings the spec asks for on one string value [s] at [path]:
    one for a case-insensitive "sk-", one for a case-insensitive "apikey"
    unless [s] begins with the environment-reference marker. *)
Definition sk_finding (path s : string) : string :=
  "Secret-like 'sk-' pattern found at " ++ path ++ ": '"
  ++ PyStr.take 30 s ++ "'".

Definition apikey_finding (path s : string) : string :=
  "Bare apiKey literal found at " ++ path ++ ": '" ++ PyStr.take 30 s ++ "'".

Definition value_findings (at_path : string * string) : list string :=
  let (path, s) := at_path in
  ((if PyStr.search_ignorecase "sk-" s then [sk_finding path s] else [])
   ++ (if PyStr.search_ignorecase "apikey" s
       then if PyStr.startswith s "${" then [] else [apikey_finding path s]
       else []))%list.

(** The status the spec derives from the checks: unhealthy if any check is
    unhealthy; else degraded if any is degraded; else healthy if all are
    healthy and there is at least one; else unknown. *)
Definition status_of_checks (checks : list json) : string :=
  if existsb (Health.has_status "unhealthy") checks then "unhealthy"
  else if existsb (Health.has_status "degraded") checks then "degraded"
  else if forallb (Health.has_status "healthy") checks
          && negb (CostGovernorValidator.is_empty checks) then "healthy"
  else "unknown".

(** [dataclasses.replace(gov, on_hard_cap=policy)] *)
Definition with_on_hard_cap (gov : CostGovernor) (policy : OnHardCap.t)
  : CostGovernor :=
  {| currency := currency gov;
     daily_soft_cap := daily_soft_cap gov;
     daily_hard_cap := daily_hard_cap gov;
     on_soft_cap := on_soft_cap gov;
     on_hard_cap := policy;
     model_degrade_ladder := model_degrade_ladder gov;
     allowlist_tasks_under_hard_cap := allowlist_tasks_under_hard_cap gov;
     per_request_cap := per_request_cap gov;
     reset_timezone := reset_timezone gov;
     queue_policy := queue_policy gov;
     spend_monitoring := spend_monitoring gov |}.

(** The lexicographic order of strings by code point, which [sorted]
    sorts by. *)
Definition lex_le (a b : string) : Prop := String.leb a b = true.

(** A string on which the cost-governor scanner finds nothing: no "sk-" in
    any case, and "apikey" in any case only behind the environment-reference
    marker. *)
Definition clean_string (s : string) : Prop :=
  PyStr.search_ignorecase "sk-" s = false /\
  (PyStr.search_ignorecase "apikey" s = true ->
   PyStr.startswith s "${" = true).

(** The free-text strings of a configuration (the others are enum values). *)
Definition config_strings (gov : CostGovernor) : list string :=
  (currency gov :: model_degrade_ladder gov
   ++ allowlist_tasks_under_hard_cap gov
   ++ reset_timezone gov
   :: match spend_monitoring gov with
      | Some sm => alert_emails sm
      | None => []
      end)%list.

(** What [runtime_invariants] asks of a configuration. *)
Definition valid_config (gov : CostGovernor) : Prop :=
  (forall hard, daily_hard_cap gov = Some hard ->
                float_gt (daily_soft_cap gov) hard = false) /\
  (daily_hard_cap gov = None -> on_hard_cap gov = OnHardCap.NONE) /\
  (on_soft_cap gov = OnSoftCap.DEGRADE_MODEL -> model_degrade_ladder gov <> []) /\
  (on_hard_cap gov = OnHardCap.HALT_NONCRITICAL ->
   allowlist_tasks_under_hard_cap gov <> []) /\
  Forall clean_string (config_strings gov) /\
  (on_soft_cap gov = OnSoftCap.QUEUE_REQUESTS
   \/ on_hard_cap gov = OnHardCap.QUEUE_REQUESTS
   \/ on_hard_cap gov = OnHardCap.QUEUE_REQUESTS_DEFER ->
   queue_policy gov <> None).

(** The entries of every mapping of a raw tree, each as the path of the
    entry, its key and its value, in document order. *)
Fixpoint raw_entries (child : string -> string -> string) (obj : json)
  (path : string) : list (string * (string * json)) :=
  match obj with
  | JDict fields =>
      flat_map
        (fun kv : string * json =>
           (child path (fst kv), kv)
           :: raw_entries child (snd kv) (child path (fst kv)))
        fields
  | JList items =>
      flat_enumerate
        (fun i item => raw_entries child item (SecretScan.item_path path i))
        items 0%nat
  | _ => []
  end.

(** An entry [_scan_secrets] has nothing to say about: no "sk-" in the key,
    and under one of the API-key names only a string that begins with the
    environment-reference marker. *)
Definition clean_entry (entry : string * (string * json)) : Prop :=
  let '(_, (key, value)) := entry in
  PyStr.str_in "sk-" key = false /\
  (Py.mem key SecretScan._API_KEY_FIELDS = true ->
   SecretScan.not_env_reference value = false).

(** A value that is a string with something other than white space in it. *)
Definition non_blank_string (v : json) : Prop :=
  exists s, v = JStr s /\ PyStr.blank s = false.

(** A value the timestamp checkers accept: a string with a "T" whose text,
    with a final "Z" read as "+00:00", parses and carries a timezone. *)
Definition timestamp_ok (fromisoformat : string -> option bool) (v : json)
  : Prop :=
  exists s,
    v = JStr s /\
    PyStr.str_in "T" s = true /\
    fromisoformat (if PyStr.endswith s "Z"
                   then PyStr.drop_last s ++ "+00:00" else s)
    = Some true.

(** A document on which the shared scanner is silent. *)
Definition no_secret (data : list (string * json)) : Prop :=
  Forall (fun at_path => PyStr.str_in "sk-" (snd at_path) = false)
    (raw_values dotted (JDict data) "$")
  /\ Forall clean_entry (raw_entries dotted (JDict data) "$").

(** What the logging validator asks of an event. *)
Definition accepted_log_event (fromisoformat : string -> option bool)
  (event : list (string * json)) : Prop :=
  timestamp_ok fromisoformat (Py.get event "timestamp") /\
  Forall (fun field => non_blank_string (Py.get event field))
    ["event_id"; "task_id"; "trace_id"] /\
  Py.has event "tokens_in" = Py.has event "tokens_out" /\
  (Py.get event "event_type" = JStr "decision" ->
   (non_blank_string (Py.get event "routing_decision_id")
    \/ exists meta routing_decision,
         Py.get event "meta" = JDict meta /\
         Py.get meta "routing_decision" = JDict routing_decision) /\
   (Py.has event "routing_decision_id" = true ->
    non_blank_string (Py.get event "routing_decision_id"))) /\
  (forall decision,
      Py.get event "decision" = JDict decision ->
      (Py.get decision "action" = JStr "DEGRADE" ->
       non_blank_string (Py.get decision "degraded_model")) /\
      (Py.get decision "action" = JStr "QUEUE" ->
       Py.get decision "deferred" = JBool true ->
       exists reason,
         Py.get decision "reason" = JStr reason /\
         PyStr.str_in "defer" (PyStr.lower reason) = true)) /\
  no_secret event.

(** What the routing validator asks of a routing decision. *)
Definition accepted_routing_decision (container_eq : json -> json -> bool)
  (list_gt : list json -> list json -> option bool)
  (fromisoformat : string -> option bool)
  (data : list (string * json)) : Prop :=
  timestamp_ok fromisoformat (Py.get data "timestamp") /\
  Forall (fun field => non_blank_string (Py.get data field))
    ["decision_id"; "task_id"; "trace_id"] /\
  (exists first rest,
      Py.get data "fallback_chain" = JList (JDict first :: rest) /\
      Py.eq container_eq (Py.get first "provider")
        (Py.get data "selected_provider") = true /\
      Py.eq container_eq (Py.get first "model")
        (Py.get data "selected_model") = true) /\
  (exists codes,
      Py.get data "reason_codes" = JList (map JStr codes) /\
      codes <> [] /\
      Forall (fun c => PyStr.blank c = false) codes /\
      NoDup codes /\
      Sorted lex_le codes) /\
  (Py.has data "cost_estimate" = true -> Py.has data "currency" = true) /\
  (forall constraints,
      Py.get data "constraints" = JDict constraints ->
      Py.get constraints "daily_soft_cap" = JNull
      \/ Py.get constraints "daily_hard_cap" = JNull
      \/ Py.gt list_gt (Py.get constraints "daily_soft_cap")
           (Py.get constraints "daily_hard_cap") = Some false) /\
  no_secret data.

(** What [runtime_invariants_dict] asks of a raw document; a key that is
    missing counts as 0 (soft cap), as the empty string (policies), as the
    empty list (ladder, allowlist) and as null (hard cap, queue policy). *)
Definition accepted_raw_config
  (list_gt : list json -> list json -> option bool)
  (data : list (string * json)) : Prop :=
  let soft := CostGovernorDict.get_or data "daily_soft_cap" (JInt 0) in
  let hard := Py.get data "daily_hard_cap" in
  let on_soft := CostGovernorDict.get_or data "on_soft_cap" (JStr "") in
  let on_hard := CostGovernorDict.get_or data "on_hard_cap" (JStr "") in
  let ladder := CostGovernorDict.get_or data "model_degrade_ladder" (JList []) in
  let allowlist :=
    CostGovernorDict.get_or data "allowlist_tasks_under_hard_cap" (JList []) in
  (hard = JNull \/ Py.gt list_gt soft hard = Some false) /\
  (hard = JNull -> on_hard = JStr "none") /\
  (on_soft = JStr "degrade-model" -> CostGovernorDict.truthy ladder = true) /\
  (on_hard = JStr "halt-noncritical" ->
   CostGovernorDict.truthy allowlist = true) /\
  Forall clean_string
    (map snd (raw_values CostGovernorValidator.field_path (JDict data) "")) /\
  (on_soft = JStr "queue-requests"
   \/ on_hard = JStr "queue-requests"
   \/ on_hard = JStr "queue-requests-defer" ->
   Py.get data "queue_policy" <> JNull).

(** A check of a health document as the validator wants it, its name
    apart: a known probe type, a known state, an accepted timestamp. *)
Definition accepted_check (fromisoformat : string -> option bool)
  (check : list (string * json)) : Prop :=
  (exists probe, Py.get check "probe_type" = JStr probe
                 /\ In probe Health._PROBE_TYPES) /\
  (exists state, Py.get check "status" = JStr state
                 /\ In state Health._ALLOWED_STATES) /\
  timestamp_ok fromisoformat (Py.get check "timestamp").

(** A list of checks the health validator accepts after the names in
    [seen]: objects with non-blank names, all different and none of them
    in [seen], each an accepted check. *)
Definition accepted_check_list (fromisoformat : string -> option bool)
  (seen : list string) (checks : list json) : Prop :=
  exists (objects : list (list (string * json))) (names : list string),
    checks = map JDict objects /\
    map (fun check => Py.get check "name") objects = map JStr names /\
    NoDup names /\
    (forall n, In n names -> ~ In n seen) /\
    Forall (fun n => PyStr.blank n = false) names /\
    Forall (accepted_check fromisoformat) objects.

(** What the health validator asks of a document.  The status and the
    summary are looked at only when [summary] is an object. *)
Definition accepted_health_document (fromisoformat : string -> option bool)
  (data : list (string * json)) : Prop :=
  timestamp_ok fromisoformat (Py.get data "timestamp") /\
  non_blank_string (Py.get data "service") /\
  (exists checks,
      Py.get data "checks" = JList checks /\
      checks <> [] /\
      accepted_check_list fromisoformat [] checks /\
      forall summary,
        Py.get data "summary" = JDict summary ->
        Py.get data "status" = JStr (status_of_checks checks) /\
        Forall
          (fun count : string * nat =>
             Py.eq_int (Py.get summary (fst count)) (Z.of_nat (snd count))
             = true)
          (Health.computed_counts checks)) /\
  no_secret data.

(** A server entry the Desktop validator has nothing to say about. *)
Definition desktop_server_ok (server : json) : Prop :=
  exists fields,
    server = JDict fields /\
    Py.has fields "command" = true /\
    (Py.has fields "args" = true ->
     McpValidate.is_list (Py.get fields "args") = true) /\
    (Py.has fields "env" = true ->
     McpValidate.is_dict (Py.get fields "env") = true) /\
    (Py.has fields "autoApprove" = true ->
     McpValidate.is_list (Py.get fields "autoApprove") = true).

(** A server entry the CLI validator has nothing to say about. *)
Definition cli_server_ok (server : json) : Prop :=
  exists fields,
    server = JDict fields /\
    Py.get fields "type" = JStr "stdio" /\
    Py.has fields "command" = true /\
    (Py.has fields "args" = true ->
     McpValidate.is_list (Py.get fields "args") = true) /\
    (Py.has fields "env" = true ->
     McpValidate.is_dict (Py.get fields "env") = true).

(** A value under "mcpServers" the CLI validator accepts. *)
Definition cli_servers_ok (servers : json) : Prop :=
  exists entries,
    servers = JDict entries /\ Forall cli_server_ok (map snd entries).

(** What [validate_desktop_config] asks of a configuration. *)
Definition accepted_desktop_config (config : list (string * json)) : Prop :=
  exists servers,
    Py.lookup "mcpServers" config = Some (JDict servers) /\
    Forall desktop_server_ok (map snd servers).

(** What [validate_cli_config] asks of a configuration. *)
Definition accepted_cli_config (config : list (string * json)) : Prop :=
  (forall servers,
      Py.lookup "mcpServers" config = Some servers -> cli_servers_ok servers) /\
  (forall projects,
      Py.lookup "projects" config = Some projects ->
      exists entries,
        projects = JDict entries /\
        Forall
          (fun project_config =>
             exists fields,
               project_config = JDict fields /\
               forall servers,
                 Py.lookup "mcpServers" fields = Some servers ->
                 cli_servers_ok servers)
          (map snd entries)).

(** The server entries of one object of a CLI configuration (the
    configuration itself, or one project), and of all of it. *)
Definition servers_of (fields : list (string * json)) : list (string * json) :=
  match Py.lookup "mcpServers" fields with
  | Some (JDict entries) => entries
  | _ => []
  end.

Definition project_servers_of (project : string * json)
  : list (string * json) :=
  match snd project with
  | JDict fields => servers_of fields
  | _ => []
  end.

Definition cli_servers_of (config : list (string * json))
  : list (string * json) :=
  (servers_of config
   ++ match Py.lookup "projects" config with
      | Some (JDict projects) => flat_map project_servers_of projects
      | _ => []
      end)%list.

(** ** More sample inputs *)

(** A raw cost-governor document that breaks three invariants. *)
Definition broken_raw_config : list (string * json) :=
  [ ("currency", JStr "USD");
    ("daily_soft_cap", JInt 30); ("daily_hard_cap", JInt 20);
    ("on_soft_cap", JStr "degrade-model");
    ("on_hard_cap", JStr "queue-requests") ].

Module McpSample.

Definition desktop_server : list (string * json) :=
  [ ("command", JStr "npx");
    ("args", JList [JStr "-y"; JStr "@modelcontextprotocol/server-filesystem"]);
    ("autoApprove", JList [JStr "read_file"]) ].

Definition desktop_config : list (string * json) :=
  [ ("mcpServers",
      JDict [ ("filesystem", JDict desktop_server);
              ("git", JDict [("command", JStr "uvx");
                             ("env", JDict [("HOME", JStr "/home/dev")])]) ]);
    ("globalSettings", JDict []) ].

Definition cli_config : list (string * json) :=
  [ ("mcpServers",
      JDict [ ("filesystem",
                JDict [("type", JStr "stdio"); ("command", JStr "npx")]) ]);
    ("projects",
      JDict [ ("/home/dev/app",
                JDict [ ("mcpServers",
                          JDict [ ("git",
                                    JDict [("type", JStr "stdio");
                                           ("command", JStr "uvx")]) ]) ]);
              ("/home/dev/empty", JDict []) ]) ].

(** A stand-in for [Path(p).name] that serves the sample: the text after
    the last "/" of the two project paths. *)
Definition path_name (project_path : string) : string :=
  if String.eqb project_path "/home/dev/app" then "app" else "empty".

End McpSample.

(** The assignments [all_servers[name] = ...] that [cli_to_desktop] makes,
    in their order: the servers of the configuration under their names,
    then the servers of each project under their names prefixed with
    [Path(project_path).name]. *)
Definition project_assignments (path_name : string -> string)
  (project : string * json) : list (string * json) :=
  map (fun kv : string * json =>
         (path_name (fst project) ++ "-" ++ fst kv, snd kv))
    (project_servers_of project).

Definition cli_assignments (path_name : string -> string)
  (config : list (string * json)) : list (string * json) :=
  (servers_of config
   ++ match Py.lookup "projects" config with
      | Some (JDict projects) =>
          flat_map (project_assignments path_name) projects
      | _ => []
      end)%list.

(** The server last assigned to [name]. *)
Definition last_assigned (name : string) (assignments : list (string * json))
  : option json :=
  Py.lookup name (rev assignments).

(** [all_servers] holds, under every name, the conversion of the server
    last assigned to it, and nothing under any other name. *)
Definition holds_converted
  (convert : json -> McpConvert.result (list (string * json)))
  (assignments all_servers : list (string * json)) : Prop :=
  forall name,
    match last_assigned name assignments with
    | Some server =>
        exists converted,
          convert server = McpConvert.Return converted /\
          Py.lookup name all_servers = Some (JDict converted)
    | None => Py.lookup name all_servers = None
    end.

(** A value that cannot be hashed, and so cannot be looked up in a set. *)
Definition unhashable (v : json) : bool :=
  match v with
  | JList _ | JDict _ => true
  | _ => false
  end.

(** An item of [checks] on which the health validator breaks off: an object
    whose probe type or status cannot be hashed. *)
Definition unhashable_check (item : json) : Prop :=
  exists check,
    item = JDict check /\
    (unhashable (Py.get check "probe_type") = true
     \/ unhashable (Py.get check "status") = true).

(** ** The rules of the four contracts and their findings

    Each rule of a contract, stated on the document, with the finding it
    leads to when it is violated; [found] is the list of findings of one
    call. *)
















(* ================================================================== *)
(** * Part II — properties                                              *)
(* ================================================================== *)

(** ** The decision engine *)

Section DecisionFacts.
Import DecisionEngine.

Variable float_repr : float -> string.
Local Abbreviation evaluate := (DecisionEngine.evaluate float_repr).

Lemma overflow_full gov d depth qp :
  queue_policy gov = Some qp ->
  (max_queue_depth qp <= depth)%Z ->
  _apply_queue_overflow gov d depth = Decision_default BLOCK "queue_overflow".
Proof.
  intros Hqp Hle. unfold _apply_queue_overflow. rewrite Hqp. cbn.
  destruct (Z.geb_spec depth (max_queue_depth qp)) as [_|Hlt]; [reflexivity|lia].
Qed.

Lemma overflow_room gov d depth qp :
  queue_policy gov = Some qp ->
  (depth < max_queue_depth qp)%Z ->
  _apply_queue_overflow gov d depth = d.
Proof.
  intros Hqp Hlt. unfold _apply_queue_overflow. rewrite Hqp. cbn.
  destruct (Z.geb_spec depth (max_queue_depth qp)) as [Hge|_]; [lia|reflexivity].
Qed.

Lemma overflow_no_policy gov d depth :
  queue_policy gov = None -> _apply_queue_overflow gov d depth = d.
Proof. intros Hqp. unfold _apply_queue_overflow. now rewrite Hqp. Qed.

(** Case analysis on the tests of [evaluate], in the order the source makes
    them. *)
Ltac split_phases gov est spent :=
  unfold DecisionEngine.evaluate, queue_outcome, per_request_gate,
    hard_cap_crossed, soft_cap_crossed in *;
  let cap := fresh "cap" in
  let hard := fresh "hard" in
  destruct (per_request_cap gov) as [cap|];
  [destruct (float_gt est cap)|];
  (destruct (daily_hard_cap gov) as [hard|];
   [destruct (float_gt (spent + est) hard)|]);
  destruct (float_gt (spent + est) (daily_soft_cap gov)).

(** Whenever the dispatch builds a QUEUE outcome, [evaluate] is that outcome
    passed through [_apply_queue_overflow]. *)
Lemma evaluate_queue_outcome gov est spent task crit depth d :
  queue_outcome gov est spent = Some d ->
  action d = QUEUE /\
  evaluate gov est spent task crit depth = _apply_queue_overflow gov d depth.
Proof.
  split_phases gov est spent; try discriminate;
    destruct (on_hard_cap gov); try discriminate;
    destruct (on_soft_cap gov); try discriminate;
    intros [= <-]; split; reflexivity.
Qed.

(** [queue_outcome] is defined exactly on the three queue-* branches. *)
Lemma queue_outcome_branches gov est spent d :
  queue_outcome gov est spent = Some d <->
  per_request_gate gov est = false /\
  ((hard_cap_crossed gov (spent + est) = true /\
    on_hard_cap gov = OnHardCap.QUEUE_REQUESTS /\
    d = Decision_default QUEUE "hard_cap_exceeded: queue-requests")
   \/ (hard_cap_crossed gov (spent + est) = true /\
       on_hard_cap gov = OnHardCap.QUEUE_REQUESTS_DEFER /\
       d = {| action := QUEUE;
              reason := "hard_cap_exceeded: queue-requests-defer";
              deferred := true; degraded_model := None;
              log := false; notify := false |})
   \/ (hard_cap_crossed gov (spent + est) = false /\
       soft_cap_crossed gov (spent + est) = true /\
       on_soft_cap gov = OnSoftCap.QUEUE_REQUESTS /\
       d = Decision_default QUEUE "soft_cap_exceeded: queue-requests")).
Proof.
  unfold queue_outcome.
  destruct (per_request_gate gov est); [split; [discriminate|intros [? _]; discriminate]|].
  destruct (hard_cap_crossed gov (spent + est)).
  - destruct (on_hard_cap gov); split;
      try discriminate;
      try (intros [= <-]; split; [reflexivity|]; auto 6);
      intros [_ [(_ & E & ->)|[(_ & E & ->)|(E & _)]]];
      try discriminate; reflexivity.
  - destruct (soft_cap_crossed gov (spent + est)).
    + destruct (on_soft_cap gov); split;
        try discriminate;
        try (intros [= <-]; split; [reflexivity|]; auto 8);
        intros [_ [(E & _)|[(E & _)|(_ & _ & E & ->)]]];
        try discriminate; reflexivity.
    + split; [discriminate|].
      intros [_ [(E & _)|[(E & _)|(_ & E & _)]]]; discriminate.
Qed.

(** C1 — queue overflow.  Whenever the hard-cap or soft-cap dispatch of
    [evaluate] builds a QUEUE outcome [d] ([queue_outcome], characterised by
    [queue_outcome_branches]): with a [queue_policy], a [queue_depth] at or
    above [max_queue_depth] turns the result into BLOCK with reason
    "queue_overflow" and a smaller depth returns [d]; in particular depth
    [max_queue_depth] blocks and depth [max_queue_depth - 1] queues.  Without
    a [queue_policy] the QUEUE outcome [d] is returned unchanged. *)
Theorem C1_queue_overflow gov est spent task crit depth d :
  queue_outcome gov est spent = Some d ->
  action d = QUEUE /\
  (forall qp, queue_policy gov = Some qp ->
     ((max_queue_depth qp <= depth)%Z ->
      evaluate gov est spent task crit depth
      = Decision_default BLOCK "queue_overflow") /\
     ((depth < max_queue_depth qp)%Z ->
      evaluate gov est spent task crit depth = d) /\
     evaluate gov est spent task crit (max_queue_depth qp)
     = Decision_default BLOCK "queue_overflow" /\
     evaluate gov est spent task crit (max_queue_depth qp - 1) = d) /\
  (queue_policy gov = None -> evaluate gov est spent task crit depth = d).
Proof.
  intros Hq.
  split; [exact (proj1 (evaluate_queue_outcome gov est spent task crit depth d Hq))|].
  split.
  - intros qp Hqp. repeat split.
    + intros Hle.
      rewrite (proj2 (evaluate_queue_outcome gov est spent task crit depth d Hq)).
      now apply overflow_full with qp.
    + intros Hlt.
      rewrite (proj2 (evaluate_queue_outcome gov est spent task crit depth d Hq)).
      now apply overflow_room with qp.
    + rewrite (proj2 (evaluate_queue_outcome gov est spent task crit _ d Hq)).
      apply overflow_full with qp; [assumption|lia].
    + rewrite (proj2 (evaluate_queue_outcome gov est spent task crit _ d Hq)).
      apply overflow_room with qp; [assumption|lia].
  - intros Hnone.
    rewrite (proj2 (evaluate_queue_outcome gov est spent task crit depth d Hq)).
    now apply overflow_no_policy.
Qed.

(** C3 — DEGRADE_MODEL picks the head of the ladder.  With
    [on_soft_cap = DEGRADE_MODEL] and a ladder [m :: rest], whenever the
    request reaches the soft-cap phase (the per-request gate and the hard-cap
    phase did not resolve) and the projected spend exceeds [daily_soft_cap],
    the Decision is DEGRADE with [degraded_model = m]. *)
Theorem C3_degrade_first_of_ladder gov est spent task crit depth m rest :
  on_soft_cap gov = OnSoftCap.DEGRADE_MODEL ->
  model_degrade_ladder gov = m :: rest ->
  per_request_gate gov est = false ->
  hard_cap_crossed gov (spent + est) = false ->
  soft_cap_crossed gov (spent + est) = true ->
  evaluate gov est spent task crit depth
  = {| action := DEGRADE; reason := "soft_cap_exceeded: degrade-model";
       deferred := false; degraded_model := Some m;
       log := false; notify := false |}
  /\ degraded_model (evaluate gov est spent task crit depth)
     = hd_error (model_degrade_ladder gov).
Proof.
  intros Hpol Hladder Hgate Hhard Hsoft.
  assert (E : evaluate gov est spent task crit depth
              = {| action := DEGRADE; reason := "soft_cap_exceeded: degrade-model";
                   deferred := false; degraded_model := Some m;
                   log := false; notify := false |}).
  { split_phases gov est spent; try discriminate;
      rewrite Hpol, Hladder; reflexivity. }
  split; [exact E|]. rewrite E, Hladder. reflexivity.
Qed.

(** C4 — the defensive branch.  With a hard cap set, [on_hard_cap = NONE],
    the per-request gate not fired and the projected spend above the hard
    cap, [evaluate] returns (it is a total function: nothing is raised) a
    BLOCK Decision whose reason contains "invariant_violation". *)
Theorem C4_invariant_violation_blocks gov est spent task crit depth hard :
  daily_hard_cap gov = Some hard ->
  on_hard_cap gov = OnHardCap.NONE ->
  per_request_gate gov est = false ->
  float_gt (spent + est) hard = true ->
  evaluate gov est spent task crit depth
  = Decision_default BLOCK
      "invariant_violation: on_hard_cap='none' with non-null daily_hard_cap"
  /\ action (evaluate gov est spent task crit depth) = BLOCK
  /\ PyStr.str_in "invariant_violation"
       (reason (evaluate gov est spent task crit depth)) = true.
Proof.
  intros Hhard Hpol Hgate Hgt.
  assert (E : evaluate gov est spent task crit depth
              = Decision_default BLOCK
                  "invariant_violation: on_hard_cap='none' with non-null daily_hard_cap").
  { unfold DecisionEngine.evaluate, per_request_gate in *.
    rewrite Hhard, Hgt, Hpol.
    destruct (per_request_cap gov) as [cap|]; [rewrite Hgate|]; reflexivity. }
  rewrite E. repeat split; reflexivity.
Qed.

Lemma coherent_default a r : coherent (Decision_default a r).
Proof. repeat split; cbn; try discriminate; intros H; now elim H. Qed.

Lemma coherent_overflow gov d depth :
  coherent d -> coherent (_apply_queue_overflow gov d depth).
Proof.
  intros Hd. unfold _apply_queue_overflow.
  destruct (queue_policy gov) as [qp|]; [|exact Hd].
  cbn. destruct (depth >=? max_queue_depth qp)%Z;
    [apply coherent_default | exact Hd].
Qed.

(** C10 — flag coherence.  For every configuration and every input, the
    Decision of [evaluate] has [deferred] only on QUEUE, [log] and [notify]
    only on ALLOW, and a [degraded_model] only on DEGRADE. *)
Theorem C10_flags_follow_action gov est spent task crit depth :
  let d := evaluate gov est spent task crit depth in
  (deferred d = true -> action d = QUEUE) /\
  (log d = true -> action d = ALLOW) /\
  (notify d = true -> action d = ALLOW) /\
  (degraded_model d <> None -> action d = DEGRADE).
Proof.
  cbv zeta. change (coherent (evaluate gov est spent task crit depth)).
  unfold DecisionEngine.evaluate.
  destruct (per_request_cap gov) as [cap|];
    [destruct (float_gt est cap); [apply coherent_default|]|];
    (destruct (daily_hard_cap gov) as [hard|];
     [destruct (float_gt (spent + est) hard);
      [destruct (on_hard_cap gov); [| destruct crit | | |];
       try apply coherent_default;
       apply coherent_overflow; try apply coherent_default;
       repeat split; cbn; try discriminate; intros H; now elim H|]|]);
    (destruct (float_gt (spent + est) (daily_soft_cap gov));
     [destruct (on_soft_cap gov);
      try (apply coherent_overflow; apply coherent_default);
      repeat split; cbn; try discriminate; try (intros H; now elim H)
     | apply coherent_default]).
Qed.

End DecisionFacts.

(** A run of C1: soft cap 10, hard cap 20, [on_hard_cap = QUEUE_REQUESTS],
    a queue of depth 3; the request costs 5 after 18 were spent. *)
Lemma C1_queue_overflow_run :
  let gov := Sample.governor (Some 20%float) OnSoftCap.LOG_ONLY
               OnHardCap.QUEUE_REQUESTS [] (Some (Sample.queue_of_depth 3)) in
  action (DecisionEngine.evaluate Sample.float_repr gov 5 18 "task" false 3)
  = BLOCK /\
  action (DecisionEngine.evaluate Sample.float_repr gov 5 18 "task" false 2)
  = QUEUE.
Proof.
  cbv zeta.
  pose proof (C1_queue_overflow Sample.float_repr
                (Sample.governor (Some 20%float) OnSoftCap.LOG_ONLY
                   OnHardCap.QUEUE_REQUESTS [] (Some (Sample.queue_of_depth 3)))
                5 18 "task" false 3
                (Decision_default QUEUE "hard_cap_exceeded: queue-requests")
                eq_refl) as [_ [H _]].
  destruct (H (Sample.queue_of_depth 3) eq_refl) as (_ & _ & Hfull & Hroom).
  split.
  - exact (f_equal action Hfull).
  - exact (f_equal action Hroom).
Defined.

Lemma C3_degrade_first_of_ladder_run :
  degraded_model
    (DecisionEngine.evaluate Sample.float_repr
       (Sample.governor (Some 20%float) OnSoftCap.DEGRADE_MODEL
          OnHardCap.HALT_ALL ["small"; "tiny"] None)
       5 8 "task" false 0)
  = Some "small".
Proof.
  exact (f_equal degraded_model
           (proj1 (C3_degrade_first_of_ladder Sample.float_repr
                     (Sample.governor (Some 20%float) OnSoftCap.DEGRADE_MODEL
                        OnHardCap.HALT_ALL ["small"; "tiny"] None)
                     5 8 "task" false 0 "small" ["tiny"]
                     eq_refl eq_refl eq_refl eq_refl eq_refl))).
Defined.

Lemma C4_invariant_violation_blocks_run :
  action
    (DecisionEngine.evaluate Sample.float_repr
       (Sample.governor (Some 20%float) OnSoftCap.LOG_ONLY OnHardCap.NONE
          [] None)
       5 18 "task" false 0)
  = BLOCK.
Proof.
  exact (proj1 (proj2
           (C4_invariant_violation_blocks Sample.float_repr
              (Sample.governor (Some 20%float) OnSoftCap.LOG_ONLY
                 OnHardCap.NONE [] None)
              5 18 "task" false 0 20%float
              eq_refl eq_refl eq_refl eq_refl))).
Defined.

(** ** Strings *)

Section StringFacts.

Lemma prefix_refl_app (n rest : string) : String.prefix n (n ++ rest) = true.
Proof.
  induction n as [|c n IH]; cbn.
  - now destruct rest.
  - destruct (ascii_dec c c) as [_|Hne]; [exact IH|now elim Hne].
Qed.

Lemma prefix_app_r (n h rest : string) :
  String.prefix n h = true -> String.prefix n (h ++ rest) = true.
Proof.
  revert h. induction n as [|c n IH]; intros h H.
  - now destruct (h ++ rest).
  - destruct h as [|d h]; cbn in *; [discriminate|].
    destruct (ascii_dec c d); [now apply IH|discriminate].
Qed.

Lemma str_in_prefix (n h : string) :
  String.prefix n h = true -> PyStr.str_in n h = true.
Proof. destruct h; cbn; intros ->; reflexivity. Qed.

Lemma str_in_here (n rest : string) : PyStr.str_in n (n ++ rest) = true.
Proof. apply str_in_prefix, prefix_refl_app. Qed.

Lemma str_in_app_l (n h before : string) :
  PyStr.str_in n h = true -> PyStr.str_in n (before ++ h) = true.
Proof.
  intros H. induction before as [|c before IH]; cbn; [exact H|].
  rewrite IH. apply orb_true_r.
Qed.

(** An occurrence of [n] between any two texts is found. *)
Lemma str_in_middle (n before rest : string) :
  PyStr.str_in n (before ++ n ++ rest) = true.
Proof. apply str_in_app_l, str_in_here. Qed.

Lemma str_in_refl (n : string) : PyStr.str_in n n = true.
Proof.
  destruct n; [reflexivity|]. cbn.
  destruct (ascii_dec a a) as [_|Hne]; [|now elim Hne].
  pose proof (prefix_refl_app n "") as H.
  assert (E : n ++ "" = n) by (clear; induction n; cbn; congruence).
  rewrite E in H. rewrite H. reflexivity.
Qed.

(** Every part of a joined text occurs in it. *)
Lemma str_in_join (sep e : string) (parts : list string) :
  In e parts -> PyStr.str_in e (PyStr.join sep parts) = true.
Proof.
  unfold PyStr.join.
  induction parts as [|p parts IH]; [intros []|].
  intros [->|Hin]; cbn.
  - destruct parts; [apply str_in_refl|apply str_in_here].
  - destruct parts as [|q parts]; [destruct Hin|].
    apply str_in_app_l, str_in_app_l. exact (IH Hin).
Qed.

Lemma app_assoc_str (a b c : string) : (a ++ b) ++ c = a ++ b ++ c.
Proof. induction a; cbn; congruence. Qed.

Lemma prefix_split (n h : string) :
  String.prefix n h = true -> exists rest, h = n ++ rest.
Proof.
  revert h. induction n as [|c n IH]; intros h H.
  - now exists h.
  - destruct h as [|d h]; cbn in H; [discriminate|].
    destruct (ascii_dec c d) as [<-|]; [|discriminate].
    destruct (IH h H) as [rest ->]. now exists rest.
Qed.

(** [n in h] holds exactly when [h] is some text, then [n], then some text. *)
Lemma str_in_iff (n h : string) :
  PyStr.str_in n h = true <-> exists before rest, h = before ++ n ++ rest.
Proof.
  split.
  - induction h as [|c h IH]; cbn; intros H.
    + rewrite orb_false_r in H. destruct n; [|discriminate].
      now exists "", "".
    + apply orb_true_iff in H as [H|H].
      * destruct (prefix_split n (String c h) H) as [rest E].
        exists "", rest. exact E.
      * destruct (IH H) as (before & rest & ->).
        now exists (String c before), rest.
  - intros (before & rest & ->). apply str_in_middle.
Qed.

Lemma str_in_trans (a b c : string) :
  PyStr.str_in a b = true -> PyStr.str_in b c = true ->
  PyStr.str_in a c = true.
Proof.
  intros Hab Hbc.
  apply str_in_iff in Hab as (p & q & ->).
  apply str_in_iff in Hbc as (r & s & ->).
  apply str_in_iff. exists (r ++ p), (q ++ s).
  now rewrite !app_assoc_str.
Qed.

(** Every entry of [errors] occurs in its report. *)
Lemma report_mentions (header mark e : string) (errors : list string) :
  In e errors -> PyStr.str_in e (report header mark errors) = true.
Proof.
  intros Hin. unfold report.
  apply str_in_app_l, str_in_app_l.
  apply str_in_trans with ("  " ++ mark ++ " " ++ e).
  - apply str_in_app_l, str_in_app_l, str_in_app_l, str_in_refl.
  - apply str_in_join.
    apply (in_map (fun e => "  " ++ mark ++ " " ++ e)) in Hin. exact Hin.
Qed.

End StringFacts.

(** ** Steps that only append *)

Section Accumulation.

Lemma appends_id : appends (fun errors => errors).
Proof. intros errors. now rewrite app_nil_r. Qed.

Lemma appends_push (msg : string) : appends (fun errors => push errors msg).
Proof. intros errors. reflexivity. Qed.

Lemma appends_if (b : bool) (s1 s2 : list string -> list string) :
  appends s1 -> appends s2 ->
  appends (fun errors => if b then s1 errors else s2 errors).
Proof. intros H1 H2 errors. destruct b; [apply H1|apply H2]. Qed.

Lemma appends_then (s1 s2 : list string -> list string) :
  appends s1 -> appends s2 -> appends (fun errors => s2 (s1 errors)).
Proof.
  intros H1 H2 errors.
  rewrite (H2 (s1 errors)), (H2 (s1 [])), (H1 errors), app_assoc.
  reflexivity.
Qed.

Lemma for_each_found {A} (body : A -> list string -> list string) items :
  Forall (fun x => appends (body x)) items ->
  forall errors,
    for_each body items errors
    = (errors ++ flat_map (fun x => body x []) items)%list.
Proof.
  induction 1 as [|x items Hx _ IH]; intros errors; cbn.
  - now rewrite app_nil_r.
  - rewrite IH, (Hx errors), app_assoc. reflexivity.
Qed.

Lemma for_enumerate_found {A} (body : nat -> A -> list string -> list string)
  items :
  Forall (fun x => forall i, appends (body i x)) items ->
  forall i errors,
    for_enumerate body items i errors
    = (errors ++ flat_enumerate (fun i x => body i x []) items i)%list.
Proof.
  induction 1 as [|x items Hx _ IH]; intros i errors; cbn.
  - now rewrite app_nil_r.
  - rewrite IH, (Hx i errors), app_assoc. reflexivity.
Qed.

Lemma flat_enumerate_ext {A B} (f g : nat -> A -> list B) items :
  Forall (fun x => forall i, f i x = g i x) items ->
  forall i, flat_enumerate f items i = flat_enumerate g items i.
Proof.
  induction 1 as [|x items Hx _ IH]; intros i; cbn; [reflexivity|].
  now rewrite Hx, IH.
Qed.

Lemma flat_map_ext_Forall {A B} (f g : A -> list B) items :
  Forall (fun x => f x = g x) items -> flat_map f items = flat_map g items.
Proof.
  induction 1 as [|x items Hx _ IH]; cbn; [reflexivity|]. now rewrite Hx, IH.
Qed.

Lemma flat_enumerate_app {A B} (f : nat -> A -> list B) (h : B -> list string)
  items i :
  flat_map h (flat_enumerate f items i)
  = flat_enumerate (fun i x => flat_map h (f i x)) items i.
Proof.
  revert i. induction items as [|x items IH]; intros i; cbn; [reflexivity|].
  now rewrite flat_map_app, IH.
Qed.

Lemma flat_map_nested {A B C} (f : A -> list B) (h : B -> list C) items :
  flat_map h (flat_map f items) = flat_map (fun x => flat_map h (f x)) items.
Proof.
  induction items as [|x items IH]; cbn; [reflexivity|].
  now rewrite flat_map_app, IH.
Qed.

Lemma flat_enumerate_In {A B C} (f : nat -> A -> list B)
  (g : nat -> A -> list C) (b : B) (c : C) items :
  Forall (fun x => forall i, In b (f i x) -> In c (g i x)) items ->
  forall i, In b (flat_enumerate f items i) -> In c (flat_enumerate g items i).
Proof.
  induction 1 as [|x items Hx _ IH]; intros i; cbn; [intros []|].
  rewrite !in_app_iff. intros [H|H]; [left; now apply Hx|right; now apply IH].
Qed.

Lemma flat_map_In {A B C} (f : A -> list B) (g : A -> list C) (b : B) (c : C)
  items :
  Forall (fun x => In b (f x) -> In c (g x)) items ->
  In b (flat_map f items) -> In c (flat_map g items).
Proof.
  induction 1 as [|x items Hx _ IH]; cbn; [intros []|].
  rewrite !in_app_iff. intros [H|H]; [left; now apply Hx|right; now apply IH].
Qed.

End Accumulation.

(** ** Induction over document trees *)

Section TreeInduction.

Lemma json_tree_ind (P : json -> Prop) :
  P JNull -> (forall b, P (JBool b)) -> (forall n, P (JInt n)) ->
  (forall f, P (JFloat f)) -> (forall s, P (JStr s)) ->
  (forall items, Forall P items -> P (JList items)) ->
  (forall fields, Forall (fun kv => P (snd kv)) fields -> P (JDict fields)) ->
  forall v, P v.
Proof.
  intros Hnull Hbool Hint Hfloat Hstr Hlist Hdict.
  fix IH 1. intros [| b | n | f | s | items | fields].
  - exact Hnull.
  - apply Hbool.
  - apply Hint.
  - apply Hfloat.
  - apply Hstr.
  - apply Hlist. induction items as [|x items IHitems]; constructor.
    + apply IH.
    + exact IHitems.
  - apply Hdict. induction fields as [|[k v] fields IHfields]; constructor.
    + apply IH.
    + exact IHfields.
Qed.

Lemma pyobj_tree_ind (P : pyobj -> Prop) :
  (forall s, P (PStr s)) ->
  (forall items, Forall P items -> P (PSeq items)) ->
  (forall fields, Forall (fun f => P (snd f)) fields -> P (PData fields)) ->
  P PScalar -> (forall value, P (PEnum value)) ->
  forall obj, P obj.
Proof.
  intros Hstr Hseq Hdata Hscalar Henum.
  fix IH 1. intros [s | items | fields | | value].
  - apply Hstr.
  - apply Hseq. induction items as [|x items IHitems]; constructor.
    + apply IH.
    + exact IHitems.
  - apply Hdata. induction fields as [|[k v] fields IHfields]; constructor.
    + apply IH.
    + exact IHfields.
  - exact Hscalar.
  - apply Henum.
Qed.

End TreeInduction.

(** ** The secret scanners *)

Section ScannerFacts.
Import CostGovernorValidator.

(** On one string, the scanner finds what the spec asks for. *)
Lemma scan_str_found (s path : string) (errors : list string) :
  scan_str s path errors = (errors ++ value_findings (path, s))%list.
Proof.
  unfold scan_str, value_findings, push, sk_finding, apikey_finding,
    _SK_PATTERN, _API_KEY_PATTERN.
  destruct (PyStr.search_ignorecase "sk-" s),
           (PyStr.search_ignorecase "apikey" s),
           (PyStr.startswith s "${"); cbn [andb negb app];
    rewrite <- ?app_assoc, ?app_nil_r; reflexivity.
Qed.

(** The scanner of the typed aggregate reports, after what it was given,
    the findings of every string of the tree, in document order. *)
Lemma check_no_secrets_found (obj : pyobj) :
  forall path errors,
    _check_no_secrets obj path errors
    = (errors ++ flat_map value_findings (typed_values obj path))%list.
Proof.
  induction obj as [s | items IH | fields IH | | value] using pyobj_tree_ind;
    intros path errors; cbn [_check_no_secrets typed_values].
  - rewrite scan_str_found. cbn. now rewrite app_nil_r.
  - rewrite for_enumerate_found.
    + f_equal. rewrite flat_enumerate_app.
      apply flat_enumerate_ext.
      eapply Forall_impl; [|exact IH]. intros x Hx i. now rewrite Hx.
    + eapply Forall_impl; [|exact IH]. intros x Hx i e.
      now rewrite Hx, (Hx _ []).
  - rewrite for_each_found.
    + f_equal. rewrite flat_map_nested.
      apply flat_map_ext_Forall.
      eapply Forall_impl; [|exact IH]. intros [name val] Hx. cbn in *.
      now rewrite Hx.
    + eapply Forall_impl; [|exact IH]. intros [name val] Hx e.
      cbn in Hx. now rewrite Hx, (Hx _ []).
  - now rewrite app_nil_r.
  - rewrite scan_str_found. cbn. now rewrite app_nil_r.
Qed.

(** The same for the scanner of raw trees. *)
Lemma check_no_secrets_raw_found (obj : json) :
  forall path errors,
    _check_no_secrets_raw obj path errors
    = (errors ++ flat_map value_findings (raw_values field_path obj path))%list.
Proof.
  induction obj as [| b | n | f | s | items IH | fields IH] using json_tree_ind;
    intros path errors; cbn [_check_no_secrets_raw raw_values flat_map];
    rewrite ?app_nil_r; try reflexivity.
  - now rewrite scan_str_found.
  - rewrite for_enumerate_found.
    + f_equal. rewrite flat_enumerate_app.
      apply flat_enumerate_ext.
      eapply Forall_impl; [|exact IH]. intros x Hx i. now rewrite Hx.
    + eapply Forall_impl; [|exact IH]. intros x Hx i e.
      now rewrite Hx, (Hx _ []).
  - rewrite for_each_found.
    + f_equal. rewrite flat_map_nested.
      apply flat_map_ext_Forall.
      eapply Forall_impl; [|exact IH]. intros [k v] Hx. cbn in *.
      now rewrite Hx.
    + eapply Forall_impl; [|exact IH]. intros [k v] Hx e.
      cbn in Hx. now rewrite Hx, (Hx _ []).
Qed.

Lemma scan_key_appends key value key_path :
  appends (SecretScan.scan_key key value key_path).
Proof.
  unfold SecretScan.scan_key.
  apply (appends_then
           (fun errors => if PyStr.str_in "sk-" key then push errors _ else errors)
           (fun errors =>
              if Py.mem key SecretScan._API_KEY_FIELDS
              then if SecretScan.not_env_reference value
                   then push errors _ else errors
              else errors)).
  - apply appends_if; [apply appends_push|apply appends_id].
  - apply appends_if; [|apply appends_id].
    apply appends_if; [apply appends_push|apply appends_id].
Qed.

(** What [_scan_secrets] finds in a list and in a dict, item by item. *)
Lemma scan_secrets_appends (obj : json) :
  forall path, appends (SecretScan._scan_secrets obj path).
Proof.
  induction obj as [| b | n | f | s | items IH | fields IH] using json_tree_ind;
    intros path; cbn [SecretScan._scan_secrets]; try apply appends_id.
  - apply appends_if; [apply appends_push|apply appends_id].
  - intros errors. rewrite !for_enumerate_found; try reflexivity;
      (eapply Forall_impl; [|exact IH]; intros x Hx i; apply Hx).
  - assert (Hbody : Forall
      (fun kv : string * json =>
         appends (fun errors =>
                    let (key, value) := kv in
                    let key_path := path ++ "." ++ key in
                    let errors := SecretScan.scan_key key value key_path errors in
                    SecretScan._scan_secrets value key_path errors)) fields).
    { eapply Forall_impl; [|exact IH]. intros [k v] Hx. cbn in Hx.
      apply (appends_then (SecretScan.scan_key k v (path ++ "." ++ k))
               (SecretScan._scan_secrets v (path ++ "." ++ k)));
        [apply scan_key_appends|apply Hx]. }
    intros errors. rewrite !for_each_found; try reflexivity; exact Hbody.
Qed.

Lemma scan_secrets_list items path :
  SecretScan._scan_secrets (JList items) path []
  = flat_enumerate
      (fun i item =>
         SecretScan._scan_secrets item (SecretScan.item_path path i) [])
      items 0%nat.
Proof.
  cbn [SecretScan._scan_secrets]. rewrite for_enumerate_found; [reflexivity|].
  apply Forall_forall. intros x _ i. apply scan_secrets_appends.
Qed.

Lemma scan_secrets_dict fields path :
  SecretScan._scan_secrets (JDict fields) path []
  = flat_map
      (fun kv : string * json =>
         (SecretScan.scan_key (fst kv) (snd kv) (dotted path (fst kv)) []
          ++ SecretScan._scan_secrets (snd kv) (dotted path (fst kv)) [])%list)
      fields.
Proof.
  cbn [SecretScan._scan_secrets]. rewrite for_each_found.
  - cbn [app]. apply flat_map_ext. intros [k v]. cbn.
    apply (scan_secrets_appends v).
  - apply Forall_forall. intros [k v] _.
    apply (appends_then (SecretScan.scan_key k v (path ++ "." ++ k))
             (SecretScan._scan_secrets v (path ++ "." ++ k)));
      [apply scan_key_appends|apply scan_secrets_appends].
Qed.

(** Every string value with the exact text "sk-" in it is reported. *)
Lemma scan_secrets_values (obj : json) :
  forall path p s,
    In (p, s) (raw_values dotted obj path) ->
    PyStr.str_in "sk-" s = true ->
    In ("secret-like 'sk-' substring found at " ++ p)
       (SecretScan._scan_secrets obj path []).
Proof.
  induction obj as [| b | n | f | s0 | items IH | fields IH] using json_tree_ind;
    intros path p s Hin Hsk; cbn [raw_values] in Hin; try (now destruct Hin).
  - destruct Hin as [[= <- <-]|[]]. cbn. rewrite Hsk. now left.
  - rewrite scan_secrets_list.
    revert Hin. apply flat_enumerate_In.
    eapply Forall_impl; [|exact IH]. intros x Hx i Hin. now apply Hx with s.
  - rewrite scan_secrets_dict.
    revert Hin. apply flat_map_In.
    eapply Forall_impl; [|exact IH]. intros [k v] Hx Hin. cbn in *.
    apply in_or_app. right. now apply Hx with s.
Qed.

(** Every map key with "sk-" in it is reported at the path of its entry. *)
Lemma scan_secrets_keys (obj : json) :
  forall path key_path key,
    In (key_path, key) (raw_keys dotted obj path) ->
    PyStr.str_in "sk-" key = true ->
    In ("secret-like 'sk-' substring found in key at " ++ key_path)
       (SecretScan._scan_secrets obj path []).
Proof.
  induction obj as [| b | n | f | s0 | items IH | fields IH] using json_tree_ind;
    intros path key_path key Hin Hsk; cbn [raw_keys] in Hin;
    try (now destruct Hin).
  - rewrite scan_secrets_list.
    revert Hin. apply flat_enumerate_In.
    eapply Forall_impl; [|exact IH]. intros x Hx i Hin. now apply Hx with key.
  - rewrite scan_secrets_dict.
    revert Hin. apply flat_map_In.
    eapply Forall_impl; [|exact IH]. intros [k v] Hx Hin. cbn in *.
    apply in_or_app. destruct Hin as [[= <- <-]|Hin].
    + left. unfold SecretScan.scan_key. rewrite Hsk.
      destruct (Py.mem k SecretScan._API_KEY_FIELDS);
        [destruct (SecretScan.not_env_reference v)|]; cbn; auto.
    + right. now apply Hx with key.
Qed.

Lemma findings_differ p s : sk_finding p s <> apikey_finding p s.
Proof. unfold sk_finding, apikey_finding. cbn. discriminate. Qed.

(** C6 (as amended) — string values.  The two scanners of the cost-governor
    (the dataclass walk and the raw-tree walk) flag every string value of
    the tree, at any depth and at its structural path, when it contains
    "sk-" case-insensitively, and when it contains "apikey"
    case-insensitively unless it begins with the environment-reference
    marker, which is never flagged for "apikey"; what they
    report is exactly the findings of all the string values in document
    order, so every occurrence is there.  The scanner shared by the health,
    logging and routing validators flags every string value that contains
    the exact text "sk-". *)
Theorem C6_secret_scan_values :
  (forall obj path errors p s,
      In (p, s) (typed_values obj path) ->
      (PyStr.search_ignorecase "sk-" s = true ->
       In (sk_finding p s) (_check_no_secrets obj path errors)) /\
      (PyStr.search_ignorecase "apikey" s = true ->
       PyStr.startswith s "${" = false ->
       In (apikey_finding p s) (_check_no_secrets obj path errors))) /\
  (forall obj path errors p s,
      In (p, s) (raw_values field_path obj path) ->
      (PyStr.search_ignorecase "sk-" s = true ->
       In (sk_finding p s) (_check_no_secrets_raw obj path errors)) /\
      (PyStr.search_ignorecase "apikey" s = true ->
       PyStr.startswith s "${" = false ->
       In (apikey_finding p s) (_check_no_secrets_raw obj path errors))) /\
  (forall obj path errors,
      _check_no_secrets obj path errors
      = (errors ++ flat_map value_findings (typed_values obj path))%list) /\
  (forall obj path errors,
      _check_no_secrets_raw obj path errors
      = (errors ++ flat_map value_findings (raw_values field_path obj path))%list) /\
  (forall p s,
      PyStr.startswith s "${" = true ->
      ~ In (apikey_finding p s) (value_findings (p, s))) /\
  (forall obj path errors p s,
      In (p, s) (raw_values dotted obj path) ->
      PyStr.str_in "sk-" s = true ->
      In ("secret-like 'sk-' substring found at " ++ p)
         (SecretScan._scan_secrets obj path errors)).
Proof.
  assert (Hone : forall p s,
             (PyStr.search_ignorecase "sk-" s = true ->
              In (sk_finding p s) (value_findings (p, s))) /\
             (PyStr.search_ignorecase "apikey" s = true ->
              PyStr.startswith s "${" = false ->
              In (apikey_finding p s) (value_findings (p, s)))).
  { intros p s. unfold value_findings. split.
    - intros ->. apply in_or_app. left. now left.
    - intros -> ->. apply in_or_app. right. now left. }
  repeat split.
  - intros Hsk. rewrite check_no_secrets_found. apply in_or_app. right.
    apply in_flat_map. exists (p, s). split; [assumption|now apply Hone].
  - intros Hk Hm. rewrite check_no_secrets_found. apply in_or_app. right.
    apply in_flat_map. exists (p, s). split; [assumption|now apply Hone].
  - intros Hsk. rewrite check_no_secrets_raw_found. apply in_or_app. right.
    apply in_flat_map. exists (p, s). split; [assumption|now apply Hone].
  - intros Hk Hm. rewrite check_no_secrets_raw_found. apply in_or_app. right.
    apply in_flat_map. exists (p, s). split; [assumption|now apply Hone].
  - apply check_no_secrets_found.
  - apply check_no_secrets_raw_found.
  - intros p s Hm. unfold value_findings. rewrite Hm.
    destruct (PyStr.search_ignorecase "sk-" s),
             (PyStr.search_ignorecase "apikey" s); cbn; try tauto;
      intros [H|[]]; now apply (findings_differ p s).
  - intros obj path errors p s Hin Hsk.
    rewrite (scan_secrets_appends obj path errors).
    apply in_or_app. right. now apply scan_secrets_values with s.
Qed.

(** C7 (as amended) — map keys.  In the scanner shared by the health,
    logging and routing validators, every key of every mapping of the tree
    that contains "sk-" is reported, at the path of its entry. *)
Theorem C7_secret_scan_keys obj path errors key_path key :
  In (key_path, key) (raw_keys dotted obj path) ->
  PyStr.str_in "sk-" key = true ->
  In ("secret-like 'sk-' substring found in key at " ++ key_path)
     (SecretScan._scan_secrets obj path errors).
Proof.
  intros Hin Hsk.
  rewrite (scan_secrets_appends obj path errors).
  apply in_or_app. right. now apply scan_secrets_keys with key.
Qed.

End ScannerFacts.

(** The health scanner lets an upper-case "SK-" and a bare "apikey" value
    through, although both match case-insensitively. *)
Lemma C6_shared_scanner_is_case_sensitive :
  PyStr.search_ignorecase "sk-" "SK-LIVE-123" = true /\
  PyStr.search_ignorecase "apikey" "my ApiKey" = true /\
  PyStr.startswith "my ApiKey" "${" = false /\
  In ("$.meta.note", "SK-LIVE-123")
     (raw_values dotted
        (JDict [("meta", JDict [("note", JStr "SK-LIVE-123");
                                ("hint", JStr "my ApiKey")])]) "$") /\
  SecretScan._scan_secrets
    (JDict [("meta", JDict [("note", JStr "SK-LIVE-123");
                            ("hint", JStr "my ApiKey")])]) "$" []
  = [].
Proof. repeat split; try reflexivity. cbn. now left. Qed.

(** The raw scanner of the cost-governor looks at values only: a key with
    "sk-" in it goes unreported. *)
Lemma C7_raw_scanner_skips_keys :
  PyStr.str_in "sk-" "sk-live-abc" = true /\
  In ("sk-live-abc", "sk-live-abc")
     (raw_keys CostGovernorValidator.field_path
        (JDict [("sk-live-abc", JBool true)]) "") /\
  CostGovernorValidator._check_no_secrets_raw
    (JDict [("sk-live-abc", JBool true)]) "" []
  = [].
Proof. repeat split; try reflexivity. cbn. now left. Qed.

Lemma C7_secret_scan_keys_run :
  In "secret-like 'sk-' substring found in key at $.meta.sk-live-abc"
     (SecretScan._scan_secrets
        (JDict [("meta", JDict [("sk-live-abc", JBool true)])]) "$" []).
Proof.
  apply (C7_secret_scan_keys
           (JDict [("meta", JDict [("sk-live-abc", JBool true)])]) "$" []
           "$.meta.sk-live-abc" "sk-live-abc").
  - cbn. right. now left.
  - reflexivity.
Defined.

(** ** The final [if errors: raise] *)

Section Reporting.

Lemma raise_if_any_reports header mark found :
  reports_all header mark found (raise_if_any header mark found).
Proof.
  unfold reports_all. repeat split.
  - now intros ->.
  - destruct found; [reflexivity|discriminate].
  - destruct found as [|x found]; [intros H; now elim H|reflexivity].
  - destruct found; [discriminate|]. intros _. discriminate.
  - intros e Hin. now apply report_mentions.
Qed.

End Reporting.

(** ** The invariants of a cost-governor configuration *)

Section CostGovernorFacts.
Import CostGovernorValidator.

Variable float_repr : float -> string.

Lemma check_soft_le_hard_appends gov : appends (check_soft_le_hard float_repr gov).
Proof.
  unfold check_soft_le_hard. destruct (daily_hard_cap gov); [|apply appends_id].
  apply appends_if; [apply appends_push|apply appends_id].
Qed.

Lemma check_no_hard_cap_policy_appends gov :
  appends (check_no_hard_cap_policy gov).
Proof. apply appends_if; [apply appends_push|apply appends_id]. Qed.

Lemma check_degrade_ladder_appends gov : appends (check_degrade_ladder gov).
Proof. apply appends_if; [apply appends_push|apply appends_id]. Qed.

Lemma check_allowlist_appends gov : appends (check_allowlist gov).
Proof. apply appends_if; [apply appends_push|apply appends_id]. Qed.

Lemma check_secrets_appends gov : appends (check_secrets gov).
Proof.
  intros errors. unfold check_secrets.
  now rewrite check_no_secrets_found, (check_no_secrets_found _ _ []).
Qed.

Lemma check_queue_policy_appends gov : appends (check_queue_policy gov).
Proof. apply appends_if; [apply appends_push|apply appends_id]. Qed.

(** The errors of [runtime_invariants] are the findings of its six blocks,
    one after the other. *)
Lemma collect_found gov :
  collect float_repr gov
  = (check_soft_le_hard float_repr gov []
     ++ check_no_hard_cap_policy gov []
     ++ check_degrade_ladder gov []
     ++ check_allowlist gov []
     ++ check_secrets gov []
     ++ check_queue_policy gov [])%list.
Proof.
  unfold collect.
  rewrite (check_queue_policy_appends gov), (check_secrets_appends gov),
    (check_allowlist_appends gov), (check_degrade_ladder_appends gov),
    (check_no_hard_cap_policy_appends gov).
  now rewrite <- !app_assoc.
Qed.

Lemma hard_policy_eqb_spec (x y : OnHardCap.t) :
  OnHardCap.eqb x y = true <-> x = y.
Proof. destruct x, y; cbn; split; congruence. Qed.

(** C2 — no hard cap.  For a configuration with [daily_hard_cap = None]:
    [runtime_invariants] reports the "must be 'none'" violation (and raises)
    unless [on_hard_cap] is NONE, so it returns only when [on_hard_cap] is
    NONE; and [evaluate] never resolves in the hard-cap phase: its result
    does not depend on [on_hard_cap], its reason begins neither with
    "hard_cap_exceeded" nor with "invariant_violation", and it blocks only
    through the per-request gate or a queue overflow. *)
Theorem C2_no_hard_cap gov est spent task crit depth :
  daily_hard_cap gov = None ->
  (on_hard_cap gov <> OnHardCap.NONE ->
   In ("daily_hard_cap is null so on_hard_cap must be 'none', got '"
       ++ OnHardCap.value (on_hard_cap gov) ++ "'")
      (collect float_repr gov) /\
   runtime_invariants float_repr gov
   = Raises (InvariantViolation
               (report "CostGovernor invariant violation(s):" bullet
                  (collect float_repr gov)))) /\
  (runtime_invariants float_repr gov = Returns ->
   on_hard_cap gov = OnHardCap.NONE) /\
  (let d := DecisionEngine.evaluate float_repr gov est spent task crit depth in
   (forall policy,
      DecisionEngine.evaluate float_repr (with_on_hard_cap gov policy)
        est spent task crit depth = d) /\
   PyStr.startswith (reason d) "hard_cap_exceeded" = false /\
   PyStr.startswith (reason d) "invariant_violation" = false /\
   (action d = BLOCK ->
    DecisionEngine.per_request_gate gov est = true
    \/ d = Decision_default BLOCK "queue_overflow")).
Proof.
  intros Hnone.
  assert (Hviol : on_hard_cap gov <> OnHardCap.NONE ->
            In ("daily_hard_cap is null so on_hard_cap must be 'none', got '"
                ++ OnHardCap.value (on_hard_cap gov) ++ "'")
               (collect float_repr gov)).
  { intros Hpol. rewrite collect_found.
    apply in_or_app. right. apply in_or_app. left.
    unfold check_no_hard_cap_policy. rewrite Hnone. cbn [is_none andb].
    destruct (OnHardCap.eqb (on_hard_cap gov) OnHardCap.NONE) eqn:E.
    - apply hard_policy_eqb_spec in E. contradiction.
    - cbn. now left. }
  split; [|split].
  - intros Hpol. split; [now apply Hviol|].
    unfold runtime_invariants, raise_if_any.
    specialize (Hviol Hpol).
    destruct (collect float_repr gov); [destruct Hviol|reflexivity].
  - intros Hret.
    destruct (OnHardCap.eqb (on_hard_cap gov) OnHardCap.NONE) eqn:E.
    + now apply hard_policy_eqb_spec.
    + assert (Hpol : on_hard_cap gov <> OnHardCap.NONE).
      { intros H. apply hard_policy_eqb_spec in H. congruence. }
      specialize (Hviol Hpol).
      unfold runtime_invariants, raise_if_any in Hret.
      destruct (collect float_repr gov); [destruct Hviol|discriminate].
  - cbv zeta. unfold DecisionEngine.evaluate, DecisionEngine.per_request_gate,
      DecisionEngine._apply_queue_overflow.
    cbn [with_on_hard_cap per_request_cap daily_hard_cap daily_soft_cap
           on_soft_cap on_hard_cap model_degrade_ladder queue_policy].
    rewrite Hnone.
    split; [reflexivity|].
    destruct (per_request_cap gov) as [cap|];
      [destruct (float_gt est cap);
       [repeat split; try reflexivity; intros _; now left|]|];
      (destruct (float_gt (spent + est) (daily_soft_cap gov));
       [destruct (on_soft_cap gov);
        try (repeat split; try reflexivity; cbn; discriminate);
        (destruct (queue_policy gov) as [qp|];
         [cbn; destruct (depth >=? max_queue_depth qp)%Z|]);
        repeat split; try reflexivity; cbn; try discriminate;
        intros _; now right
       |repeat split; try reflexivity; cbn; discriminate]).
Qed.

End CostGovernorFacts.

Lemma C2_no_hard_cap_run :
  CostGovernorValidator.runtime_invariants Sample.float_repr
    (Sample.governor None OnSoftCap.LOG_ONLY OnHardCap.HALT_ALL [] None)
  = Raises (InvariantViolation
              (report "CostGovernor invariant violation(s):" bullet
                 (CostGovernorValidator.collect Sample.float_repr
                    (Sample.governor None OnSoftCap.LOG_ONLY OnHardCap.HALT_ALL
                       [] None)))).
Proof.
  refine (proj2 (proj1 (C2_no_hard_cap Sample.float_repr
                          (Sample.governor None OnSoftCap.LOG_ONLY
                             OnHardCap.HALT_ALL [] None)
                          5 18 "task" false 0 eq_refl) _)).
  discriminate.
Defined.

(** ** Every checker only appends to [errors] *)

Section CheckerFacts.

Variable float_repr : float -> string.
Variable container_repr : json -> string.
Variable container_eq : json -> json -> bool.
Variable list_gt : list json -> list json -> option bool.
Variable fromisoformat : string -> option bool.

(** Closes a goal [step errors = errors ++ step []] once every test of the
    step has been decided. *)
Ltac by_cases :=
  repeat match goal with
         | |- context [if ?b then _ else _] => destruct b
         end;
  unfold push; cbn [app]; rewrite ?app_nil_r, <- ?app_assoc; cbn [app];
  reflexivity.

Lemma option_map_app_app (errors found : list string)
  (x : option (list string)) :
  option_map (app errors) (option_map (app found) x)
  = option_map (app (errors ++ found)%list) x.
Proof. destruct x; cbn; [now rewrite app_assoc|reflexivity]. Qed.

Lemma health_timestamp_appends value field :
  appends (Health._check_timestamp fromisoformat value field).
Proof.
  intros errors. unfold Health._check_timestamp.
  destruct value; try by_cases.
  destruct (negb (PyStr.str_in "T" s)); [by_cases|].
  destruct (fromisoformat _) as [[|]|]; by_cases.
Qed.

Lemma service_name_appends value : appends (Health._check_service_name value).
Proof. intros errors. unfold Health._check_service_name. destruct value; by_cases. Qed.

Lemma check_items_appends checks :
  forall idx seen_names,
    appends_or_raises (Health.check_items fromisoformat checks idx seen_names).
Proof.
  unfold appends_or_raises.
  induction checks as [|check rest IH]; intros idx seen_names errors;
    cbn [Health.check_items].
  - cbn. now rewrite app_nil_r.
  - destruct check as [| | | | | |check];
      try (rewrite (IH _ _ (push errors _)), (IH _ _ (push [] _)),
             option_map_app_app; reflexivity).
    destruct (Py.get check "name") as [| | | |name| |];
      try destruct (PyStr.blank name);
      try destruct (Py.mem name seen_names);
      (destruct (Py.in_str_set (Py.get check "probe_type") Health._PROBE_TYPES)
         as [[|]|]; [| |reflexivity]);
      (destruct (Py.in_str_set (Py.get check "status") Health._ALLOWED_STATES)
         as [[|]|]; [| |reflexivity]);
      repeat match goal with
             | |- context [Health._check_timestamp ?f ?v ?fld ?e] =>
                 lazymatch e with
                 | [] => fail
                 | _ => rewrite (health_timestamp_appends v fld e)
                 end
             end;
      repeat match goal with
             | |- context [Health.check_items ?f ?r ?i ?s ?e] =>
                 lazymatch e with
                 | [] => fail
                 | _ => rewrite (IH i s e)
                 end
             end;
      rewrite ?option_map_app_app; do 2 f_equal;
      unfold push; cbn [app]; rewrite ?app_nil_r, <- ?app_assoc; cbn [app];
      reflexivity.
Qed.

Lemma check_checks_appends checks :
  appends_or_raises (Health._check_checks fromisoformat checks).
Proof.
  intros errors. unfold Health._check_checks.
  destruct checks as [| | | | |[|x items]|]; try reflexivity.
  apply check_items_appends.
Qed.

Lemma summary_and_status_appends data :
  appends (Health._check_summary_and_status float_repr container_repr data).
Proof.
  intros errors. unfold Health._check_summary_and_status.
  destruct (Py.get data "checks"); try (now rewrite app_nil_r).
  destruct (Py.get data "summary"); try (now rewrite app_nil_r).
  cbn [for_each Health.computed_counts]. by_cases.
Qed.

Lemma logging_timestamp_appends value :
  appends (Logging._check_timestamp fromisoformat value).
Proof.
  intros errors. unfold Logging._check_timestamp.
  destruct value; try by_cases.
  destruct (negb (PyStr.str_in "T" s)); [by_cases|].
  destruct (fromisoformat _) as [[|]|]; by_cases.
Qed.

Lemma logging_ids_appends event_dict :
  appends (Logging._check_non_empty_ids event_dict).
Proof.
  intros errors. unfold Logging._check_non_empty_ids. cbn [for_each]. by_cases.
Qed.

Lemma tokens_appends event_dict : appends (Logging._check_tokens event_dict).
Proof. intros errors. unfold Logging._check_tokens. by_cases. Qed.

Lemma decision_link_appends event_dict :
  appends (Logging._check_decision_link event_dict).
Proof.
  intros errors. unfold Logging._check_decision_link.
  destruct (negb (Py.eq_str (Py.get event_dict "event_type") "decision"));
    [now rewrite app_nil_r|].
  by_cases.
Qed.

Lemma decision_appends decision : appends (Logging._check_decision decision).
Proof.
  intros errors. unfold Logging._check_decision.
  destruct decision; try (now rewrite app_nil_r).
  destruct (Py.eq_str (Py.get fields "action") "DEGRADE");
    [destruct (negb (Logging.non_empty_str (Py.get fields "degraded_model")))|];
    (destruct (Py.eq_str (Py.get fields "action") "QUEUE"
               && match Py.get fields "deferred" with
                  | JBool true => true
                  | _ => false
                  end);
     [destruct (match Py.get fields "reason" with
                | JStr reason => negb (PyStr.str_in "defer" (PyStr.lower reason))
                | _ => true
                end)|]);
    unfold push; cbn [app]; rewrite ?app_nil_r, <- ?app_assoc; reflexivity.
Qed.

Lemma routing_ids_appends data : appends (Routing._check_non_empty_ids data).
Proof.
  intros errors. unfold Routing._check_non_empty_ids. cbn [for_each]. by_cases.
Qed.

Lemma selected_appends data :
  appends (Routing._check_selected_matches_fallback container_eq data).
Proof.
  intros errors. unfold Routing._check_selected_matches_fallback.
  destruct (Py.get data "fallback_chain") as [| | | | |[|first rest]|];
    try by_cases.
  destruct first; by_cases.
Qed.

Lemma reason_codes_appends reason_codes :
  appends (Routing._check_reason_codes reason_codes).
Proof.
  intros errors. unfold Routing._check_reason_codes.
  destruct reason_codes as [| | | | |[|first rest]|]; by_cases.
Qed.

Lemma cost_currency_appends data :
  appends (Routing._check_cost_currency_pair data).
Proof. intros errors. unfold Routing._check_cost_currency_pair. by_cases. Qed.

Lemma constraint_caps_appends constraints :
  appends_or_raises (Routing._check_constraint_caps list_gt constraints).
Proof.
  intros errors. unfold Routing._check_constraint_caps.
  destruct constraints; cbn; try (now rewrite app_nil_r).
  destruct (Routing.is_null _ || Routing.is_null _);
    [cbn; now rewrite app_nil_r|].
  destruct (Py.gt list_gt _ _) as [[|]|]; cbn;
    rewrite ?app_nil_r; reflexivity.
Qed.

End CheckerFacts.

(** ** The four validators accumulate *)

Section ValidatorFacts.

Variable float_repr : float -> string.
Variable container_repr : json -> string.
Variable container_eq : json -> json -> bool.
Variable list_gt : list json -> list json -> option bool.
Variable fromisoformat : string -> option bool.

Lemma health_collect_found data found_checks :
  Health._check_checks fromisoformat (Py.get data "checks") []
  = Some found_checks ->
  Health.collect float_repr container_repr fromisoformat data
  = Some (Health._check_timestamp fromisoformat (Py.get data "timestamp")
            "timestamp" []
          ++ Health._check_service_name (Py.get data "service") []
          ++ found_checks
          ++ Health._check_summary_and_status float_repr container_repr data []
          ++ SecretScan._scan_secrets (JDict data) "$" [])%list.
Proof.
  intros Hchecks. unfold Health.collect.
  rewrite (check_checks_appends fromisoformat), Hchecks. cbn [option_map].
  rewrite (scan_secrets_appends (JDict data) "$"),
    (summary_and_status_appends float_repr container_repr data),
    (service_name_appends (Py.get data "service")).
  now rewrite <- !app_assoc.
Qed.

Lemma logging_collect_found event_dict :
  Logging.collect fromisoformat event_dict
  = (Logging._check_timestamp fromisoformat (Py.get event_dict "timestamp") []
     ++ Logging._check_non_empty_ids event_dict []
     ++ Logging._check_tokens event_dict []
     ++ Logging._check_decision_link event_dict []
     ++ Logging._check_decision (Py.get event_dict "decision") []
     ++ SecretScan._scan_secrets (JDict event_dict) "$" [])%list.
Proof.
  unfold Logging.collect.
  rewrite (scan_secrets_appends (JDict event_dict) "$"),
    (decision_appends (Py.get event_dict "decision")),
    (decision_link_appends event_dict), (tokens_appends event_dict),
    (logging_ids_appends event_dict).
  now rewrite <- !app_assoc.
Qed.

Lemma routing_collect_found data found_caps :
  Routing._check_constraint_caps list_gt (Py.get data "constraints") []
  = Some found_caps ->
  Routing.collect container_eq list_gt fromisoformat data
  = Some (Routing._check_timestamp fromisoformat (Py.get data "timestamp") []
          ++ Routing._check_non_empty_ids data []
          ++ Routing._check_selected_matches_fallback container_eq data []
          ++ Routing._check_reason_codes (Py.get data "reason_codes") []
          ++ Routing._check_cost_currency_pair data []
          ++ found_caps
          ++ SecretScan._scan_secrets (JDict data) "$" [])%list.
Proof.
  intros Hcaps. unfold Routing.collect.
  rewrite (constraint_caps_appends list_gt), Hcaps. cbn [option_map].
  rewrite (scan_secrets_appends (JDict data) "$"),
    (cost_currency_appends data),
    (reason_codes_appends (Py.get data "reason_codes")),
    (selected_appends container_eq data), (routing_ids_appends data).
  now rewrite <- !app_assoc.
Qed.

End ValidatorFacts.

(** ** Health: the status and the summary follow from the checks *)

Section HealthFacts.

Variable float_repr : float -> string.
Variable container_repr : json -> string.

Lemma filter_length_le {A} (f : A -> bool) (xs : list A) :
  (List.length (filter f xs) <= List.length xs)%nat.
Proof.
  induction xs as [|x xs IH]; cbn; [lia|]. destruct (f x); cbn; lia.
Qed.

(** Some item passes [f] exactly when the tally of [f] is positive. *)
Lemma tally_positive {A} (f : A -> bool) (xs : list A) :
  (0 <? List.length (filter f xs))%nat = existsb f xs.
Proof.
  induction xs as [|x xs IH]; cbn; [reflexivity|].
  destruct (f x); cbn; [reflexivity|exact IH].
Qed.

(** All items pass [f] exactly when the tally of [f] is the length. *)
Lemma tally_full {A} (f : A -> bool) (xs : list A) :
  (List.length (filter f xs) =? List.length xs)%nat = forallb f xs.
Proof.
  induction xs as [|x xs IH]; cbn; [reflexivity|].
  destruct (f x); cbn; [exact IH|].
  pose proof (filter_length_le f xs).
  apply Nat.eqb_neq. lia.
Qed.

(** [_derive_status] on the tallies of the checks is the status the spec
    derives from the checks. *)
Lemma derive_status_of_checks (checks : list json) :
  Health._derive_status (Health.computed_counts checks)
  = status_of_checks checks.
Proof.
  unfold Health._derive_status, status_of_checks.
  change (Health.item (Health.computed_counts checks) "unhealthy")
    with (Health.count_status checks "unhealthy").
  change (Health.item (Health.computed_counts checks) "degraded")
    with (Health.count_status checks "degraded").
  change (Health.item (Health.computed_counts checks) "healthy")
    with (Health.count_status checks "healthy").
  change (Health.item (Health.computed_counts checks) "total")
    with (List.length checks).
  unfold Health.count_status. rewrite !tally_positive, tally_full.
  destruct checks; reflexivity.
Qed.

Lemma eq_str_iff (v : json) (s : string) :
  Py.eq_str v s = true <-> v = JStr s.
Proof.
  destruct v; cbn; split; try discriminate.
  - intros H. apply String.eqb_eq in H. now subst.
  - intros [= ->]. apply String.eqb_refl.
Qed.

(** An integer of a document equals an integer exactly when they are the
    same number. *)
Lemma eq_int_JInt (n m : Z) : Py.eq_int (JInt n) m = true <-> n = m.
Proof.
  unfold Py.eq_int, Py.number_eqb. cbn.
  rewrite !Z.mul_1_r.
  destruct (Z.compare_spec n m); split; congruence || lia.
Qed.

(** C8 — derived status and summary.  For a health document with a list of
    checks and a summary object, [_check_summary_and_status] reports nothing
    exactly when the [status] field is the status derived from the checks
    (unhealthy if any check is unhealthy; else degraded if any is degraded;
    else healthy if all are healthy and there is at least one; else
    unknown) and each of the five summary counts equals the tally of the
    checks; any mismatch is therefore reported.  [_derive_status] computes
    that derived status from the tallies. *)
Theorem C8_status_and_summary data checks summary :
  Py.get data "checks" = JList checks ->
  Py.get data "summary" = JDict summary ->
  (Health._check_summary_and_status float_repr container_repr data [] = []
   <->
   Py.get data "status" = JStr (status_of_checks checks) /\
   Py.eq_int (Py.get summary "total") (Z.of_nat (List.length checks)) = true /\
   Py.eq_int (Py.get summary "healthy")
     (Z.of_nat (Health.count_status checks "healthy")) = true /\
   Py.eq_int (Py.get summary "degraded")
     (Z.of_nat (Health.count_status checks "degraded")) = true /\
   Py.eq_int (Py.get summary "unhealthy")
     (Z.of_nat (Health.count_status checks "unhealthy")) = true /\
   Py.eq_int (Py.get summary "unknown")
     (Z.of_nat (Health.count_status checks "unknown")) = true) /\
  Health._derive_status (Health.computed_counts checks)
  = status_of_checks checks.
Proof.
  intros Hchecks Hsummary. split; [|apply derive_status_of_checks].
  unfold Health._check_summary_and_status.
  rewrite Hchecks, Hsummary, derive_status_of_checks.
  cbn [for_each Health.computed_counts].
  rewrite <- eq_str_iff.
  destruct (Py.eq_int (Py.get summary "total") _),
           (Py.eq_int (Py.get summary "healthy") _),
           (Py.eq_int (Py.get summary "degraded") _),
           (Py.eq_int (Py.get summary "unhealthy") _),
           (Py.eq_int (Py.get summary "unknown") _),
           (Py.eq_str (Py.get data "status") (status_of_checks checks));
    cbn [negb]; unfold push; cbn [app];
    (split; [try discriminate; intros _; repeat split
            | intros (? & ? & ? & ? & ? & ?); try discriminate; reflexivity]).
Qed.

End HealthFacts.

(** One unhealthy check with matching counts: the status "unhealthy" is
    accepted. *)
Lemma C8_status_and_summary_run :
  Health._check_summary_and_status Sample.float_repr Sample.container_repr
    (Sample.health_document "unhealthy" "openclaw-runtime"
       [Sample.health_check "unhealthy"] (Sample.health_summary 1 0 0 1 0))
    []
  = [].
Proof.
  apply (proj1 (C8_status_and_summary Sample.float_repr Sample.container_repr
                  (Sample.health_document "unhealthy" "openclaw-runtime"
                     [Sample.health_check "unhealthy"]
                     (Sample.health_summary 1 0 0 1 0))
                  [Sample.health_check "unhealthy"]
                  [ ("total", JInt 1); ("healthy", JInt 0);
                    ("degraded", JInt 0); ("unhealthy", JInt 1);
                    ("unknown", JInt 0) ]
                  eq_refl eq_refl)).
  repeat split; reflexivity.
Defined.

(** The same document with the status "healthy" is rejected. *)
Example unhealthy_check_forces_status :
  Health._check_summary_and_status Sample.float_repr Sample.container_repr
    (Sample.health_document "healthy" "openclaw-runtime"
       [Sample.health_check "unhealthy"] (Sample.health_summary 1 0 0 1 0))
    []
  = ["status must be 'unhealthy' for current checks/summary, got 'healthy'"].
Proof. reflexivity. Qed.

(** ** Routing: reason codes *)

Section ReasonCodeFacts.

Lemma insert_sorted x xs :
  Sorted lex_le xs -> Sorted lex_le (PyStr.insert x xs).
Proof.
  induction 1 as [|y ys Hys IH Hhd]; cbn.
  - repeat constructor.
  - destruct (String.leb x y) eqn:E.
    + repeat constructor; assumption.
    + constructor; [exact IH|].
      assert (Hyx : lex_le y x).
      { destruct (String.leb_total x y) as [H|H]; [congruence|exact H]. }
      destruct Hhd as [|z zs Hyz]; cbn.
      * now constructor.
      * destruct (String.leb x z); now constructor.
Qed.

(** [sorted] returns its argument rearranged in ascending order. *)
Lemma sorted_ascending xs : Sorted lex_le (PyStr.sorted xs).
Proof. induction xs; cbn; [constructor|now apply insert_sorted]. Qed.

Lemma insert_permutation x xs : Permutation (x :: xs) (PyStr.insert x xs).
Proof.
  induction xs as [|y ys IH]; cbn; [reflexivity|].
  destruct (String.leb x y); [reflexivity|].
  rewrite perm_swap. now constructor.
Qed.

Lemma sorted_permutation xs : Permutation xs (PyStr.sorted xs).
Proof.
  induction xs as [|x xs IH]; cbn; [constructor|].
  rewrite <- insert_permutation. now constructor.
Qed.

(** A list is left as it is by [sorted] exactly when it is ascending. *)
Lemma sorted_fixed_iff xs : PyStr.sorted xs = xs <-> Sorted lex_le xs.
Proof.
  split.
  - intros <-. apply sorted_ascending.
  - induction 1 as [|x xs Hxs IH Hhd]; cbn; [reflexivity|].
    rewrite IH. destruct Hhd as [|y ys Hxy]; cbn; [reflexivity|].
    unfold lex_le in Hxy. now rewrite Hxy.
Qed.

Lemma list_eqb_iff xs ys : PyStr.list_eqb xs ys = true <-> xs = ys.
Proof.
  revert ys. induction xs as [|x xs IH]; intros [|y ys]; cbn;
    split; try discriminate; try reflexivity.
  - intros H. apply andb_true_iff in H as [Hx Hxs].
    apply String.eqb_eq in Hx. apply IH in Hxs. now subst.
  - intros [= -> ->]. rewrite String.eqb_refl. now apply IH.
Qed.

Lemma distinct_length_le xs :
  (List.length (PyStr.distinct xs) <= List.length xs)%nat.
Proof.
  unfold PyStr.distinct. induction xs as [|x xs IH]; cbn; [lia|].
  destruct (in_dec string_dec x xs); cbn; lia.
Qed.

(** [len(xs) == len(set(xs))] exactly when no entry repeats. *)
Lemma distinct_length_iff xs :
  List.length xs = List.length (PyStr.distinct xs) <-> NoDup xs.
Proof.
  unfold PyStr.distinct. split.
  - induction xs as [|x xs IH]; cbn; [constructor|].
    destruct (in_dec string_dec x xs) as [Hin|Hout]; cbn.
    + pose proof (distinct_length_le xs). unfold PyStr.distinct in *. lia.
    + intros [= H]. constructor; [exact Hout|now apply IH].
  - intros H. now rewrite (nodup_fixed_point string_dec H).
Qed.

(** When no entry is rejected, the entries are strings, none of them blank. *)
Lemma accepted_entries items :
  existsb Routing.bad_code items = false ->
  items = map JStr (map Routing.str_value items) /\
  Forall (fun c => PyStr.blank c = false) (map Routing.str_value items).
Proof.
  induction items as [|v items IH]; cbn; [now split|].
  intros H. apply orb_false_iff in H as [Hv Hitems].
  destruct (IH Hitems) as [E F].
  destruct v; cbn in Hv; try discriminate.
  cbn. split; [now rewrite <- E|now constructor].
Qed.

Lemma accepted_strings codes :
  Forall (fun c => PyStr.blank c = false) codes ->
  existsb Routing.bad_code (map JStr codes) = false /\
  map Routing.str_value (map JStr codes) = codes.
Proof.
  induction 1 as [|c codes Hc _ [IH1 IH2]]; cbn; [now split|].
  now rewrite Hc, IH1, IH2.
Qed.

(** C9 — reason codes.  [_check_reason_codes] reports a violation unless the
    value is a non-empty list, every entry is a non-empty string, no entry
    repeats, and the entries are in ascending lexicographic order; a list
    of non-blank strings with these properties is accepted.  In particular
    ["Z_LAST","A_FIRST"] and ["DUP","DUP"] each produce a violation and
    ["A_FIRST","Z_LAST"] produces none. *)
Theorem C9_reason_codes :
  (forall reason_codes,
      Routing._check_reason_codes reason_codes [] = [] ->
      exists codes,
        reason_codes = JList (map JStr codes) /\
        codes <> [] /\
        Forall (fun c => c <> EmptyString) codes /\
        NoDup codes /\
        Sorted lex_le codes) /\
  (forall codes,
      codes <> [] ->
      Forall (fun c => PyStr.blank c = false) codes ->
      NoDup codes ->
      Sorted lex_le codes ->
      Routing._check_reason_codes (JList (map JStr codes)) [] = []) /\
  Routing._check_reason_codes (JList [JStr "Z_LAST"; JStr "A_FIRST"]) []
  = ["reason_codes must be sorted for deterministic ordering"] /\
  Routing._check_reason_codes (JList [JStr "DUP"; JStr "DUP"]) []
  = ["reason_codes must not contain duplicates"] /\
  Routing._check_reason_codes (JList [JStr "A_FIRST"; JStr "Z_LAST"]) []
  = [].
Proof.
  split; [|split; [|repeat split; reflexivity]].
  - intros reason_codes H.
    unfold Routing._check_reason_codes in H.
    destruct reason_codes as [| | | | |[|first rest]|]; try discriminate.
    set (items := first :: rest) in *.
    destruct (existsb Routing.bad_code items) eqn:Hbad; [discriminate|].
    destruct (accepted_entries items Hbad) as [Eitems Hblank].
    set (codes := map Routing.str_value items) in *.
    destruct (List.length codes =? List.length (PyStr.distinct codes))%nat
      eqn:Hlen;
      [|destruct (negb (PyStr.list_eqb codes (PyStr.sorted codes)));
        discriminate].
    destruct (PyStr.list_eqb codes (PyStr.sorted codes)) eqn:Hsorted;
      [|discriminate].
    exists codes. repeat split.
    + now rewrite Eitems.
    + subst codes items. discriminate.
    + eapply Forall_impl; [|exact Hblank].
      intros c Hc ->. discriminate.
    + apply distinct_length_iff. now apply Nat.eqb_eq.
    + apply sorted_fixed_iff. symmetry. now apply list_eqb_iff.
  - intros codes Hne Hblank Hnodup Hsorted.
    destruct (accepted_strings codes Hblank) as [Hbad Hvalues].
    unfold Routing._check_reason_codes.
    destruct codes as [|c codes]; [now elim Hne|].
    cbn [map] in *. rewrite Hbad.
    change (Routing.str_value (JStr c) :: map Routing.str_value (map JStr codes))
      with (map Routing.str_value (JStr c :: map JStr codes)).
    cbn [map] in Hvalues. cbn [map]. rewrite Hvalues.
    apply distinct_length_iff in Hnodup. rewrite <- Hnodup, Nat.eqb_refl.
    apply sorted_fixed_iff in Hsorted. rewrite Hsorted.
    assert (E : PyStr.list_eqb (c :: codes) (c :: codes) = true)
      by now apply list_eqb_iff.
    rewrite E. reflexivity.
Qed.

End ReasonCodeFacts.

(* ================================================================== *)
(** * Part III — further properties of the same code                    *)
(* ================================================================== *)

(** ** The decision engine, phase by phase *)

Section PhaseFacts.
Import DecisionEngine.

Variable float_repr : float -> string.
Local Abbreviation evaluate := (DecisionEngine.evaluate float_repr).

(** X1 — the per-request gate comes first.  When [estimated_cost] exceeds
    [per_request_cap], the result is BLOCK with the reason that names both
    numbers, and nothing else matters: any other spend, task, criticality,
    queue depth, and any other configuration with the same
    [per_request_cap], gives the same Decision. *)
Theorem per_request_gate_decides gov est spent task crit depth cap :
  per_request_cap gov = Some cap ->
  float_gt est cap = true ->
  evaluate gov est spent task crit depth
  = Decision_default BLOCK
      ("estimated_cost (" ++ float_repr est ++ ") exceeds per_request_cap ("
       ++ float_repr cap ++ ")")
  /\ forall gov' spent' task' crit' depth',
       per_request_cap gov' = Some cap ->
       evaluate gov' est spent' task' crit' depth'
       = evaluate gov est spent task crit depth.
Proof.
  intros Hcap Hgt.
  assert (E : forall g s t c d, per_request_cap g = Some cap ->
              evaluate g est s t c d
              = Decision_default BLOCK
                  ("estimated_cost (" ++ float_repr est
                   ++ ") exceeds per_request_cap (" ++ float_repr cap ++ ")")).
  { intros g s t c d Hg. unfold DecisionEngine.evaluate.
    rewrite Hg, Hgt. reflexivity. }
  split; [now apply E|].
  intros gov' spent' task' crit' depth' Hcap'.
  now rewrite (E gov' _ _ _ _ Hcap'), (E gov _ _ _ _ Hcap).
Qed.

(** X2 — over the hard cap.  When the gate does not fire and the projected
    spend exceeds the hard cap, the request is allowed exactly under
    HALT_NONCRITICAL with [is_critical], it is queued exactly under a
    queue-* policy whose queue is not full (or has no [queue_policy]), it is
    never degraded, and in every other case it is blocked. *)
Theorem over_hard_cap_outcome gov est spent task crit depth :
  per_request_gate gov est = false ->
  hard_cap_crossed gov (spent + est) = true ->
  let d := evaluate gov est spent task crit depth in
  (action d = ALLOW <->
   on_hard_cap gov = OnHardCap.HALT_NONCRITICAL /\ crit = true) /\
  (action d = QUEUE <->
   (on_hard_cap gov = OnHardCap.QUEUE_REQUESTS
    \/ on_hard_cap gov = OnHardCap.QUEUE_REQUESTS_DEFER) /\
   forall qp, queue_policy gov = Some qp -> (depth < max_queue_depth qp)%Z) /\
  action d <> DEGRADE /\
  (action d = BLOCK \/ action d = ALLOW \/ action d = QUEUE).
Proof.
  intros Hgate Hhard. cbv zeta.
  unfold DecisionEngine.evaluate, per_request_gate, hard_cap_crossed,
    _apply_queue_overflow in *.
  destruct (daily_hard_cap gov) as [hard|]; [|discriminate].
  rewrite Hhard.
  assert (Hq : forall qp,
             (if (depth >=? max_queue_depth qp)%Z then true else false) = false
             <-> (depth < max_queue_depth qp)%Z).
  { intros qp. destruct (Z.geb_spec depth (max_queue_depth qp)); split;
      intros; try discriminate; try reflexivity; lia. }
  destruct (per_request_cap gov) as [cap|]; [rewrite Hgate|];
    (destruct (on_hard_cap gov); [|destruct crit| | |];
     try (destruct (queue_policy gov) as [qp|];
          [cbn; destruct (Z.geb_spec depth (max_queue_depth qp))|]);
     cbn;
     (split; [split; [try discriminate; intros _; split; reflexivity
                     |intros [? ?]; try discriminate; reflexivity]|]);
     (split; [split;
              [try discriminate; intros _; split; auto;
               intros ? [= <-]; lia || discriminate
              |intros [[?|?] Hall]; try discriminate; try reflexivity;
               specialize (Hall _ eq_refl); lia]|]);
     (split; [discriminate|auto])).
Qed.

(** X3 — under budget.  The reason "under_budget" is returned exactly when
    no phase fires: the gate does not, and the projected spend exceeds
    neither the hard cap nor the soft cap; the Decision is then a plain
    ALLOW. *)
Theorem under_budget_iff gov est spent task crit depth :
  reason (evaluate gov est spent task crit depth) = "under_budget"
  <->
  per_request_gate gov est = false /\
  hard_cap_crossed gov (spent + est) = false /\
  soft_cap_crossed gov (spent + est) = false.
Proof.
  unfold DecisionEngine.evaluate, per_request_gate, hard_cap_crossed,
    soft_cap_crossed, _apply_queue_overflow.
  destruct (per_request_cap gov) as [cap|];
    [destruct (float_gt est cap);
     [split; [cbn; discriminate|intros [? _]; discriminate]|]|];
    (destruct (daily_hard_cap gov) as [hard|];
     [destruct (float_gt (spent + est) hard);
      [split; [|intros (_ & ? & _); discriminate];
       destruct (on_hard_cap gov); [|destruct crit| | |];
       try (destruct (queue_policy gov) as [qp|];
            [cbn; destruct (depth >=? max_queue_depth qp)%Z|]);
       cbn; discriminate|]|]);
    (destruct (float_gt (spent + est) (daily_soft_cap gov));
     [split; [|intros (_ & _ & ?); discriminate];
      destruct (on_soft_cap gov);
      try (destruct (queue_policy gov) as [qp|];
           [cbn; destruct (depth >=? max_queue_depth qp)%Z|]);
      cbn; discriminate
     |split; [auto|reflexivity]]).
Qed.

(** X4 — the hard-cap phase hides the soft-cap settings.  Two requests that
    both pass the gate and both exceed their hard cap get the same Decision
    whenever [on_hard_cap], [queue_policy], the task, the criticality and
    the queue depth agree: the amounts, the soft cap, [on_soft_cap] and the
    ladder play no part. *)
Theorem hard_cap_phase_ignores_soft_settings
  gov gov' est est' spent spent' task crit depth :
  per_request_gate gov est = false ->
  per_request_gate gov' est' = false ->
  hard_cap_crossed gov (spent + est) = true ->
  hard_cap_crossed gov' (spent' + est') = true ->
  on_hard_cap gov' = on_hard_cap gov ->
  queue_policy gov' = queue_policy gov ->
  evaluate gov' est' spent' task crit depth
  = evaluate gov est spent task crit depth.
Proof.
  intros Hg Hg' Hh Hh' Hpol Hqp.
  unfold DecisionEngine.evaluate, per_request_gate, hard_cap_crossed,
    _apply_queue_overflow in *.
  destruct (daily_hard_cap gov) as [hard|]; [|discriminate].
  destruct (daily_hard_cap gov') as [hard'|]; [|discriminate].
  rewrite Hh, Hh', Hpol, Hqp.
  destruct (per_request_cap gov) as [cap|]; [rewrite Hg|];
    (destruct (per_request_cap gov') as [cap'|]; [rewrite Hg'|]);
    reflexivity.
Qed.

End PhaseFacts.

Lemma per_request_gate_decides_run :
  action
    (DecisionEngine.evaluate Sample.float_repr
       {| currency := "USD"; daily_soft_cap := 10%float;
          daily_hard_cap := None;
          on_soft_cap := OnSoftCap.LOG_ONLY;
          on_hard_cap := OnHardCap.NONE;
          model_degrade_ladder := [];
          allowlist_tasks_under_hard_cap := [];
          per_request_cap := Some 2%float;
          reset_timezone := "UTC"; queue_policy := None;
          spend_monitoring := None |}
       5 0 "job" false 0)
  = BLOCK.
Proof.
  exact (f_equal action
           (proj1 (per_request_gate_decides Sample.float_repr
                     {| currency := "USD"; daily_soft_cap := 10%float;
                        daily_hard_cap := None;
                        on_soft_cap := OnSoftCap.LOG_ONLY;
                        on_hard_cap := OnHardCap.NONE;
                        model_degrade_ladder := [];
                        allowlist_tasks_under_hard_cap := [];
                        per_request_cap := Some 2%float;
                        reset_timezone := "UTC"; queue_policy := None;
                        spend_monitoring := None |}
                     5 0 "job" false 0 2%float eq_refl eq_refl))).
Defined.

Lemma over_hard_cap_outcome_run :
  action
    (DecisionEngine.evaluate Sample.float_repr
       (Sample.governor (Some 20%float) OnSoftCap.LOG_ONLY
          OnHardCap.HALT_NONCRITICAL [] None)
       5 18 "job" true 0)
  = ALLOW.
Proof.
  apply (proj1 (over_hard_cap_outcome Sample.float_repr
                  (Sample.governor (Some 20%float) OnSoftCap.LOG_ONLY
                     OnHardCap.HALT_NONCRITICAL [] None)
                  5 18 "job" true 0 eq_refl eq_refl)).
  split; reflexivity.
Defined.

Lemma hard_cap_phase_ignores_soft_settings_run :
  DecisionEngine.evaluate Sample.float_repr
    (Sample.governor (Some 20%float) OnSoftCap.DEGRADE_MODEL
       OnHardCap.HALT_ALL ["small"] None)
    9 40 "job" false 0
  = DecisionEngine.evaluate Sample.float_repr
      (Sample.governor (Some 20%float) OnSoftCap.LOG_ONLY
         OnHardCap.HALT_ALL [] None)
      5 18 "job" false 0.
Proof.
  exact (hard_cap_phase_ignores_soft_settings Sample.float_repr
           (Sample.governor (Some 20%float) OnSoftCap.LOG_ONLY
              OnHardCap.HALT_ALL [] None)
           (Sample.governor (Some 20%float) OnSoftCap.DEGRADE_MODEL
              OnHardCap.HALT_ALL ["small"] None)
           5 9 18 40 "job" false 0
           eq_refl eq_refl eq_refl eq_refl eq_refl eq_refl).
Defined.

(** ** What the configuration validator accepts *)

Section AcceptedConfigurations.
Import CostGovernorValidator.

Variable float_repr : float -> string.

Lemma value_findings_nil_iff p s :
  value_findings (p, s) = [] <-> clean_string s.
Proof.
  unfold value_findings, clean_string.
  destruct (PyStr.search_ignorecase "sk-" s),
           (PyStr.search_ignorecase "apikey" s),
           (PyStr.startswith s "${"); cbn; split;
    try discriminate; try (intros [? ?]; discriminate);
    try (intros [_ H]; specialize (H eq_refl); discriminate);
    try (intros _; split; [reflexivity|auto; discriminate]);
    try reflexivity.
Qed.

Lemma no_findings_iff (values : list (string * string)) :
  flat_map value_findings values = []
  <-> Forall clean_string (map snd values).
Proof.
  induction values as [|[p s] values IH]; cbn [flat_map map snd].
  - split; [constructor|reflexivity].
  - split.
    + intros H. apply app_eq_nil in H as [H1 H2].
      constructor; [now apply (value_findings_nil_iff p)|now apply IH].
    + intros H. inversion H as [|? ? Hs Hrest]; subst.
      apply (value_findings_nil_iff p) in Hs. rewrite Hs. now apply IH.
Qed.

(** The strings of a tuple of strings, whatever their paths. *)
Lemma typed_values_of_strings path (xs : list string) i :
  map snd
    (flat_enumerate (fun i item => typed_values item (item_path path i))
       (map PStr xs) i)
  = xs.
Proof.
  revert i. induction xs as [|x xs IH]; intros i; cbn; [reflexivity|].
  now rewrite IH.
Qed.

(** The strings the scanner meets in a configuration: the free-text
    fields and the values of the four enum fields. *)
Lemma typed_strings gov :
  map snd (typed_values (tree_of_CostGovernor gov) "")
  = (currency gov :: OnSoftCap.value (on_soft_cap gov)
     :: OnHardCap.value (on_hard_cap gov)
     :: model_degrade_ladder gov
     ++ allowlist_tasks_under_hard_cap gov
     ++ reset_timezone gov
     :: match queue_policy gov with
        | Some qp => [DropPolicy.value (drop_policy qp)]
        | None => []
        end
     ++ match spend_monitoring gov with
        | Some sm => alert_emails sm
        | None => []
        end)%list.
Proof.
  unfold tree_of_CostGovernor.
  destruct (queue_policy gov) as [qp|], (spend_monitoring gov) as [sm|];
    cbn [tree_of_QueuePolicy tree_of_SpendMonitoring typed_values flat_map
           fst snd field_path app];
    repeat (rewrite ?map_app; cbn [map snd app]);
    rewrite !typed_values_of_strings, ?app_nil_r; reflexivity.
Qed.

Lemma enum_values_clean gov :
  clean_string (OnSoftCap.value (on_soft_cap gov)) /\
  clean_string (OnHardCap.value (on_hard_cap gov)) /\
  forall qp, clean_string (DropPolicy.value (drop_policy qp)).
Proof.
  split; [|split; [|intros qp]].
  - destruct (on_soft_cap gov); split; vm_compute;
      (reflexivity || (intros H; discriminate H)).
  - destruct (on_hard_cap gov); split; vm_compute;
      (reflexivity || (intros H; discriminate H)).
  - destruct (drop_policy qp); split; vm_compute;
      (reflexivity || (intros H; discriminate H)).
Qed.

(** The scan of a configuration finds nothing exactly when its free-text
    strings are clean: the enum values never match. *)
Lemma check_secrets_nil_iff gov :
  check_secrets gov [] = [] <-> Forall clean_string (config_strings gov).
Proof.
  unfold check_secrets. rewrite check_no_secrets_found. cbn [app].
  rewrite no_findings_iff, typed_strings. unfold config_strings.
  destruct (enum_values_clean gov) as (Hsoft & Hhard & Hdrop).
  rewrite !Forall_cons_iff, !Forall_app, !Forall_cons_iff, !Forall_app.
  split.
  - intros (Hc & _ & _ & Hl & Ha & Hr & _ & Hm).
    exact (conj Hc (conj Hl (conj Ha (conj Hr Hm)))).
  - intros (Hc & Hl & Ha & Hr & Hm).
    assert (Hq : Forall clean_string
                   match queue_policy gov with
                   | Some qp => [DropPolicy.value (drop_policy qp)]
                   | None => []
                   end).
    { destruct (queue_policy gov); constructor; [apply Hdrop|constructor]. }
    exact (conj Hc (conj Hsoft (conj Hhard (conj Hl (conj Ha
             (conj Hr (conj Hq Hm))))))).
Qed.

Lemma app_nil_iff {A} (xs ys : list A) :
  (xs ++ ys)%list = [] <-> xs = [] /\ ys = [].
Proof.
  split; [apply app_eq_nil|]. now intros [-> ->].
Qed.

Lemma soft_eqb_spec x y : soft_eqb x y = true <-> x = y.
Proof. destruct x, y; cbn; split; congruence. Qed.

Lemma is_empty_spec {A} (xs : list A) : is_empty xs = true <-> xs = [].
Proof. destruct xs; cbn; split; congruence. Qed.

Lemma is_none_spec {A} (x : option A) : is_none x = true <-> x = None.
Proof. destruct x; cbn; split; congruence. Qed.

(** [runtime_invariants] returns exactly when its checks found nothing. *)
Lemma returns_iff_nothing_found gov :
  runtime_invariants float_repr gov = Returns <-> collect float_repr gov = [].
Proof.
  unfold runtime_invariants.
  destruct (raise_if_any_reports "CostGovernor invariant violation(s):" bullet
              (collect float_repr gov)) as (Hret & _ & _).
  now rewrite Hret.
Qed.

(** The configurations on which the six blocks find nothing. *)
Lemma nothing_found_iff gov :
  collect float_repr gov = [] <-> valid_config gov.
Proof.
  rewrite collect_found.
  rewrite !app_nil_iff, check_secrets_nil_iff.
  unfold valid_config, check_soft_le_hard, check_no_hard_cap_policy,
    check_degrade_ladder, check_allowlist, check_queue_policy, push.
  split.
  - intros (H1 & H2 & H3 & H4 & H5 & H6). repeat split.
    + intros hard Hh. rewrite Hh in H1.
      destruct (float_gt (daily_soft_cap gov) hard); [discriminate|reflexivity].
    + intros Hn. rewrite Hn in H2. cbn in H2.
      destruct (OnHardCap.eqb (on_hard_cap gov) OnHardCap.NONE) eqn:E;
        [now apply hard_policy_eqb_spec|discriminate].
    + intros Hs Hl. rewrite Hs, Hl in H3. discriminate.
    + intros Hp Ha. rewrite Hp, Ha in H4. discriminate.
    + exact H5.
    + intros Hq Hn. rewrite Hn in H6. cbn [is_none] in H6.
      destruct Hq as [Hq|[Hq|Hq]]; rewrite Hq in H6;
        destruct (on_soft_cap gov), (on_hard_cap gov); discriminate.
  - intros (H1 & H2 & H3 & H4 & H5 & H6). repeat split.
    + destruct (daily_hard_cap gov) as [hard|]; [|reflexivity].
      now rewrite (H1 hard eq_refl).
    + destruct (daily_hard_cap gov); [reflexivity|].
      rewrite (H2 eq_refl). reflexivity.
    + destruct (soft_eqb (on_soft_cap gov) OnSoftCap.DEGRADE_MODEL) eqn:E;
        [|reflexivity].
      apply soft_eqb_spec in E. specialize (H3 E).
      destruct (model_degrade_ladder gov); [now elim H3|reflexivity].
    + destruct (OnHardCap.eqb (on_hard_cap gov) OnHardCap.HALT_NONCRITICAL)
        eqn:E; [|reflexivity].
      apply hard_policy_eqb_spec in E. specialize (H4 E).
      destruct (allowlist_tasks_under_hard_cap gov); [now elim H4|reflexivity].
    + exact H5.
    + destruct (queue_policy gov) as [qp|] eqn:Hqp;
        [now rewrite andb_false_r|].
      cbn [is_none]. rewrite andb_true_r.
      destruct (soft_eqb (on_soft_cap gov) OnSoftCap.QUEUE_REQUESTS) eqn:E1.
      { apply soft_eqb_spec in E1. now elim (H6 (or_introl E1)). }
      destruct (OnHardCap.eqb (on_hard_cap gov) OnHardCap.QUEUE_REQUESTS) eqn:E2.
      { apply hard_policy_eqb_spec in E2.
        now elim (H6 (or_intror (or_introl E2))). }
      destruct (OnHardCap.eqb (on_hard_cap gov) OnHardCap.QUEUE_REQUESTS_DEFER)
        eqn:E3; [|reflexivity].
      apply hard_policy_eqb_spec in E3.
      now elim (H6 (or_intror (or_intror E3))).
Qed.

(** X5 — what the configuration validator accepts.  [runtime_invariants]
    returns exactly for the configurations that keep the six invariants:
    soft cap not above a present hard cap; [on_hard_cap = NONE] when there is
    no hard cap; a non-empty ladder under DEGRADE_MODEL; a non-empty
    allowlist under HALT_NONCRITICAL; clean free-text strings; a
    [queue_policy] under every queue-* policy.  Nothing is asked of
    [on_hard_cap] when a hard cap is present. *)
Theorem runtime_invariants_accepts_iff gov :
  runtime_invariants float_repr gov = Returns <-> valid_config gov.
Proof.
  unfold runtime_invariants.
  destruct (raise_if_any_reports "CostGovernor invariant violation(s):" bullet
              (collect float_repr gov)) as (Hret & _ & _).
  rewrite <- Hret. apply nothing_found_iff.
Qed.

(** X6 — what an accepted configuration guarantees to the engine.  On a
    configuration that [runtime_invariants] accepts, whatever the request:
    a DEGRADE Decision carries the first model of the ladder, and a QUEUE
    Decision is only returned with a [queue_policy] whose
    [max_queue_depth] is above the queue depth. *)
Theorem accepted_configuration_guarantees gov est spent task crit depth :
  runtime_invariants float_repr gov = Returns ->
  let d := DecisionEngine.evaluate float_repr gov est spent task crit depth in
  (action d = DEGRADE ->
   exists m, degraded_model d = Some m /\
             hd_error (model_degrade_ladder gov) = Some m) /\
  (action d = QUEUE ->
   exists qp, queue_policy gov = Some qp /\ (depth < max_queue_depth qp)%Z).
Proof.
  intros Hvalid. apply returns_iff_nothing_found, nothing_found_iff in Hvalid.
  destruct Hvalid as (_ & _ & Hladder & _ & _ & Hqueue). cbv zeta.
  unfold DecisionEngine.evaluate, DecisionEngine._apply_queue_overflow.
  destruct (per_request_cap gov) as [cap|];
    [destruct (float_gt est cap); [split; discriminate|]|];
    (destruct (daily_hard_cap gov) as [hard|];
     [destruct (float_gt (spent + est) hard);
      [destruct (on_hard_cap gov) eqn:Ehard; [|destruct crit| | |];
       try (split; discriminate);
       (destruct (queue_policy gov) as [qp|];
        [cbn; destruct (Z.geb_spec depth (max_queue_depth qp));
         (split; [discriminate|]); try discriminate;
         intros _; exists qp; split; [reflexivity|lia]
        |exfalso; apply Hqueue; auto])|]|]);
    (destruct (float_gt (spent + est) (daily_soft_cap gov));
     [destruct (on_soft_cap gov) eqn:Esoft; try (split; discriminate);
      [destruct (model_degrade_ladder gov) as [|m rest];
       [now elim (Hladder eq_refl)|];
       split; [intros _; exists m; split; reflexivity|discriminate]
      |destruct (queue_policy gov) as [qp|];
       [cbn; destruct (Z.geb_spec depth (max_queue_depth qp));
        (split; [discriminate|]); try discriminate;
        intros _; exists qp; split; [reflexivity|lia]
       |exfalso; apply Hqueue; auto]]
     |split; discriminate]).
Qed.

(** X7 — the defensive branch stays reachable.  Nothing is asked of
    [on_hard_cap] when a hard cap is present: an accepted configuration
    with a hard cap is still accepted once its [on_hard_cap] is set to NONE,
    and on that configuration every request that passes the gate and
    exceeds the hard cap gets the "invariant_violation" BLOCK. *)
Theorem accepted_configuration_reaches_defensive_branch gov hard :
  runtime_invariants float_repr gov = Returns ->
  daily_hard_cap gov = Some hard ->
  runtime_invariants float_repr (with_on_hard_cap gov OnHardCap.NONE)
  = Returns /\
  forall est spent task crit depth,
    DecisionEngine.per_request_gate gov est = false ->
    float_gt (spent + est) hard = true ->
    DecisionEngine.evaluate float_repr (with_on_hard_cap gov OnHardCap.NONE)
      est spent task crit depth
    = Decision_default BLOCK
        "invariant_violation: on_hard_cap='none' with non-null daily_hard_cap".
Proof.
  intros Hvalid Hhard. split.
  - apply returns_iff_nothing_found, nothing_found_iff.
    apply returns_iff_nothing_found, nothing_found_iff in Hvalid.
    destruct Hvalid as (H1 & _ & H3 & _ & H5 & H6).
    unfold valid_config.
    cbn [with_on_hard_cap daily_hard_cap daily_soft_cap on_hard_cap on_soft_cap
           model_degrade_ladder allowlist_tasks_under_hard_cap queue_policy].
    split; [exact H1|]. split; [reflexivity|]. split; [exact H3|].
    split; [discriminate|]. split; [exact H5|].
    intros [Hq|[Hq|Hq]]; try discriminate. apply H6. now left.
  - intros est spent task crit depth Hgate Hgt.
    unfold DecisionEngine.evaluate, DecisionEngine.per_request_gate in *.
    cbn [with_on_hard_cap per_request_cap daily_hard_cap on_hard_cap].
    rewrite Hhard, Hgt.
    destruct (per_request_cap gov) as [cap|]; [rewrite Hgate|]; reflexivity.
Qed.

End AcceptedConfigurations.

Lemma accepted_configuration_guarantees_run :
  degraded_model
    (DecisionEngine.evaluate Sample.float_repr
       (Sample.governor (Some 20%float) OnSoftCap.DEGRADE_MODEL
          OnHardCap.HALT_ALL ["small"; "tiny"] None)
       5 8 "job" false 0)
  = Some "small".
Proof.
  destruct (proj1 (accepted_configuration_guarantees Sample.float_repr
                     (Sample.governor (Some 20%float) OnSoftCap.DEGRADE_MODEL
                        OnHardCap.HALT_ALL ["small"; "tiny"] None)
                     5 8 "job" false 0 eq_refl) eq_refl)
    as (m & Hm & Hhead).
  injection Hhead as <-. exact Hm.
Defined.

Lemma accepted_configuration_reaches_defensive_branch_run :
  CostGovernorValidator.runtime_invariants Sample.float_repr
    (Sample.governor (Some 20%float) OnSoftCap.LOG_ONLY OnHardCap.NONE [] None)
  = Returns.
Proof.
  exact (proj1 (accepted_configuration_reaches_defensive_branch
                  Sample.float_repr
                  (Sample.governor (Some 20%float) OnSoftCap.LOG_ONLY
                     OnHardCap.HALT_ALL [] None)
                  20%float eq_refl eq_refl)).
Defined.

(** ** Amounts that are not numbers *)

Section NotANumber.

Variable float_repr : float -> string.

Lemma is_nan_spec x : PrimFloat.is_nan x = true -> Prim2SF x = S754_nan.
Proof.
  unfold PrimFloat.is_nan. rewrite FloatAxioms.eqb_spec.
  destruct (Prim2SF x) as [s|s| |s m e]; cbn; try reflexivity.
  - discriminate.
  - destruct s; discriminate.
  - unfold SFeqb, SFcompare.
    rewrite Z.compare_refl, Pos.compare_cont_refl.
    destruct s; discriminate.
Qed.

(** No comparison with a NaN holds. *)
Lemma gt_nan_l x y : PrimFloat.is_nan x = true -> float_gt x y = false.
Proof.
  intros H. unfold float_gt. rewrite FloatAxioms.ltb_spec, (is_nan_spec x H).
  unfold SFltb. now destruct (Prim2SF y).
Qed.

Lemma is_nan_of_spec x : Prim2SF x = S754_nan -> PrimFloat.is_nan x = true.
Proof.
  intros H. unfold PrimFloat.is_nan. now rewrite FloatAxioms.eqb_spec, H.
Qed.

(** A sum with a NaN is a NaN. *)
Lemma add_nan x y :
  PrimFloat.is_nan x = true \/ PrimFloat.is_nan y = true ->
  PrimFloat.is_nan (x + y) = true.
Proof.
  intros H. apply is_nan_of_spec. rewrite FloatAxioms.add_spec.
  destruct H as [H|H]; rewrite (is_nan_spec _ H); [reflexivity|].
  now destruct (Prim2SF x).
Qed.

(** X8 — a NaN amount passes every cap.  When [estimated_cost] is a NaN,
    or when [spent_today] is a NaN and the gate does not fire, no threshold
    is found exceeded and the request is allowed as "under_budget", whatever
    the caps and the policies. *)
Theorem nan_amount_is_under_budget gov est spent task crit depth :
  PrimFloat.is_nan est = true
  \/ (PrimFloat.is_nan spent = true
      /\ DecisionEngine.per_request_gate gov est = false) ->
  DecisionEngine.evaluate float_repr gov est spent task crit depth
  = Decision_default ALLOW "under_budget".
Proof.
  intros H.
  assert (Hgate : DecisionEngine.per_request_gate gov est = false).
  { destruct H as [H|[_ H]]; [|exact H].
    unfold DecisionEngine.per_request_gate.
    destruct (per_request_cap gov); [now apply gt_nan_l|reflexivity]. }
  assert (Hsum : PrimFloat.is_nan (spent + est) = true).
  { apply add_nan. destruct H as [H|[H _]]; auto. }
  unfold DecisionEngine.evaluate, DecisionEngine.per_request_gate in *.
  rewrite (gt_nan_l _ (daily_soft_cap gov) Hsum).
  destruct (per_request_cap gov) as [cap|]; [rewrite Hgate|];
    (destruct (daily_hard_cap gov) as [hard|];
     [rewrite (gt_nan_l _ hard Hsum)|]); reflexivity.
Qed.

End NotANumber.

Lemma nan_amount_is_under_budget_run :
  DecisionEngine.evaluate Sample.float_repr
    (Sample.governor (Some 20%float) OnSoftCap.LOG_ONLY OnHardCap.HALT_ALL
       [] None)
    PrimFloat.nan 1000 "job" false 0
  = Decision_default ALLOW "under_budget".
Proof.
  exact (nan_amount_is_under_budget Sample.float_repr
           (Sample.governor (Some 20%float) OnSoftCap.LOG_ONLY
              OnHardCap.HALT_ALL [] None)
           PrimFloat.nan 1000 "job" false 0 (or_introl eq_refl)).
Defined.

(** ** The shared scanner, exactly *)

Section SharedScannerFacts.

(** Lists built item by item are empty, respectively all in [P] and [Q],
    together, when they are so item by item. *)
Lemma flat_map_nil_iff {A B C D} (f : A -> list B)
  (g : A -> list C) (h : A -> list D) (P : C -> Prop) (Q : D -> Prop) items :
  Forall (fun x => f x = [] <-> Forall P (g x) /\ Forall Q (h x)) items ->
  flat_map f items = []
  <-> Forall P (flat_map g items) /\ Forall Q (flat_map h items).
Proof.
  induction 1 as [|x items Hx _ IH]; cbn.
  - split; [split; constructor|reflexivity].
  - rewrite app_nil_iff, !Forall_app, Hx, IH. tauto.
Qed.

Lemma flat_enumerate_nil_iff {A B C D} (f : nat -> A -> list B)
  (g : nat -> A -> list C) (h : nat -> A -> list D)
  (P : C -> Prop) (Q : D -> Prop) items :
  Forall (fun x => forall i,
            f i x = [] <-> Forall P (g i x) /\ Forall Q (h i x)) items ->
  forall i,
    flat_enumerate f items i = []
    <-> Forall P (flat_enumerate g items i)
        /\ Forall Q (flat_enumerate h items i).
Proof.
  induction 1 as [|x items Hx _ IH]; intros i; cbn.
  - split; [split; constructor|reflexivity].
  - rewrite app_nil_iff, !Forall_app, Hx, IH. tauto.
Qed.

Lemma scan_key_nil_iff key value key_path :
  SecretScan.scan_key key value key_path [] = []
  <-> clean_entry (key_path, (key, value)).
Proof.
  unfold SecretScan.scan_key, clean_entry, push.
  destruct (PyStr.str_in "sk-" key),
           (Py.mem key SecretScan._API_KEY_FIELDS),
           (SecretScan.not_env_reference value); cbn; split;
    try discriminate; try reflexivity;
    try (intros [? ?]; discriminate);
    try (intros [_ H]; specialize (H eq_refl); discriminate);
    intros _; split; try reflexivity; auto; discriminate.
Qed.

(** The trees on which [_scan_secrets] finds nothing. *)
Lemma scanner_silent (obj : json) :
  forall path,
    SecretScan._scan_secrets obj path [] = []
    <-> Forall (fun at_path => PyStr.str_in "sk-" (snd at_path) = false)
          (raw_values dotted obj path)
        /\ Forall clean_entry (raw_entries dotted obj path).
Proof.
  induction obj as [| b | n | f | s | items IH | fields IH] using json_tree_ind;
    intros path;
    try (cbn; split; [intros _; split; constructor|reflexivity]).
  - cbn. destruct (PyStr.str_in "sk-" s) eqn:E; split.
    + discriminate.
    + intros [H _]. inversion H; subst. cbn in *. congruence.
    + intros _. split; repeat constructor. exact E.
    + reflexivity.
  - rewrite scan_secrets_list. cbn [raw_values raw_entries].
    apply flat_enumerate_nil_iff.
    eapply Forall_impl; [|exact IH]. intros x Hx i. apply Hx.
  - rewrite scan_secrets_dict. cbn [raw_values raw_entries].
    apply flat_map_nil_iff.
    eapply Forall_impl; [|exact IH]. intros [k v] Hx. cbn [fst snd] in *.
    rewrite app_nil_iff, Hx, scan_key_nil_iff, Forall_cons_iff. tauto.
Qed.

(** X9 — when the shared scanner is silent.  [_scan_secrets] leaves
    [errors] as it was exactly when no string value of the tree contains
    "sk-", no key of any mapping contains "sk-", and every entry named
    apiKey, api_key or API_KEY holds a string that begins with the
    environment-reference marker. *)
Theorem scan_secrets_silent_iff (obj : json) :
  forall path errors,
    SecretScan._scan_secrets obj path errors = errors
    <-> Forall (fun at_path => PyStr.str_in "sk-" (snd at_path) = false)
          (raw_values dotted obj path)
        /\ Forall clean_entry (raw_entries dotted obj path).
Proof.
  intros path errors.
  rewrite (scan_secrets_appends obj path errors), <- scanner_silent.
  split.
  - intros H. apply (app_inv_head errors). now rewrite app_nil_r.
  - intros ->. apply app_nil_r.
Qed.

End SharedScannerFacts.

Section ApiKeyFields.

(** X10 — literal API keys.  In the shared scanner, every entry named
    apiKey, api_key or API_KEY, in any mapping of the tree, whose value is
    not a string that begins with the environment-reference marker (a
    literal string, but also a number, a list or null) is reported with
    the path of the entry. *)
Theorem api_key_literal_reported obj :
  forall path errors key_path key value,
    In (key_path, (key, value)) (raw_entries dotted obj path) ->
    Py.mem key SecretScan._API_KEY_FIELDS = true ->
    SecretScan.not_env_reference value = true ->
    In ("literal " ++ key ++ " detected at " ++ key_path ++ "; use ${ENV_VAR}")
       (SecretScan._scan_secrets obj path errors).
Proof.
  intros path errors key_path key value Hin Hkey Hlit.
  rewrite (scan_secrets_appends obj path errors).
  apply in_or_app. right. revert path Hin.
  induction obj as [| b | n | f | s0 | items IH | fields IH] using json_tree_ind;
    intros path Hin; cbn [raw_entries] in Hin; try (now destruct Hin).
  - rewrite scan_secrets_list.
    revert Hin. apply flat_enumerate_In.
    eapply Forall_impl; [|exact IH]. intros x Hx i Hin. now apply Hx.
  - rewrite scan_secrets_dict.
    revert Hin. apply flat_map_In.
    eapply Forall_impl; [|exact IH]. intros [k v] Hx Hin.
    cbn [fst snd] in *.
    apply in_or_app. destruct Hin as [[= <- <- <-]|Hin].
    + left. unfold SecretScan.scan_key. rewrite Hkey, Hlit.
      destruct (PyStr.str_in "sk-" k); cbn; auto.
    + right. now apply Hx.
Qed.

End ApiKeyFields.

Lemma api_key_literal_reported_run :
  In "literal api_key detected at $.meta.api_key; use ${ENV_VAR}"
     (SecretScan._scan_secrets
        (JDict [("meta", JDict [("api_key", JNull)])]) "$" []).
Proof.
  apply (api_key_literal_reported
           (JDict [("meta", JDict [("api_key", JNull)])]) "$" []
           "$.meta.api_key" "api_key" JNull).
  - cbn. right. now left.
  - reflexivity.
  - reflexivity.
Defined.

(** ** Health: timestamps and the list of checks *)

Section HealthChecksFacts.

Variable fromisoformat : string -> option bool.

Lemma str_in_app_r (n h rest : string) :
  PyStr.str_in n h = true -> PyStr.str_in n (h ++ rest) = true.
Proof.
  intros H. apply str_in_iff in H as (a & b & ->).
  apply str_in_iff. exists a, (b ++ rest). now rewrite !app_assoc_str.
Qed.

Lemma length_app_str (a b : string) :
  String.length (a ++ b) = (String.length a + String.length b)%nat.
Proof. induction a; cbn; congruence. Qed.

Lemma substring_suffix (a b : string) :
  String.substring (String.length a) (String.length b) (a ++ b) = b.
Proof.
  induction a as [|c a IH]; cbn; [|exact IH].
  induction b as [|d b IHb]; cbn; [reflexivity|]. now rewrite IHb.
Qed.

Lemma substring_prefix (a b : string) :
  String.substring 0 (String.length a) (a ++ b) = a.
Proof.
  induction a as [|c a IH]; cbn; [now destruct b|]. now rewrite IH.
Qed.

(** A text that is [s] followed by "Z" ends with "Z", and without its last
    character it is [s]. *)
Lemma zulu_suffix (s : string) :
  PyStr.endswith (s ++ "Z") "Z" = true /\ PyStr.drop_last (s ++ "Z") = s.
Proof.
  unfold PyStr.endswith, PyStr.drop_last.
  rewrite length_app_str. cbn [String.length].
  replace (String.length s + 1 - 1)%nat with (String.length s) by lia.
  split.
  - replace (1 <=? String.length s + 1)%nat with true
      by (symmetry; apply Nat.leb_le; lia).
    pose proof (substring_suffix s "Z") as Hs. cbn [String.length] in Hs.
    rewrite Hs. reflexivity.
  - apply substring_prefix.
Qed.

(** X11 — the Zulu marker.  A timestamp that is a date-time text (with its
    "T") followed by "Z" is accepted exactly when the text with "+00:00" in
    place of the "Z" parses and carries a timezone; the same holds for the
    timestamp checker of the logging and routing validators. *)
Theorem zulu_timestamp_accepted_iff (s field : string) :
  PyStr.str_in "T" s = true ->
  (Health._check_timestamp fromisoformat (JStr (s ++ "Z")) field [] = []
   <-> fromisoformat (s ++ "+00:00") = Some true) /\
  (Logging._check_timestamp fromisoformat (JStr (s ++ "Z")) [] = []
   <-> fromisoformat (s ++ "+00:00") = Some true).
Proof.
  intros HT.
  destruct (zulu_suffix s) as [Hend Hdrop].
  unfold Health._check_timestamp, Logging._check_timestamp.
  rewrite (str_in_app_r "T" s "Z" HT), Hend, Hdrop. cbn [negb].
  destruct (fromisoformat (s ++ "+00:00")) as [[|]|]; cbn;
    split; split; try discriminate; reflexivity.
Qed.

(** A timestamp check is silent whatever the field it is run for. *)
Lemma timestamp_silent_any_field value field field' :
  Health._check_timestamp fromisoformat value field [] = [] ->
  Health._check_timestamp fromisoformat value field' [] = [].
Proof.
  unfold Health._check_timestamp.
  destruct value; try discriminate.
  destruct (negb (PyStr.str_in "T" s)); [discriminate|].
  destruct (fromisoformat _) as [[|]|]; try discriminate. reflexivity.
Qed.

(** Once the loop has something in [errors], it cannot end with none. *)
Lemma check_items_keeps_errors checks idx seen errors :
  Health.check_items fromisoformat checks idx seen errors = Some [] ->
  errors = [].
Proof.
  rewrite (check_items_appends fromisoformat checks idx seen errors).
  destruct (Health.check_items fromisoformat checks idx seen []); cbn;
    [|discriminate].
  intros [= H]. now apply app_eq_nil in H.
Qed.

(** What the loop over the checks has verified when it ends without a
    finding: every item is an object with a non-blank name that is neither
    among the names seen before nor repeated, a known probe type, a known
    status and a good timestamp. *)
Lemma check_items_silent checks :
  forall idx seen,
    Health.check_items fromisoformat checks idx seen [] = Some [] ->
    exists (objects : list (list (string * json))) (names : list string),
      checks = map JDict objects /\
      map (fun check => Py.get check "name") objects = map JStr names /\
      NoDup names /\
      (forall n, In n names -> ~ In n seen) /\
      Forall (fun n => PyStr.blank n = false) names /\
      Forall
        (fun check =>
           Py.in_str_set (Py.get check "probe_type") Health._PROBE_TYPES
           = Some true /\
           Py.in_str_set (Py.get check "status") Health._ALLOWED_STATES
           = Some true /\
           forall field,
             Health._check_timestamp fromisoformat (Py.get check "timestamp")
               field [] = [])
        objects.
Proof.
  induction checks as [|check rest IH]; intros idx seen H.
  - exists [], []. repeat split; constructor || (intros ? []).
  - cbn [Health.check_items] in H.
    destruct check as [| | | | | |check];
      try (apply check_items_keeps_errors in H; discriminate).
    destruct (Py.get check "name") as [| | | |name| |] eqn:Hname;
      try (destruct (Py.in_str_set (Py.get check "probe_type") _)
             as [[|]|]; [| |discriminate];
           destruct (Py.in_str_set (Py.get check "status") _)
             as [[|]|]; try discriminate;
           apply check_items_keeps_errors in H;
           rewrite (health_timestamp_appends fromisoformat) in H;
           apply app_eq_nil in H as [H _]; discriminate).
    destruct (PyStr.blank name) eqn:Hblank;
      [|destruct (Py.mem name seen) eqn:Hseen];
      (destruct (Py.in_str_set (Py.get check "probe_type") Health._PROBE_TYPES)
         as [[|]|] eqn:Hprobe; [| |discriminate]);
      (destruct (Py.in_str_set (Py.get check "status") Health._ALLOWED_STATES)
         as [[|]|] eqn:Hstate; [| |discriminate]);
      try (apply check_items_keeps_errors in H;
           rewrite (health_timestamp_appends fromisoformat) in H;
           apply app_eq_nil in H as [H _]; discriminate).
    pose proof (check_items_keeps_errors _ _ _ _ H) as Hts.
    rewrite Hts in H.
    destruct (IH _ _ H) as (objects & names & -> & Hnames & Hnodup & Hfresh
                            & Hblanks & Hall).
    exists (check :: objects), (name :: names).
    assert (Hout : ~ In name seen).
    { intros Hin. unfold Py.mem in Hseen.
      assert (existsb (String.eqb name) seen = true); [|congruence].
      apply existsb_exists. exists name. split; [exact Hin|].
      apply String.eqb_refl. }
    split; [reflexivity|].
    split; [cbn [map]; now rewrite Hname, Hnames|].
    split; [|split; [|split]].
    + constructor; [|exact Hnodup].
      intros Hin. apply (Hfresh name Hin). now left.
    + intros n [<-|Hin]; [exact Hout|].
      intros Hs. apply (Hfresh n Hin). now right.
    + constructor; assumption.
    + constructor; [|exact Hall].
      split; [exact Hprobe|]. split; [exact Hstate|].
      intros field. eapply timestamp_silent_any_field. exact Hts.
Qed.

(** X12 — accepted checks.  When [_check_checks] ends without a finding,
    the value is a non-empty list of objects whose names are non-blank
    strings, all different, each with a probe type among
    liveness/readiness/startup, a status among the four states and an
    accepted timestamp. *)
Theorem accepted_checks (checks : json) :
  Health._check_checks fromisoformat checks [] = Some [] ->
  exists (objects : list (list (string * json))) (names : list string),
    checks = JList (map JDict objects) /\
    objects <> [] /\
    map (fun check => Py.get check "name") objects = map JStr names /\
    NoDup names /\
    Forall (fun n => PyStr.blank n = false) names /\
    Forall
      (fun check =>
         Py.in_str_set (Py.get check "probe_type") Health._PROBE_TYPES
         = Some true /\
         Py.in_str_set (Py.get check "status") Health._ALLOWED_STATES
         = Some true /\
         forall field,
           Health._check_timestamp fromisoformat (Py.get check "timestamp")
             field [] = [])
      objects.
Proof.
  unfold Health._check_checks.
  destruct checks as [| | | | |[|first rest]|]; try discriminate.
  intros H.
  destruct (check_items_silent _ _ _ H)
    as (objects & names & E & Hnames & Hnodup & _ & Hblank & Hall).
  exists objects, names. repeat split; try assumption.
  - now rewrite E.
  - intros ->. discriminate.
Qed.

End HealthChecksFacts.

Lemma zulu_timestamp_accepted_iff_run :
  Health._check_timestamp Sample.fromisoformat
    (JStr "2026-02-08T04:00:00Z") "timestamp" []
  = [].
Proof.
  apply (proj1 (zulu_timestamp_accepted_iff Sample.fromisoformat
                  "2026-02-08T04:00:00" "timestamp" eq_refl)).
  reflexivity.
Defined.

Lemma accepted_checks_run :
  exists (objects : list (list (string * json))) (names : list string),
    JList [Sample.health_check "healthy"] = JList (map JDict objects) /\
    objects <> [] /\
    map (fun check => Py.get check "name") objects = map JStr names /\
    NoDup names /\
    Forall (fun n => PyStr.blank n = false) names /\
    Forall
      (fun check =>
         Py.in_str_set (Py.get check "probe_type") Health._PROBE_TYPES
         = Some true /\
         Py.in_str_set (Py.get check "status") Health._ALLOWED_STATES
         = Some true /\
         forall field,
           Health._check_timestamp Sample.fromisoformat
             (Py.get check "timestamp") field [] = [])
      objects.
Proof.
  exact (accepted_checks Sample.fromisoformat
           (JList [Sample.health_check "healthy"]) eq_refl).
Defined.

(** ** What the logging validator accepts *)

Section AcceptedLogEvents.

Variable fromisoformat : string -> option bool.

Lemma non_empty_str_iff v :
  Logging.non_empty_str v = true <-> non_blank_string v.
Proof.
  unfold Logging.non_empty_str, non_blank_string. split.
  - destruct v; try discriminate. intros H. exists s. split; [reflexivity|].
    now destruct (PyStr.blank s).
  - intros (s & -> & ->). reflexivity.
Qed.


Lemma logging_timestamp_nil_iff v :
  Logging._check_timestamp fromisoformat v [] = []
  <-> timestamp_ok fromisoformat v.
Proof.
  unfold Logging._check_timestamp, timestamp_ok. split.
  - destruct v; try discriminate.
    destruct (PyStr.str_in "T" s) eqn:HT; [|discriminate]. cbn [negb].
    destruct (fromisoformat _) as [[|]|] eqn:E; try discriminate.
    intros _. exists s. repeat split; assumption.
  - intros (s & -> & HT & E). rewrite HT, E. reflexivity.
Qed.

Lemma logging_ids_nil_iff event :
  Logging._check_non_empty_ids event [] = []
  <-> Forall (fun field => non_blank_string (Py.get event field))
        ["event_id"; "task_id"; "trace_id"].
Proof.
  unfold Logging._check_non_empty_ids. cbn [for_each].
  rewrite !Forall_cons_iff, <- !non_empty_str_iff.
  destruct (Logging.non_empty_str (Py.get event "event_id")),
           (Logging.non_empty_str (Py.get event "task_id")),
           (Logging.non_empty_str (Py.get event "trace_id")); cbn;
    split; try discriminate; try (intros (? & ? & ? & _); discriminate);
    try reflexivity.
  intros _. repeat split. constructor.
Qed.

Lemma tokens_nil_iff event :
  Logging._check_tokens event [] = []
  <-> Py.has event "tokens_in" = Py.has event "tokens_out".
Proof.
  unfold Logging._check_tokens.
  destruct (Py.has event "tokens_in"), (Py.has event "tokens_out"); cbn;
    split; try discriminate; reflexivity.
Qed.

Lemma is_dict_iff v : Logging.is_dict v = true <-> exists fields, v = JDict fields.
Proof.
  destruct v; cbn; split; try discriminate; try (intros [? ?]; discriminate).
  - intros _. now exists fields.
  - reflexivity.
Qed.

Lemma decision_link_nil_iff event :
  Logging._check_decision_link event [] = []
  <-> (Py.get event "event_type" = JStr "decision" ->
       (non_blank_string (Py.get event "routing_decision_id")
        \/ exists meta routing_decision,
             Py.get event "meta" = JDict meta /\
             Py.get meta "routing_decision" = JDict routing_decision) /\
       (Py.has event "routing_decision_id" = true ->
        non_blank_string (Py.get event "routing_decision_id"))).
Proof.
  unfold Logging._check_decision_link.
  rewrite <- (eq_str_iff (Py.get event "event_type") "decision").
  destruct (Py.eq_str (Py.get event "event_type") "decision"); cbn [negb];
    [|split; [discriminate|reflexivity]].
  assert (Hmeta :
            match Py.get event "meta" with
            | JDict meta => Logging.is_dict (Py.get meta "routing_decision")
            | _ => false
            end = true
            <-> exists meta routing_decision,
                Py.get event "meta" = JDict meta /\
                Py.get meta "routing_decision" = JDict routing_decision).
  { destruct (Py.get event "meta") as [| | | | | |meta];
      try (split; [discriminate|intros (? & ? & ? & _); discriminate]).
    rewrite is_dict_iff. split.
    - intros [rd E]. now exists meta, rd.
    - intros (m & rd & [= <-] & E). now exists rd. }
  rewrite <- non_empty_str_iff, <- Hmeta.
  destruct (Logging.non_empty_str (Py.get event "routing_decision_id")),
           (match Py.get event "meta" with
            | JDict meta => Logging.is_dict (Py.get meta "routing_decision")
            | _ => false
            end),
           (Py.has event "routing_decision_id"); cbn; unfold push; cbn;
    split; try discriminate; try reflexivity;
    try (intros _ _; split; [auto|auto; discriminate]);
    try (intros H; destruct (H eq_refl) as [[?|?] ?]; discriminate);
    intros H; destruct (H eq_refl) as [_ H']; specialize (H' eq_refl);
    discriminate.
Qed.

Lemma decision_nil_iff decision_value :
  Logging._check_decision decision_value [] = []
  <-> forall decision,
        decision_value = JDict decision ->
        (Py.get decision "action" = JStr "DEGRADE" ->
         non_blank_string (Py.get decision "degraded_model")) /\
        (Py.get decision "action" = JStr "QUEUE" ->
         Py.get decision "deferred" = JBool true ->
         exists reason,
           Py.get decision "reason" = JStr reason /\
           PyStr.str_in "defer" (PyStr.lower reason) = true).
Proof.
  unfold Logging._check_decision.
  destruct decision_value as [| | | | | |d];
    try (split; [intros _ ? [=]|reflexivity]).
  assert (Hreason :
            match Py.get d "reason" with
            | JStr reason => negb (PyStr.str_in "defer" (PyStr.lower reason))
            | _ => true
            end = false
            <-> exists reason,
                Py.get d "reason" = JStr reason /\
                PyStr.str_in "defer" (PyStr.lower reason) = true).
  { destruct (Py.get d "reason") as [| | | |r| |];
      try (split; [discriminate|intros (? & ? & _); discriminate]).
    split.
    - intros H. exists r. split; [reflexivity|].
      now destruct (PyStr.str_in "defer" (PyStr.lower r)).
    - intros (r' & [= <-] & ->). reflexivity. }
  assert (Hdeferred :
            match Py.get d "deferred" with
            | JBool true => true
            | _ => false
            end = true <-> Py.get d "deferred" = JBool true).
  { destruct (Py.get d "deferred") as [|[|]| | | | |]; split;
      try discriminate; reflexivity. }
  split.
  - intros H decision [= <-].
    rewrite <- !eq_str_iff, <- non_empty_str_iff, <- Hdeferred, <- Hreason.
    destruct (Py.eq_str (Py.get d "action") "DEGRADE"),
             (Py.eq_str (Py.get d "action") "QUEUE"),
             (Logging.non_empty_str (Py.get d "degraded_model")),
             (match Py.get d "deferred" with
              | JBool true => true
              | _ => false
              end),
             (match Py.get d "reason" with
              | JStr reason => negb (PyStr.str_in "defer" (PyStr.lower reason))
              | _ => true
              end); cbn in H; try discriminate;
      split; intros; try discriminate; reflexivity.
  - intros H. specialize (H d eq_refl).
    rewrite <- !eq_str_iff, <- non_empty_str_iff, <- Hdeferred, <- Hreason in H.
    destruct H as [H1 H2].
    destruct (Py.eq_str (Py.get d "action") "DEGRADE");
      [rewrite (H1 eq_refl)|];
      (destruct (Py.eq_str (Py.get d "action") "QUEUE");
       [destruct (match Py.get d "deferred" with
                  | JBool true => true
                  | _ => false
                  end);
        [rewrite (H2 eq_refl eq_refl)|]|]); reflexivity.
Qed.

(** X13 — what the logging validator accepts.  [runtime_invariants] returns
    exactly for the events with an accepted timestamp, non-blank
    [event_id], [task_id] and [trace_id], both token counts or none, for a
    "decision" event a link to its routing decision (a non-blank
    [routing_decision_id], or an object under [meta.routing_decision]; and
    a [routing_decision_id] that is present must be non-blank), a decision
    object whose DEGRADE names a model and whose deferred QUEUE says "defer"
    in its reason, and nothing for the scanner to report. *)
Theorem logging_accepts_iff event :
  Logging.runtime_invariants fromisoformat event = Returns
  <-> accepted_log_event fromisoformat event.
Proof.
  unfold Logging.runtime_invariants.
  destruct (raise_if_any_reports "LogEvent invariant violation(s):"
              bullet_logging (Logging.collect fromisoformat event))
    as (Hret & _ & _).
  rewrite <- Hret, logging_collect_found. clear Hret.
  rewrite !app_nil_iff, logging_timestamp_nil_iff, logging_ids_nil_iff,
    tokens_nil_iff, decision_link_nil_iff, decision_nil_iff,
    scanner_silent.
  reflexivity.
Qed.

End AcceptedLogEvents.

(** ** What the routing validator accepts *)

Section AcceptedRoutingDecisions.

Variable container_eq : json -> json -> bool.
Variable list_gt : list json -> list json -> option bool.
Variable fromisoformat : string -> option bool.

Lemma routing_ids_nil_iff data :
  Routing._check_non_empty_ids data [] = []
  <-> Forall (fun field => non_blank_string (Py.get data field))
        ["decision_id"; "task_id"; "trace_id"].
Proof.
  unfold Routing._check_non_empty_ids. cbn [for_each].
  rewrite !Forall_cons_iff, <- !non_empty_str_iff.
  destruct (Logging.non_empty_str (Py.get data "decision_id")),
           (Logging.non_empty_str (Py.get data "task_id")),
           (Logging.non_empty_str (Py.get data "trace_id")); cbn;
    split; try discriminate; try (intros (? & ? & ? & _); discriminate);
    try reflexivity.
  intros _. repeat split. constructor.
Qed.

Lemma selected_nil_iff data :
  Routing._check_selected_matches_fallback container_eq data [] = []
  <-> exists first rest,
        Py.get data "fallback_chain" = JList (JDict first :: rest) /\
        Py.eq container_eq (Py.get first "provider")
          (Py.get data "selected_provider") = true /\
        Py.eq container_eq (Py.get first "model")
          (Py.get data "selected_model") = true.
Proof.
  unfold Routing._check_selected_matches_fallback.
  destruct (Py.get data "fallback_chain") as [| | | | |[|first rest]|];
    try (split; [discriminate|intros (? & ? & ? & _); discriminate]).
  destruct first as [| | | | | |first];
    try (split; [discriminate|intros (? & ? & ? & _); discriminate]).
  split.
  - intros H. exists first, rest.
    destruct (Py.eq container_eq (Py.get first "provider") _),
             (Py.eq container_eq (Py.get first "model") _);
      try discriminate. repeat split.
  - intros (f & r & [= <- <-] & -> & ->). reflexivity.
Qed.

Lemma reason_codes_nil_iff reason_codes :
  Routing._check_reason_codes reason_codes [] = []
  <-> exists codes,
        reason_codes = JList (map JStr codes) /\
        codes <> [] /\
        Forall (fun c => PyStr.blank c = false) codes /\
        NoDup codes /\
        Sorted lex_le codes.
Proof.
  split.
  - intros H. unfold Routing._check_reason_codes in H.
    destruct reason_codes as [| | | | |[|first rest]|]; try discriminate.
    set (items := first :: rest) in *.
    destruct (existsb Routing.bad_code items) eqn:Hbad; [discriminate|].
    destruct (accepted_entries items Hbad) as [Eitems Hblank].
    set (codes := map Routing.str_value items) in *.
    destruct (List.length codes =? List.length (PyStr.distinct codes))%nat
      eqn:Hlen;
      [|destruct (negb (PyStr.list_eqb codes (PyStr.sorted codes)));
        discriminate].
    destruct (PyStr.list_eqb codes (PyStr.sorted codes)) eqn:Hsorted;
      [|discriminate].
    exists codes. split; [now rewrite Eitems|].
    split; [subst codes items; discriminate|].
    split; [exact Hblank|]. split.
    + apply distinct_length_iff. now apply Nat.eqb_eq.
    + apply sorted_fixed_iff. symmetry. now apply list_eqb_iff.
  - intros (codes & -> & Hne & Hblank & Hnodup & Hsorted).
    destruct (accepted_strings codes Hblank) as [Hbad Hvalues].
    unfold Routing._check_reason_codes.
    destruct codes as [|c codes]; [now elim Hne|].
    cbn [map] in *. rewrite Hbad.
    change (Routing.str_value (JStr c) :: map Routing.str_value (map JStr codes))
      with (map Routing.str_value (JStr c :: map JStr codes)).
    cbn [map] in Hvalues. cbn [map]. rewrite Hvalues.
    apply distinct_length_iff in Hnodup. rewrite <- Hnodup, Nat.eqb_refl.
    apply sorted_fixed_iff in Hsorted. rewrite Hsorted.
    assert (E : PyStr.list_eqb (c :: codes) (c :: codes) = true)
      by now apply list_eqb_iff.
    rewrite E. reflexivity.
Qed.

Lemma cost_currency_nil_iff data :
  Routing._check_cost_currency_pair data [] = []
  <-> (Py.has data "cost_estimate" = true -> Py.has data "currency" = true).
Proof.
  unfold Routing._check_cost_currency_pair.
  destruct (Py.has data "cost_estimate"), (Py.has data "currency"); cbn;
    split; try discriminate; try reflexivity; auto.
  intros H. specialize (H eq_refl). discriminate.
Qed.

Lemma is_null_iff v : Routing.is_null v = true <-> v = JNull.
Proof. destruct v; cbn; split; try discriminate; reflexivity. Qed.

Lemma constraint_caps_nil_iff value :
  Routing._check_constraint_caps list_gt value [] = Some []
  <-> forall constraints,
        value = JDict constraints ->
        Py.get constraints "daily_soft_cap" = JNull
        \/ Py.get constraints "daily_hard_cap" = JNull
        \/ Py.gt list_gt (Py.get constraints "daily_soft_cap")
             (Py.get constraints "daily_hard_cap") = Some false.
Proof.
  unfold Routing._check_constraint_caps.
  destruct value as [| | | | | |c]; try (split; [intros _ ? [=]|reflexivity]).
  split.
  - intros H constraints [= <-]. rewrite <- !is_null_iff.
    destruct (Routing.is_null (Py.get c "daily_soft_cap")); [now left|].
    destruct (Routing.is_null (Py.get c "daily_hard_cap")); [right; now left|].
    cbn [orb] in H. right. right.
    destruct (Py.gt list_gt _ _) as [[|]|]; try discriminate. reflexivity.
  - intros H. specialize (H c eq_refl). rewrite <- !is_null_iff in H.
    destruct (Routing.is_null (Py.get c "daily_soft_cap")); [reflexivity|].
    destruct (Routing.is_null (Py.get c "daily_hard_cap")); [reflexivity|].
    cbn [orb]. destruct H as [H|[H|H]]; try discriminate.
    now rewrite H.
Qed.

(** X14 — what the routing validator accepts.  [runtime_invariants]
    returns exactly for the decisions with an accepted timestamp, non-blank
    [decision_id], [task_id] and [trace_id], a fallback chain whose first
    entry is an object with the selected provider and model, reason codes
    that are a non-empty ascending list of distinct non-blank strings, a
    [currency] beside every [cost_estimate], constraint caps of which one
    is null or the soft one is not above the hard one, and nothing for the
    scanner to report. *)
Theorem routing_accepts_iff data :
  Routing.runtime_invariants container_eq list_gt fromisoformat data = Returns
  <-> accepted_routing_decision container_eq list_gt fromisoformat data.
Proof.
  unfold accepted_routing_decision, no_secret.
  rewrite <- logging_timestamp_nil_iff, <- routing_ids_nil_iff,
    <- selected_nil_iff, <- reason_codes_nil_iff, <- cost_currency_nil_iff,
    <- constraint_caps_nil_iff, <- scanner_silent.
  unfold Routing.runtime_invariants.
  destruct (Routing._check_constraint_caps list_gt (Py.get data "constraints") [])
    as [found_caps|] eqn:Hcaps.
  - rewrite (routing_collect_found container_eq list_gt fromisoformat
               data found_caps Hcaps).
    destruct (raise_if_any_reports "RoutingDecision invariant violation(s):"
                bullet
                (Routing._check_timestamp fromisoformat
                   (Py.get data "timestamp") []
                 ++ Routing._check_non_empty_ids data []
                 ++ Routing._check_selected_matches_fallback container_eq data []
                 ++ Routing._check_reason_codes (Py.get data "reason_codes") []
                 ++ Routing._check_cost_currency_pair data []
                 ++ found_caps
                 ++ SecretScan._scan_secrets (JDict data) "$" [])%list)
      as (Hret & _ & _).
    rewrite <- Hret, !app_nil_iff. unfold Routing._check_timestamp.
    split.
    + intros (? & ? & ? & ? & ? & -> & ?). repeat split; assumption.
    + intros (? & ? & ? & ? & ? & [= ->] & ?). repeat split; assumption.
  - unfold Routing.collect.
    rewrite (constraint_caps_appends list_gt), Hcaps. cbn [option_map].
    split; [discriminate|]. intros (_ & _ & _ & _ & _ & ? & _). discriminate.
Qed.

End AcceptedRoutingDecisions.

(** ** The validator of raw cost-governor documents *)

(** Decides every test of a step on [errors] and compares the two sides
    of [step errors = errors ++ step []]. *)
Ltac decide_tests :=
  repeat match goal with
         | |- context [if ?b then _ else _] => destruct b
         end;
  unfold push; cbn [app]; rewrite ?app_nil_r, <- ?app_assoc; cbn [app];
  reflexivity.

Section RawConfigurations.

Import CostGovernorDict.

Variable float_repr : float -> string.
Variable container_repr : json -> string.
Variable list_gt : list json -> list json -> option bool.

Lemma raw_soft_le_hard_appends soft hard :
  appends_or_raises
    (check_soft_le_hard float_repr container_repr list_gt soft hard).
Proof.
  intros errors. unfold check_soft_le_hard.
  destruct (Routing.is_null hard); cbn; [now rewrite app_nil_r|].
  destruct (Py.gt list_gt soft hard) as [[|]|]; cbn;
    [reflexivity|now rewrite app_nil_r|reflexivity].
Qed.

Lemma raw_no_hard_cap_policy_appends hard on_hard :
  appends (check_no_hard_cap_policy float_repr container_repr hard on_hard).
Proof. intros errors. unfold check_no_hard_cap_policy. decide_tests. Qed.

Lemma raw_degrade_ladder_appends on_soft ladder :
  appends (check_degrade_ladder on_soft ladder).
Proof. intros errors. unfold check_degrade_ladder. decide_tests. Qed.

Lemma raw_allowlist_appends on_hard allowlist :
  appends (check_allowlist on_hard allowlist).
Proof. intros errors. unfold check_allowlist. decide_tests. Qed.

Lemma raw_queue_policy_appends on_soft on_hard qp :
  appends (check_queue_policy on_soft on_hard qp).
Proof. intros errors. unfold check_queue_policy. cbv zeta. decide_tests. Qed.

(** The errors of [runtime_invariants_dict] are the findings of its six
    blocks, one after the other, unless the first comparison raises. *)
Lemma raw_collect_found data :
  let soft := get_or data "daily_soft_cap" (JInt 0) in
  let hard := Py.get data "daily_hard_cap" in
  let on_soft := get_or data "on_soft_cap" (JStr "") in
  let on_hard := get_or data "on_hard_cap" (JStr "") in
  collect float_repr container_repr list_gt data
  = option_map
      (fun found_caps =>
         found_caps
         ++ check_no_hard_cap_policy float_repr container_repr hard on_hard []
         ++ check_degrade_ladder on_soft
              (get_or data "model_degrade_ladder" (JList [])) []
         ++ check_allowlist on_hard
              (get_or data "allowlist_tasks_under_hard_cap" (JList [])) []
         ++ CostGovernorValidator._check_no_secrets_raw (JDict data) "" []
         ++ check_queue_policy on_soft on_hard (Py.get data "queue_policy") [])%list
      (check_soft_le_hard float_repr container_repr list_gt soft hard []).
Proof.
  cbv zeta. unfold collect.
  destruct (check_soft_le_hard _ _ _ _ _ []) as [found_caps|]; cbn [option_map];
    [|reflexivity].
  rewrite (raw_queue_policy_appends _ _ _ _),
    (check_no_secrets_raw_found (JDict data) ""
       (check_allowlist _ _ _)),
    (raw_allowlist_appends _ _ _), (raw_degrade_ladder_appends _ _ _),
    (raw_no_hard_cap_policy_appends _ _ _),
    (check_no_secrets_raw_found (JDict data) "" []).
  cbn [app]. now rewrite <- !app_assoc.
Qed.

Lemma raw_soft_le_hard_nil_iff soft hard :
  check_soft_le_hard float_repr container_repr list_gt soft hard [] = Some []
  <-> hard = JNull \/ Py.gt list_gt soft hard = Some false.
Proof.
  unfold check_soft_le_hard. rewrite <- is_null_iff.
  destruct (Routing.is_null hard); [split; [now left|reflexivity]|].
  destruct (Py.gt list_gt soft hard) as [[|]|]; cbn; split;
    try discriminate; try (intros [?|?]; discriminate);
    try reflexivity.
  intros _. now right.
Qed.

Lemma raw_no_hard_cap_policy_nil_iff hard on_hard :
  check_no_hard_cap_policy float_repr container_repr hard on_hard [] = []
  <-> (hard = JNull -> on_hard = JStr "none").
Proof.
  unfold check_no_hard_cap_policy.
  rewrite <- is_null_iff, <- eq_str_iff.
  destruct (Routing.is_null hard), (Py.eq_str on_hard "none"); cbn;
    split; try discriminate; try reflexivity; auto.
  intros H. specialize (H eq_refl). discriminate.
Qed.

Lemma raw_needs_value_nil_iff (policy value : json) (name : string)
  (msg : string) :
  (if Py.eq_str policy name && negb (truthy value)
   then push [] msg else [])
  = []
  <-> (policy = JStr name -> truthy value = true).
Proof.
  rewrite <- eq_str_iff.
  destruct (Py.eq_str policy name), (truthy value); cbn;
    split; try discriminate; try reflexivity; auto.
  intros H. specialize (H eq_refl). discriminate.
Qed.

Lemma raw_queue_policy_nil_iff on_soft on_hard qp :
  check_queue_policy on_soft on_hard qp [] = []
  <-> (on_soft = JStr "queue-requests"
       \/ on_hard = JStr "queue-requests"
       \/ on_hard = JStr "queue-requests-defer" ->
       qp <> JNull).
Proof.
  unfold check_queue_policy. cbv zeta.
  rewrite <- !eq_str_iff.
  assert (Hqp : qp <> JNull <-> Routing.is_null qp = false).
  { rewrite <- is_null_iff. destruct (Routing.is_null qp); split; congruence. }
  rewrite Hqp.
  destruct (Py.eq_str on_soft "queue-requests"),
           (Py.eq_str on_hard "queue-requests"),
           (Py.eq_str on_hard "queue-requests-defer"),
           (Routing.is_null qp); cbn;
    split; try discriminate; try reflexivity; auto;
    try (intros H; exfalso;
         assert (true = false) by (apply H; auto); discriminate);
    try (intros _ [?|[?|?]]; discriminate).
Qed.

(** X15 — what the raw validator accepts, and when it breaks off.
    [runtime_invariants_dict] returns exactly for the documents that keep
    its six invariants, a missing key counting as its default; and it raises
    [TypeError], reporting nothing, exactly when the hard cap is not null
    and has no order with the soft cap. *)
Theorem raw_config_accepts_iff data :
  (runtime_invariants_dict float_repr container_repr list_gt data = Returns
   <-> accepted_raw_config list_gt data) /\
  (runtime_invariants_dict float_repr container_repr list_gt data
   = Raises TypeError
   <-> Py.get data "daily_hard_cap" <> JNull /\
       Py.gt list_gt (get_or data "daily_soft_cap" (JInt 0))
         (Py.get data "daily_hard_cap") = None).
Proof.
  unfold runtime_invariants_dict, accepted_raw_config. cbv zeta.
  pose proof (raw_collect_found data) as Hfound. cbv zeta in Hfound.
  rewrite Hfound. clear Hfound.
  rewrite <- raw_soft_le_hard_nil_iff.
  split.
  - destruct (check_soft_le_hard _ _ _ _ _ []) as [found_caps|] eqn:Hcaps;
      cbn [option_map].
    + destruct (raise_if_any_reports "CostGovernor invariant violation(s):"
                  bullet
                  (found_caps
                   ++ check_no_hard_cap_policy float_repr container_repr
                        (Py.get data "daily_hard_cap")
                        (get_or data "on_hard_cap" (JStr "")) []
                   ++ check_degrade_ladder
                        (get_or data "on_soft_cap" (JStr ""))
                        (get_or data "model_degrade_ladder" (JList [])) []
                   ++ check_allowlist
                        (get_or data "on_hard_cap" (JStr ""))
                        (get_or data "allowlist_tasks_under_hard_cap"
                           (JList [])) []
                   ++ CostGovernorValidator._check_no_secrets_raw
                        (JDict data) "" []
                   ++ check_queue_policy
                        (get_or data "on_soft_cap" (JStr ""))
                        (get_or data "on_hard_cap" (JStr ""))
                        (Py.get data "queue_policy") [])%list)
        as (Hret & _ & _).
      rewrite <- Hret. clear Hret.
      rewrite !app_nil_iff, raw_no_hard_cap_policy_nil_iff,
        raw_queue_policy_nil_iff.
      unfold check_degrade_ladder, check_allowlist.
      rewrite !raw_needs_value_nil_iff.
      rewrite (check_no_secrets_raw_found (JDict data) "" []). cbn [app].
      rewrite no_findings_iff.
      split.
      * intros (-> & H); split; [reflexivity|exact H].
      * intros ([= <-] & H); split; [reflexivity|exact H].
    + split; [discriminate|]. intros ([=] & _).
  - rewrite <- is_null_iff. unfold check_soft_le_hard.
    destruct (Routing.is_null (Py.get data "daily_hard_cap")); cbn [option_map].
    + split.
      * unfold raise_if_any.
        destruct (_ ++ _)%list; discriminate.
      * intros [H _]. now elim H.
    + destruct (Py.gt list_gt _ _) as [[|]|]; cbn [option_map].
      * split; [|intros [_ [=]]]. unfold raise_if_any.
        destruct (_ ++ _)%list; discriminate.
      * split; [|intros [_ [=]]]. unfold raise_if_any.
        destruct (_ ++ _)%list; discriminate.
      * split; [intros _; split; [discriminate|reflexivity]|reflexivity].
Qed.

(** X16 — the raw validator accumulates.  When the comparison of the caps
    goes through, the [errors] at the end of [runtime_invariants_dict] are
    the findings of its six blocks in their order, each block run whatever
    the ones before it found, and the call returns exactly when there is no
    finding and otherwise raises one [InvariantViolation] whose message
    contains every finding. *)
Theorem raw_config_all_violations_reported data found_caps :
  let soft := get_or data "daily_soft_cap" (JInt 0) in
  let hard := Py.get data "daily_hard_cap" in
  let on_soft := get_or data "on_soft_cap" (JStr "") in
  let on_hard := get_or data "on_hard_cap" (JStr "") in
  check_soft_le_hard float_repr container_repr list_gt soft hard []
  = Some found_caps ->
  let found :=
    (found_caps
     ++ check_no_hard_cap_policy float_repr container_repr hard on_hard []
     ++ check_degrade_ladder on_soft
          (get_or data "model_degrade_ladder" (JList [])) []
     ++ check_allowlist on_hard
          (get_or data "allowlist_tasks_under_hard_cap" (JList [])) []
     ++ flat_map value_findings
          (raw_values CostGovernorValidator.field_path (JDict data) "")
     ++ check_queue_policy on_soft on_hard (Py.get data "queue_policy") [])%list in
  collect float_repr container_repr list_gt data = Some found /\
  reports_all "CostGovernor invariant violation(s):" bullet found
    (runtime_invariants_dict float_repr container_repr list_gt data).
Proof.
  cbv zeta. intros Hcaps.
  pose proof (raw_collect_found data) as Hfound. cbv zeta in Hfound.
  rewrite Hcaps in Hfound. cbn [option_map] in Hfound.
  rewrite (check_no_secrets_raw_found (JDict data) "" []) in Hfound.
  cbn [app] in Hfound.
  split; [exact Hfound|].
  unfold runtime_invariants_dict. rewrite Hfound.
  apply raise_if_any_reports.
Qed.

End RawConfigurations.

(** A document with its soft cap above its hard cap, DEGRADE_MODEL without
    a ladder and a queue-* policy without [queue_policy]: the three are
    reported together. *)
Lemma raw_config_all_violations_reported_run :
  reports_all "CostGovernor invariant violation(s):" bullet
    [ "daily_soft_cap (30) must be <= daily_hard_cap (20)";
      "on_soft_cap='degrade-model' requires a non-empty model_degrade_ladder";
      "queue_policy is required when on_soft_cap or on_hard_cap uses a queue-* action" ]
    (CostGovernorDict.runtime_invariants_dict Sample.float_repr
       Sample.container_repr Sample.list_gt broken_raw_config).
Proof.
  exact (proj2 (raw_config_all_violations_reported Sample.float_repr
                  Sample.container_repr Sample.list_gt broken_raw_config
                  _ eq_refl)).
Defined.

(** ** What the health validator accepts *)

Section AcceptedHealthDocuments.

Variable float_repr : float -> string.
Variable container_repr : json -> string.
Variable fromisoformat : string -> option bool.

Lemma flat_map_all_nil {A B} (f : A -> list B) (xs : list A) :
  flat_map f xs = [] <-> Forall (fun x => f x = []) xs.
Proof.
  induction xs as [|x xs IH]; cbn.
  - split; [constructor|reflexivity].
  - rewrite app_nil_iff, Forall_cons_iff, IH. reflexivity.
Qed.

Lemma Forall_equiv {A} (P Q : A -> Prop) (xs : list A) :
  (forall x, P x <-> Q x) -> Forall P xs <-> Forall Q xs.
Proof.
  intros H. split; apply Forall_impl; intros x; apply H.
Qed.

Lemma health_timestamp_nil_iff v field :
  Health._check_timestamp fromisoformat v field [] = []
  <-> timestamp_ok fromisoformat v.
Proof.
  unfold Health._check_timestamp, timestamp_ok. split.
  - destruct v; try discriminate.
    destruct (PyStr.str_in "T" s) eqn:HT; [|discriminate]. cbn [negb].
    destruct (fromisoformat _) as [[|]|] eqn:E; try discriminate.
    intros _. exists s. repeat split; assumption.
  - intros (s & -> & HT & E). rewrite HT, E. reflexivity.
Qed.

Lemma service_name_nil_iff v :
  Health._check_service_name v [] = [] <-> non_blank_string v.
Proof.
  unfold Health._check_service_name, non_blank_string. split.
  - destruct v; try discriminate.
    destruct (PyStr.blank s) eqn:E; [discriminate|].
    intros _. now exists s.
  - intros (s & -> & ->). reflexivity.
Qed.

Lemma mem_iff (x : string) (xs : list string) :
  Py.mem x xs = true <-> In x xs.
Proof.
  unfold Py.mem. rewrite existsb_exists. split.
  - intros (y & Hin & E). apply String.eqb_eq in E. now subst.
  - intros Hin. exists x. split; [exact Hin|apply String.eqb_refl].
Qed.

Lemma in_str_set_iff (v : json) (set : list string) :
  Py.in_str_set v set = Some true <-> exists s, v = JStr s /\ In s set.
Proof.
  destruct v; cbn; split; try discriminate;
    try (intros (? & [=] & _); fail).
  - intros [= H]. exists s. split; [reflexivity|now apply mem_iff].
  - intros (t & [= <-] & Hin). f_equal. now apply mem_iff.
Qed.

Lemma accepted_check_iff check :
  (Py.in_str_set (Py.get check "probe_type") Health._PROBE_TYPES = Some true /\
   Py.in_str_set (Py.get check "status") Health._ALLOWED_STATES = Some true /\
   forall field,
     Health._check_timestamp fromisoformat (Py.get check "timestamp") field []
     = [])
  <-> accepted_check fromisoformat check.
Proof.
  unfold accepted_check. rewrite !in_str_set_iff.
  split; intros (Hp & Hs & Ht); (split; [exact Hp|split; [exact Hs|]]).
  - apply (health_timestamp_nil_iff _ "timestamp"), Ht.
  - intros field. now apply health_timestamp_nil_iff.
Qed.

(** The loop over the checks ends without a finding exactly on an accepted
    list. *)
Lemma check_items_nil_iff checks :
  forall idx seen,
    Health.check_items fromisoformat checks idx seen [] = Some []
    <-> accepted_check_list fromisoformat seen checks.
Proof.
  intros idx seen. split.
  - intros H.
    destruct (check_items_silent fromisoformat checks idx seen H)
      as (objects & names & E & Hnames & Hnodup & Hfresh & Hblank & Hall).
    exists objects, names.
    split; [exact E|]. split; [exact Hnames|]. split; [exact Hnodup|].
    split; [exact Hfresh|]. split; [exact Hblank|].
    eapply Forall_impl; [|exact Hall].
    intros check Hc. now apply accepted_check_iff.
  - intros (objects & names & -> & Hnames & Hnodup & Hfresh & Hblank & Hall).
    revert idx seen names Hnames Hnodup Hfresh Hblank.
    induction Hall as [|check objects Hcheck _ IH];
      intros idx seen names Hnames Hnodup Hfresh Hblank; [reflexivity|].
    destruct names as [|name names]; [discriminate|].
    cbn [map] in Hnames. injection Hnames as Hname Hnames.
    apply accepted_check_iff in Hcheck as (Hp & Hs & Ht).
    cbn [map Health.check_items]. rewrite Hname.
    inversion Hblank as [|? ? Hb Hblank']; subst.
    inversion Hnodup as [|? ? Hnotin Hnodup']; subst.
    rewrite Hb.
    assert (Hmem : Py.mem name seen = false).
    { destruct (Py.mem name seen) eqn:E; [|reflexivity].
      apply mem_iff in E. exfalso. apply (Hfresh name); [now left|exact E]. }
    rewrite Hmem, Hp, Hs, Ht.
    apply (IH _ _ names); try assumption.
    intros n Hin [<-|Hseen]; [exact (Hnotin Hin)|].
    apply (Hfresh n); [now right|exact Hseen].
Qed.

Lemma checks_nil_iff value :
  Health._check_checks fromisoformat value [] = Some []
  <-> exists checks,
        value = JList checks /\ checks <> [] /\
        accepted_check_list fromisoformat [] checks.
Proof.
  unfold Health._check_checks.
  destruct value as [| | | | |[|first rest]|];
    try (split; [discriminate|intros (? & [=] & _)]; fail).
  - split; [discriminate|]. intros (checks & [= <-] & H & _). now elim H.
  - rewrite check_items_nil_iff. split.
    + intros H. exists (first :: rest).
      split; [reflexivity|]. split; [discriminate|exact H].
    + intros (checks & [= <-] & _ & H). exact H.
Qed.

Lemma if_push_nil (b : bool) (errors : list string) (msg : string) :
  (if b then push errors msg else errors) = [] <-> b = false /\ errors = [].
Proof.
  destruct b; split.
  - intros H. apply app_eq_nil in H as [_ H]. discriminate H.
  - intros [H _]. discriminate H.
  - intros H. now split.
  - now intros [_ H].
Qed.

Lemma summary_and_status_nil_iff data checks :
  Py.get data "checks" = JList checks ->
  (Health._check_summary_and_status float_repr container_repr data [] = []
   <-> forall summary,
         Py.get data "summary" = JDict summary ->
         Py.get data "status" = JStr (status_of_checks checks) /\
         Forall
           (fun count : string * nat =>
              Py.eq_int (Py.get summary (fst count)) (Z.of_nat (snd count))
              = true)
           (Health.computed_counts checks)).
Proof.
  intros Hchecks. unfold Health._check_summary_and_status. rewrite Hchecks.
  destruct (Py.get data "summary") as [| | | | | |summary];
    try (split; [intros _ ? [=]|reflexivity]).
  rewrite derive_status_of_checks, if_push_nil, for_each_found.
  - cbn [app]. rewrite flat_map_all_nil.
    assert (Hcounts :
      Forall
        (fun kv : string * nat =>
           (let (key, expected) := kv in
            if negb (Py.eq_int (Py.get summary key) (Z.of_nat expected))
            then push []
                   ("summary." ++ key ++ " must equal computed value "
                    ++ PyStr.of_nat expected ++ ", got "
                    ++ Py.str float_repr container_repr (Py.get summary key))
            else [])
           = [])
        (Health.computed_counts checks)
      <-> Forall
            (fun count : string * nat =>
               Py.eq_int (Py.get summary (fst count)) (Z.of_nat (snd count))
               = true)
            (Health.computed_counts checks)).
    { apply Forall_equiv. intros [key expected]. cbn [fst snd].
      rewrite (if_push_nil _ [] _).
      destruct (Py.eq_int (Py.get summary key) (Z.of_nat expected)); cbn;
        split; try discriminate; try reflexivity; auto.
      intros [H _]. discriminate H. }
    rewrite Hcounts.
    destruct (Py.eq_str (Py.get data "status") (status_of_checks checks))
      eqn:Hstatus; cbn [negb]; split.
    + intros [_ H] s [= <-]. split; [now apply eq_str_iff|exact H].
    + intros H. split; [reflexivity|]. now apply (H summary).
    + intros [H _]. discriminate H.
    + intros H. destruct (H summary eq_refl) as [H' _].
      apply eq_str_iff in H'. congruence.
  - apply Forall_forall. intros [key expected] _ errors. decide_tests.
Qed.

(** X17 — what the health validator accepts.  [runtime_invariants] returns
    exactly for the documents with an accepted timestamp, a non-blank
    service name, a non-empty list of checks that are objects with
    non-blank names, all different, each with a known probe type, a known
    state and an accepted timestamp, nothing for the scanner to report and,
    when [summary] is an object, the status derived from the checks and
    the five counts of the checks.  A document whose [summary] is not an
    object is accepted with any status. *)
Theorem health_accepts_iff data :
  Health.runtime_invariants float_repr container_repr fromisoformat data
  = Returns
  <-> accepted_health_document fromisoformat data.
Proof.
  unfold Health.runtime_invariants, accepted_health_document.
  destruct (Health._check_checks fromisoformat (Py.get data "checks") [])
    as [found_checks|] eqn:Hchecks.
  - rewrite (health_collect_found float_repr container_repr fromisoformat
               data found_checks Hchecks).
    destruct (raise_if_any_reports "HealthStatus invariant violation(s):"
                bullet
                (Health._check_timestamp fromisoformat
                   (Py.get data "timestamp") "timestamp" []
                 ++ Health._check_service_name (Py.get data "service") []
                 ++ found_checks
                 ++ Health._check_summary_and_status float_repr
                      container_repr data []
                 ++ SecretScan._scan_secrets (JDict data) "$" [])%list)
      as (Hret & _ & _).
    rewrite <- Hret. clear Hret.
    rewrite !app_nil_iff, health_timestamp_nil_iff, service_name_nil_iff,
      scanner_silent.
    assert (Hfound : found_checks = []
                     <-> Health._check_checks fromisoformat
                           (Py.get data "checks") [] = Some []).
    { rewrite Hchecks. split; [now intros ->|now intros [= ->]]. }
    rewrite Hfound, checks_nil_iff. unfold no_secret.
    split.
    + intros (Ht & Hs & (checks & E & Hne & Hall) & Hsum & Hscan).
      split; [exact Ht|]. split; [exact Hs|]. split; [|exact Hscan].
      exists checks. split; [exact E|]. split; [exact Hne|].
      split; [exact Hall|].
      now apply summary_and_status_nil_iff.
    + intros (Ht & Hs & (checks & E & Hne & Hall & Hsum) & Hscan).
      split; [exact Ht|]. split; [exact Hs|].
      split; [exists checks; now repeat split|].
      split; [|exact Hscan].
      now apply (summary_and_status_nil_iff data checks E).
  - assert (Hcollect : Health.collect float_repr container_repr fromisoformat
                         data = None).
    { unfold Health.collect.
      now rewrite (check_checks_appends fromisoformat), Hchecks. }
    rewrite Hcollect. split; [discriminate|].
    intros (_ & _ & (checks & E & Hne & Hall & _) & _).
    assert (Hsome : Health._check_checks fromisoformat (Py.get data "checks") []
                    = Some []).
    { apply checks_nil_iff. exists checks. now repeat split. }
    congruence.
Qed.

End AcceptedHealthDocuments.

(** ** The policy index *)

Section PolicyFacts.

Variable float_repr : float -> string.
Variable container_repr : json -> string.

Lemma check_cap_iff (enforcer : PolicyIndex.Enforcer) tier obj act val :
  (PolicyIndex.check_cap (Some enforcer) tier obj act val = Some true
   <-> val = JNull \/ enforcer tier obj act val = Some true) /\
  (PolicyIndex.check_cap (Some enforcer) tier obj act val = None
   <-> val <> JNull /\ enforcer tier obj act val = None).
Proof.
  unfold PolicyIndex.check_cap. rewrite <- is_null_iff.
  destruct (Routing.is_null val); split; split.
  - now left.
  - reflexivity.
  - discriminate.
  - intros [Hnull _]. now elim Hnull.
  - now right.
  - intros [Hnull|Hallowed]; [discriminate Hnull|exact Hallowed].
  - intros Hraises. split; [discriminate|exact Hraises].
  - now intros [_ Hraises].
Qed.

(** X18 — caps against the policy.  Every [check_cap] loads the policy
    before it looks at the cap, so [validate_config] raises when the policy
    cannot be loaded, whatever the configuration.  It returns the empty
    list exactly when the policy loads and each of the three caps is
    missing, null, or allowed by the policy for the tier, and it raises
    exactly when the policy cannot be loaded or [enforce] raises on a cap
    that is present and not null.  A cap that is missing or null is never
    put to the policy: a configuration without caps passes for every tier
    exactly when the policy loads. *)
Theorem policy_accepts_iff (load_enforcer : option PolicyIndex.Enforcer)
  config tier :
  (PolicyIndex.validate_config load_enforcer float_repr container_repr
     config tier = Some []
   <-> exists enforcer,
         load_enforcer = Some enforcer /\
         Forall
           (fun cap : string * string * string =>
              let '(obj, act, key) := cap in
              Py.get config key = JNull
              \/ enforcer tier obj act (Py.get config key) = Some true)
           [ ("daily", "soft_cap", "daily_soft_cap");
             ("daily", "hard_cap", "daily_hard_cap");
             ("per_request", "cap", "per_request_cap") ]) /\
  (PolicyIndex.validate_config load_enforcer float_repr container_repr
     config tier = None
   <-> load_enforcer = None
       \/ exists enforcer,
            load_enforcer = Some enforcer /\
            Exists
              (fun cap : string * string * string =>
                 let '(obj, act, key) := cap in
                 Py.get config key <> JNull
                 /\ enforcer tier obj act (Py.get config key) = None)
              [ ("daily", "soft_cap", "daily_soft_cap");
                ("daily", "hard_cap", "daily_hard_cap");
                ("per_request", "cap", "per_request_cap") ]) /\
  (Py.get config "daily_soft_cap" = JNull ->
   Py.get config "daily_hard_cap" = JNull ->
   Py.get config "per_request_cap" = JNull ->
   PolicyIndex.validate_config load_enforcer float_repr container_repr
     config tier
   = match load_enforcer with
     | Some _ => Some []
     | None => None
     end).
Proof.
  destruct load_enforcer as [enforcer|].
  - pose proof (check_cap_iff enforcer tier "daily" "soft_cap"
                  (Py.get config "daily_soft_cap"))
      as [Hsoft Hsoft_raises].
    pose proof (check_cap_iff enforcer tier "daily" "hard_cap"
                  (Py.get config "daily_hard_cap"))
      as [Hhard Hhard_raises].
    pose proof (check_cap_iff enforcer tier "per_request" "cap"
                  (Py.get config "per_request_cap"))
      as [Hreq Hreq_raises].
    assert (Hall :
              (exists e,
                  Some enforcer = Some e /\
                  Forall
                    (fun cap : string * string * string =>
                       let '(obj, act, key) := cap in
                       Py.get config key = JNull
                       \/ e tier obj act (Py.get config key) = Some true)
                    [ ("daily", "soft_cap", "daily_soft_cap");
                      ("daily", "hard_cap", "daily_hard_cap");
                      ("per_request", "cap", "per_request_cap") ])
              <-> PolicyIndex.check_cap (Some enforcer) tier "daily" "soft_cap"
                    (Py.get config "daily_soft_cap") = Some true
                  /\ PolicyIndex.check_cap (Some enforcer) tier "daily"
                       "hard_cap" (Py.get config "daily_hard_cap") = Some true
                  /\ PolicyIndex.check_cap (Some enforcer) tier "per_request"
                       "cap" (Py.get config "per_request_cap") = Some true).
    { rewrite Hsoft, Hhard, Hreq. split.
      - intros (e & [= <-] & H). rewrite !Forall_cons_iff in H.
        destruct H as (H1 & H2 & H3 & _). exact (conj H1 (conj H2 H3)).
      - intros (H1 & H2 & H3). exists enforcer. split; [reflexivity|].
        rewrite !Forall_cons_iff. repeat split; auto. }
    assert (Hsome :
              (Some enforcer = None
               \/ exists e,
                    Some enforcer = Some e /\
                    Exists
                      (fun cap : string * string * string =>
                         let '(obj, act, key) := cap in
                         Py.get config key <> JNull
                         /\ e tier obj act (Py.get config key) = None)
                      [ ("daily", "soft_cap", "daily_soft_cap");
                        ("daily", "hard_cap", "daily_hard_cap");
                        ("per_request", "cap", "per_request_cap") ])
              <-> PolicyIndex.check_cap (Some enforcer) tier "daily" "soft_cap"
                    (Py.get config "daily_soft_cap") = None
                  \/ PolicyIndex.check_cap (Some enforcer) tier "daily"
                       "hard_cap" (Py.get config "daily_hard_cap") = None
                  \/ PolicyIndex.check_cap (Some enforcer) tier "per_request"
                       "cap" (Py.get config "per_request_cap") = None).
    { rewrite Hsoft_raises, Hhard_raises, Hreq_raises. split.
      - intros [H|(e & [= <-] & H)]; [discriminate H|].
        rewrite !Exists_cons, Exists_nil in H.
        destruct H as [H|[H|[H|[]]]];
          [left|right; left|right; right]; exact H.
      - intros H. right. exists enforcer. split; [reflexivity|].
        rewrite !Exists_cons, Exists_nil.
        destruct H as [H|[H|H]];
          [left|right; left|right; right; left]; exact H. }
    rewrite Hall, Hsome. clear Hall Hsome.
    split; [|split].
    + unfold PolicyIndex.validate_config. cbv zeta.
      destruct (PolicyIndex.check_cap (Some enforcer) tier "daily" "soft_cap" _)
        as [[|]|];
        destruct (PolicyIndex.check_cap (Some enforcer) tier "daily"
                    "hard_cap" _) as [[|]|];
        destruct (PolicyIndex.check_cap (Some enforcer) tier "per_request"
                    "cap" _) as [[|]|];
        cbn [negb]; unfold push; cbn [app];
        split; try discriminate; try (intros (? & ? & ?); discriminate);
        try reflexivity.
      now intros _.
    + unfold PolicyIndex.validate_config. cbv zeta.
      destruct (PolicyIndex.check_cap (Some enforcer) tier "daily" "soft_cap" _)
        as [[|]|];
        destruct (PolicyIndex.check_cap (Some enforcer) tier "daily"
                    "hard_cap" _) as [[|]|];
        destruct (PolicyIndex.check_cap (Some enforcer) tier "per_request"
                    "cap" _) as [[|]|];
        cbn [negb]; unfold push; cbn [app];
        (split;
         [ first [discriminate | intros _; auto]
         | first [reflexivity | intros [H|[H|H]]; discriminate H] ]).
    + intros H1 H2 H3.
      apply (fun H => proj2 Hsoft (or_introl H)) in H1.
      apply (fun H => proj2 Hhard (or_introl H)) in H2.
      apply (fun H => proj2 Hreq (or_introl H)) in H3.
      unfold PolicyIndex.validate_config. cbv zeta.
      now rewrite H1, H2, H3.
  - unfold PolicyIndex.validate_config, PolicyIndex.check_cap.
    split; [|split].
    + split; [discriminate|]. intros (e & He & _). discriminate He.
    + split; [intros _; now left|reflexivity].
    + reflexivity.
Qed.

End PolicyFacts.

(** ** mcp-server-config: the validators and the converters *)

Section McpFacts.

Import McpValidate.

Lemma guard_false_iff (a b : bool) :
  a && negb b = false <-> (a = true -> b = true).
Proof.
  destruct a, b; cbn; split; auto; try discriminate.
  intros H. specialize (H eq_refl). discriminate H.
Qed.

Lemma desktop_server_step_appends name server :
  appends (desktop_server_step name server).
Proof.
  intros errors. unfold desktop_server_step.
  destruct server; try reflexivity. decide_tests.
Qed.

Lemma cli_server_step_appends context name server :
  appends (cli_server_step context name server).
Proof.
  intros errors. unfold cli_server_step.
  destruct server; try reflexivity. decide_tests.
Qed.

Lemma desktop_server_step_nil_iff name server :
  desktop_server_step name server [] = [] <-> desktop_server_ok server.
Proof.
  unfold desktop_server_step, desktop_server_ok.
  destruct server as [| | | | | |fields];
    try (split; [discriminate|intros (? & [=] & _)]; fail).
  cbv zeta. rewrite !if_push_nil, !guard_false_iff, negb_false_iff.
  split.
  - intros (Hp & He & Ha & Hc & _). exists fields. now repeat split.
  - intros (f & [= <-] & Hc & Ha & He & Hp). now repeat split.
Qed.

Lemma get_has fields key v :
  Py.get fields key = v -> v <> JNull -> Py.has fields key = true.
Proof.
  unfold Py.get, Py.has. destruct (Py.lookup key fields); [reflexivity|].
  intros <- H. now elim H.
Qed.

Lemma cli_server_step_nil_iff context name server :
  cli_server_step context name server [] = [] <-> cli_server_ok server.
Proof.
  unfold cli_server_step, cli_server_ok.
  destruct server as [| | | | | |fields];
    try (split; [discriminate|intros (? & [=] & _)]; fail).
  cbv zeta. rewrite !if_push_nil, !guard_false_iff, negb_false_iff.
  split.
  - intros (He & Ha & Hc & Ht). exists fields. split; [reflexivity|].
    split; [|now repeat split].
    apply eq_str_iff.
    destruct (Py.has fields "type"); [|discriminate Ht].
    destruct (Py.eq_str (Py.get fields "type") "stdio");
      [reflexivity|discriminate Ht].
  - intros (f & [= <-] & Ht & Hc & Ha & He).
    split; [exact He|]. split; [exact Ha|]. split; [exact Hc|].
    rewrite (get_has fields "type" _ Ht) by discriminate.
    now rewrite Ht.
Qed.

Lemma servers_loop_nil_iff (step : string -> json -> list string -> list string)
  (ok : json -> Prop) (servers : list (string * json)) :
  (forall name server, appends (step name server)) ->
  (forall name server, step name server [] = [] <-> ok server) ->
  for_each
    (fun (kv : string * json) errors =>
       let (name, server) := kv in step name server errors)
    servers []
  = []
  <-> Forall ok (map snd servers).
Proof.
  intros Happ Hok.
  rewrite for_each_found.
  - cbn [app]. rewrite flat_map_all_nil, Forall_map.
    apply Forall_equiv. intros [name server]. cbn [snd]. apply Hok.
  - apply Forall_forall. intros [name server] _. apply Happ.
Qed.

(** The configurations on which [validate_desktop_config] finds nothing. *)
Lemma desktop_config_nil_iff config :
  validate_desktop_config config = [] <-> accepted_desktop_config config.
Proof.
  unfold validate_desktop_config, accepted_desktop_config, Py.has, Py.get.
  destruct (Py.lookup "mcpServers" config) as [[| | | | | |servers]|];
    cbn [negb];
    try (split; [discriminate|intros (? & [=] & _)]; fail).
  rewrite (servers_loop_nil_iff desktop_server_step desktop_server_ok).
  - split.
    + intros H. now exists servers.
    + now intros (s & [= <-] & H).
  - apply desktop_server_step_appends.
  - apply desktop_server_step_nil_iff.
Qed.

Lemma cli_servers_nil_iff servers context :
  _validate_cli_servers servers context = [] <-> cli_servers_ok servers.
Proof.
  unfold _validate_cli_servers, cli_servers_ok.
  destruct servers as [| | | | | |entries];
    try (split; [discriminate|intros (? & [=] & _)]; fail).
  rewrite (servers_loop_nil_iff (cli_server_step context) cli_server_ok).
  - split.
    + intros H. now exists entries.
    + now intros (s & [= <-] & H).
  - apply cli_server_step_appends.
  - apply cli_server_step_nil_iff.
Qed.

Lemma project_step_appends project_path project_config :
  appends (project_step project_path project_config).
Proof.
  intros errors. unfold project_step, extend.
  destruct project_config; try reflexivity.
  destruct (Py.has fields "mcpServers"); [reflexivity|].
  now rewrite app_nil_r.
Qed.

Lemma project_step_nil_iff project_path project_config :
  project_step project_path project_config [] = []
  <-> exists fields,
        project_config = JDict fields /\
        forall servers,
          Py.lookup "mcpServers" fields = Some servers ->
          cli_servers_ok servers.
Proof.
  unfold project_step, extend, Py.has, Py.get.
  destruct project_config as [| | | | | |fields];
    try (split; [discriminate|intros (? & [=] & _)]; fail).
  destruct (Py.lookup "mcpServers" fields) as [servers|] eqn:Hl; cbn [app].
  - rewrite cli_servers_nil_iff. split.
    + intros H. exists fields. split; [reflexivity|].
      intros s E. rewrite Hl in E. injection E as <-. exact H.
    + intros (f & [= <-] & H). now apply H.
  - split; [|reflexivity]. intros _. exists fields.
    split; [reflexivity|]. intros s E. rewrite Hl in E. discriminate E.
Qed.

(** The configurations on which [validate_cli_config] finds nothing. *)
Lemma cli_config_nil_iff config :
  validate_cli_config config = [] <-> accepted_cli_config config.
Proof.
  unfold validate_cli_config, accepted_cli_config, extend. cbv zeta.
  assert (Hglobal :
    (if Py.has config "mcpServers"
     then ([] ++ _validate_cli_servers (Py.get config "mcpServers") "global")%list
     else [])
    = []
    <-> forall servers,
          Py.lookup "mcpServers" config = Some servers ->
          cli_servers_ok servers).
  { unfold Py.has, Py.get.
    destruct (Py.lookup "mcpServers" config) as [servers|]; cbn [app].
    - rewrite cli_servers_nil_iff. split.
      + intros H s E. injection E as <-. exact H.
      + intros H. now apply H.
    - split; [intros _ s [=]|reflexivity]. }
  rewrite <- Hglobal. clear Hglobal.
  set (global_errors :=
         if Py.has config "mcpServers"
         then ([] ++ _validate_cli_servers (Py.get config "mcpServers") "global")%list
         else []).
  unfold Py.has at 1. unfold Py.get at 1.
  destruct (Py.lookup "projects" config) as [projects|].
  - destruct projects as [| | | | | |entries];
      try (split; [intros H; apply app_eq_nil in H as [_ H]; discriminate H
                  |intros (_ & H); destruct (H _ eq_refl) as (? & [=] & _)];
           fail).
    rewrite for_each_found.
    + rewrite app_nil_iff, flat_map_all_nil.
      split.
      * intros (Hg & Hp). split; [exact Hg|].
        intros p [= <-]. exists entries. split; [reflexivity|].
        rewrite Forall_map. eapply Forall_impl; [|exact Hp].
        intros [path pc] H. cbn [snd]. now apply (project_step_nil_iff path).
      * intros (Hg & Hp). split; [exact Hg|].
        destruct (Hp _ eq_refl) as (e & [= <-] & Hall).
        rewrite Forall_map in Hall. eapply Forall_impl; [|exact Hall].
        intros [path pc] H. cbn [snd] in H. now apply project_step_nil_iff.
    + apply Forall_forall. intros [path pc] _. apply project_step_appends.
  - split.
    + intros H. split; [exact H|]. intros p [=].
    + now intros [H _].
Qed.

(** *** The converters *)

Lemma dict_set_values (P : json -> Prop) d key value :
  Forall P (map snd d) -> P value ->
  Forall P (map snd (McpConvert.dict_set d key value)).
Proof.
  intros Hd Hv. induction d as [|[k v] d IH]; cbn.
  - now constructor.
  - inversion Hd as [|? ? Hk Hrest]; subst.
    destruct (String.eqb k key); cbn; constructor; auto.
Qed.

Lemma dict_update_values (P : json -> Prop) other :
  forall d,
    Forall P (map snd d) -> Forall P (map snd other) ->
    Forall P (map snd (McpConvert.dict_update d other)).
Proof.
  unfold McpConvert.dict_update.
  induction other as [|[k v] other IH]; intros d Hd Ho; cbn; [exact Hd|].
  inversion Ho as [|? ? Hv Ho']; subst.
  apply IH; [|exact Ho']. now apply dict_set_values.
Qed.

(** [d[key] = value] and then a look-up: the new value under [key], and
    under every other key what was there. *)
Lemma lookup_dict_set d k v key :
  Py.lookup key (McpConvert.dict_set d k v)
  = if String.eqb k key then Some v else Py.lookup key d.
Proof.
  induction d as [|[k' v'] d IH]; cbn [McpConvert.dict_set Py.lookup];
    [reflexivity|].
  destruct (String.eqb_spec k' k) as [->|Hne]; cbn [Py.lookup].
  - now destruct (String.eqb k key).
  - rewrite IH.
    destruct (String.eqb_spec k' key) as [->|_]; [|reflexivity].
    destruct (String.eqb_spec k key) as [->|_]; [now elim Hne|reflexivity].
Qed.

Lemma dict_set_not_nil d key value : McpConvert.dict_set d key value <> [].
Proof.
  destruct d as [|[k v] d]; cbn; [|destruct (String.eqb k key)]; discriminate.
Qed.

Lemma dict_update_nil_iff other : McpConvert.dict_update [] other = [] <-> other = [].
Proof.
  unfold McpConvert.dict_update.
  destruct other as [|[k v] other]; cbn; [tauto|].
  split; [|discriminate]. intros H. exfalso. revert H.
  generalize (dict_set_not_nil [] k v). cbn.
  generalize [(k, v)]. clear k v.
  induction other as [|[k v] other IH]; cbn; intros d Hd E; [now subst|].
  eapply IH; [|exact E]. apply dict_set_not_nil.
Qed.

(** A Desktop server entry that validates converts, to a CLI entry that
    validates. *)
Lemma desktop_to_cli_server_ok server :
  desktop_server_ok server ->
  exists converted,
    McpConvert.desktop_to_cli_server server = McpConvert.Return converted /\
    cli_server_ok (JDict converted).
Proof.
  intros (fields & -> & Hc & Ha & He & _).
  unfold McpConvert.desktop_to_cli_server, McpConvert.subscript.
  unfold Py.has in Hc.
  destruct (Py.lookup "command" fields) as [command|]; [|discriminate Hc].
  cbn [McpConvert.bind].
  destruct (Py.has fields "args") eqn:Hargs, (Py.has fields "env") eqn:Henv;
    (eexists; split; [reflexivity|]);
    (eexists; split; [reflexivity|]); cbn;
    repeat split; auto; discriminate.
Qed.

Lemma cli_to_desktop_server_ok server :
  cli_server_ok server ->
  exists converted,
    McpConvert.cli_to_desktop_server server = McpConvert.Return converted /\
    desktop_server_ok (JDict converted).
Proof.
  intros (fields & -> & _ & Hc & Ha & He).
  unfold McpConvert.cli_to_desktop_server, McpConvert.subscript.
  unfold Py.has in Hc.
  destruct (Py.lookup "command" fields) as [command|]; [|discriminate Hc].
  cbn [McpConvert.bind].
  destruct (Py.has fields "args") eqn:Hargs, (Py.has fields "env") eqn:Henv;
    (eexists; split; [reflexivity|]);
    (eexists; split; [reflexivity|]); cbn;
    repeat split; auto; discriminate.
Qed.

Lemma comprehension_ok (convert : json -> McpConvert.result (list (string * json)))
  (ok_in ok_out : json -> Prop) :
  (forall server, ok_in server ->
                  exists converted,
                    convert server = McpConvert.Return converted /\
                    ok_out (JDict converted)) ->
  forall servers acc,
    Forall ok_in (map snd servers) ->
    Forall ok_out (map snd acc) ->
    exists out,
      McpConvert.comprehension convert servers acc = McpConvert.Return out /\
      Forall ok_out (map snd out) /\
      (out = [] <-> acc = [] /\ servers = []).
Proof.
  intros Hconvert.
  induction servers as [|[name server] servers IH]; intros acc Hin Hacc;
    cbn [McpConvert.comprehension].
  - exists acc. split; [reflexivity|]. split; [exact Hacc|].
    split; [now intros ->|now intros [-> _]].
  - cbn [map snd] in Hin. inversion Hin as [|? ? Hs Hrest]; subst.
    destruct (Hconvert server Hs) as (converted & -> & Hok).
    cbn [McpConvert.bind].
    destruct (IH (McpConvert.dict_set acc name (JDict converted)) Hrest
                (dict_set_values _ _ _ _ Hacc Hok))
      as (out & -> & Hout & Hnil).
    exists out. split; [reflexivity|]. split; [exact Hout|].
    split.
    + intros E. apply Hnil in E as [E _]. now apply dict_set_not_nil in E.
    + intros [_ [=]].
Qed.

(** A Desktop configuration that validates converts without an exception,
    to a CLI configuration that validates. *)
Lemma desktop_to_cli_accepted config :
  accepted_desktop_config config ->
  exists cli_config,
    McpConvert.desktop_to_cli config = McpConvert.Return cli_config /\
    accepted_cli_config cli_config.
Proof.
  intros (servers & Hl & Hall).
  unfold McpConvert.desktop_to_cli, Py.has, Py.get. rewrite Hl.
  cbn [McpConvert.items McpConvert.bind].
  destruct (comprehension_ok McpConvert.desktop_to_cli_server
              desktop_server_ok cli_server_ok desktop_to_cli_server_ok
              servers [] Hall (Forall_nil _))
    as (out & -> & Hout & _).
  cbn [McpConvert.bind McpConvert.dict_set].
  eexists. split; [reflexivity|].
  split.
  - cbn. intros s E. injection E as <-. now exists out.
  - cbn. intros p E. discriminate E.
Qed.

Section WithPath.

Variable path_name : string -> string.

(** The servers of one object of a CLI configuration (the configuration
    itself, or a project). *)
Lemma servers_of_accepted fields :
  (forall servers,
      Py.lookup "mcpServers" fields = Some servers -> cli_servers_ok servers) ->
  Py.has fields "mcpServers" = true ->
  Py.get fields "mcpServers" = JDict (servers_of fields) /\
  Forall cli_server_ok (map snd (servers_of fields)).
Proof.
  unfold Py.has, Py.get, servers_of. intros H Hhas.
  destruct (Py.lookup "mcpServers" fields) as [servers|]; [|discriminate Hhas].
  destruct (H servers eq_refl) as (entries & -> & Hall). now split.
Qed.

Lemma servers_of_missing fields :
  Py.has fields "mcpServers" = false -> servers_of fields = [].
Proof.
  unfold Py.has, servers_of.
  now destruct (Py.lookup "mcpServers" fields).
Qed.

Lemma project_servers_ok project_path servers :
  forall acc,
    Forall cli_server_ok (map snd servers) ->
    Forall desktop_server_ok (map snd acc) ->
    exists out,
      McpConvert.project_servers path_name project_path servers acc
      = McpConvert.Return out /\
      Forall desktop_server_ok (map snd out) /\
      (out = [] <-> acc = [] /\ servers = []).
Proof.
  induction servers as [|[name server] servers IH]; intros acc Hin Hacc;
    cbn [McpConvert.project_servers].
  - exists acc. split; [reflexivity|]. split; [exact Hacc|].
    split; [now intros ->|now intros [-> _]].
  - cbn [map snd] in Hin. inversion Hin as [|? ? Hs Hrest]; subst.
    destruct (cli_to_desktop_server_ok server Hs) as (converted & -> & Hok).
    cbn [McpConvert.bind].
    destruct (IH (McpConvert.dict_set acc
                    (path_name project_path ++ "-" ++ name) (JDict converted))
                Hrest (dict_set_values _ _ _ _ Hacc Hok))
      as (out & -> & Hout & Hnil).
    exists out. split; [reflexivity|]. split; [exact Hout|].
    split.
    + intros E. apply Hnil in E as [E _]. now apply dict_set_not_nil in E.
    + intros [_ [=]].
Qed.

Lemma projects_loop_ok projects :
  forall acc,
    Forall
      (fun project_config =>
         exists fields,
           project_config = JDict fields /\
           forall servers,
             Py.lookup "mcpServers" fields = Some servers ->
             cli_servers_ok servers)
      (map snd projects) ->
    Forall desktop_server_ok (map snd acc) ->
    exists out,
      McpConvert.projects_loop path_name projects acc = McpConvert.Return out /\
      Forall desktop_server_ok (map snd out) /\
      (out = [] <-> acc = [] /\ flat_map project_servers_of projects = []).
Proof.
  induction projects as [|[path pc] projects IH]; intros acc Hin Hacc;
    cbn [McpConvert.projects_loop flat_map].
  - exists acc. split; [reflexivity|]. split; [exact Hacc|].
    split; [now intros ->|now intros [-> _]].
  - cbn [map snd] in Hin. inversion Hin as [|? ? Hp Hrest]; subst.
    destruct Hp as (fields & -> & Hservers).
    unfold project_servers_of at 1. cbn [snd].
    destruct (Py.has fields "mcpServers") eqn:Hhas.
    + destruct (servers_of_accepted fields Hservers Hhas) as (-> & Hall).
      cbn [McpConvert.items McpConvert.bind].
      destruct (project_servers_ok path (servers_of fields) acc Hall Hacc)
        as (mid & -> & Hmid & Hmid_nil).
      cbn [McpConvert.bind].
      destruct (IH mid Hrest Hmid) as (out & -> & Hout & Hnil).
      exists out. split; [reflexivity|]. split; [exact Hout|].
      rewrite Hnil, Hmid_nil, app_nil_iff. tauto.
    + rewrite (servers_of_missing fields Hhas). cbn [app].
      apply IH; assumption.
Qed.

(** A CLI configuration that validates converts without an exception; the
    result is the empty object when the configuration has no server, and
    otherwise a Desktop configuration that validates. *)
Lemma cli_to_desktop_accepted config :
  accepted_cli_config config ->
  exists desktop_config,
    McpConvert.cli_to_desktop path_name config
    = McpConvert.Return desktop_config /\
    ((cli_servers_of config = [] /\ desktop_config = [])
     \/ (cli_servers_of config <> [] /\
         accepted_desktop_config desktop_config)).
Proof.
  intros (Hglobal & Hprojects).
  unfold McpConvert.cli_to_desktop, cli_servers_of.
  (* the servers of the configuration itself *)
  assert (Hfirst :
    exists mid,
      (if Py.has config "mcpServers"
       then McpConvert.bind (McpConvert.items (Py.get config "mcpServers"))
              (fun servers =>
                 McpConvert.bind
                   (McpConvert.comprehension McpConvert.cli_to_desktop_server
                      servers [])
                   (fun converted =>
                      McpConvert.Return (McpConvert.dict_update [] converted)))
       else McpConvert.Return [])
      = McpConvert.Return mid /\
      Forall desktop_server_ok (map snd mid) /\
      (mid = [] <-> servers_of config = [])).
  { destruct (Py.has config "mcpServers") eqn:Hhas.
    - destruct (servers_of_accepted config Hglobal Hhas) as (-> & Hall).
      cbn [McpConvert.items McpConvert.bind].
      destruct (comprehension_ok McpConvert.cli_to_desktop_server
                  cli_server_ok desktop_server_ok cli_to_desktop_server_ok
                  (servers_of config) [] Hall (Forall_nil _))
        as (out & -> & Hout & Hnil).
      cbn [McpConvert.bind].
      exists (McpConvert.dict_update [] out).
      split; [reflexivity|].
      split; [apply dict_update_values; [constructor|exact Hout]|].
      rewrite dict_update_nil_iff, Hnil.
      split; [now intros [_ H]|now split].
    - exists []. split; [reflexivity|]. split; [constructor|].
      now rewrite (servers_of_missing config Hhas). }
  destruct Hfirst as (mid & -> & Hmid & Hmid_nil).
  cbn [McpConvert.bind].
  (* the servers of the projects *)
  assert (Hsecond :
    exists all_servers,
      (if Py.has config "projects"
       then McpConvert.bind (McpConvert.items (Py.get config "projects"))
              (fun projects => McpConvert.projects_loop path_name projects mid)
       else McpConvert.Return mid)
      = McpConvert.Return all_servers /\
      Forall desktop_server_ok (map snd all_servers) /\
      (all_servers = []
       <-> mid = [] /\
           match Py.lookup "projects" config with
           | Some (JDict projects) => flat_map project_servers_of projects
           | _ => []
           end = [])).
  { unfold Py.has, Py.get.
    destruct (Py.lookup "projects" config) as [projects|].
    - destruct (Hprojects projects eq_refl) as (entries & -> & Hall).
      cbn [McpConvert.items McpConvert.bind].
      apply projects_loop_ok; assumption.
    - exists mid. split; [reflexivity|]. split; [exact Hmid|]. tauto. }
  destruct Hsecond as (all_servers & -> & Hall & Hnil).
  cbn [McpConvert.bind].
  assert (Hempty :
    (servers_of config
     ++ match Py.lookup "projects" config with
        | Some (JDict projects) => flat_map project_servers_of projects
        | _ => []
        end)%list = []
    <-> all_servers = []).
  { rewrite app_nil_iff, <- Hmid_nil, <- Hnil. reflexivity. }
  destruct all_servers as [|entry rest]; cbn [CostGovernorValidator.is_empty negb].
  - exists []. split; [reflexivity|]. left.
    split; [now apply Hempty|reflexivity].
  - eexists. split; [reflexivity|]. right. split.
    + intros E. apply Hempty in E. discriminate E.
    + exists (entry :: rest). split; [reflexivity|exact Hall].
Qed.

End WithPath.

(** X19 — what the MCP validators accept.  [validate_desktop_config]
    reports nothing exactly when "mcpServers" is there and is an object
    whose entries are objects with a "command", with a list under "args"
    and "autoApprove" and an object under "env" where these are present.
    [validate_cli_config] reports nothing exactly when "mcpServers", where
    present, is an object whose entries are objects with "type" "stdio", a
    "command", a list under "args" and an object under "env" where
    present, and "projects", where present, is an object of objects whose
    "mcpServers", where present, is such an object. *)
Theorem mcp_validators_accept_iff config :
  (validate_desktop_config config = [] <-> accepted_desktop_config config) /\
  (validate_cli_config config = [] <-> accepted_cli_config config).
Proof.
  split; [apply desktop_config_nil_iff|apply cli_config_nil_iff].
Qed.

(** X20 — Desktop to CLI keeps validity.  A Desktop configuration on which
    [validate_desktop_config] reports nothing is converted by
    [desktop_to_cli] without an exception, and [validate_cli_config]
    reports nothing on the result. *)
Theorem desktop_to_cli_keeps_validity config :
  validate_desktop_config config = [] ->
  exists cli_config,
    McpConvert.desktop_to_cli config = McpConvert.Return cli_config /\
    validate_cli_config cli_config = [].
Proof.
  intros H. apply desktop_config_nil_iff in H.
  destruct (desktop_to_cli_accepted config H) as (cli_config & E & Hcli).
  exists cli_config. split; [exact E|]. now apply cli_config_nil_iff.
Qed.

(** X21 — CLI to Desktop keeps validity, servers permitting.  A CLI
    configuration on which [validate_cli_config] reports nothing is
    converted by [cli_to_desktop] without an exception.  When it has a
    server, globally or in a project, [validate_desktop_config] reports
    nothing on the result; when it has none, the result is the empty
    object, which [validate_desktop_config] rejects for its missing
    "mcpServers". *)
Theorem cli_to_desktop_keeps_validity (path_name : string -> string) config :
  validate_cli_config config = [] ->
  exists desktop_config,
    McpConvert.cli_to_desktop path_name config
    = McpConvert.Return desktop_config /\
    ((cli_servers_of config = [] /\
      desktop_config = [] /\
      validate_desktop_config desktop_config
      = ["Missing required key: 'mcpServers'"])
     \/ (cli_servers_of config <> [] /\
         validate_desktop_config desktop_config = [])).
Proof.
  intros H. apply cli_config_nil_iff in H.
  destruct (cli_to_desktop_accepted path_name config H)
    as (desktop_config & E & [[Hnone ->]|[Hsome Hok]]);
    eexists; (split; [exact E|]).
  - left. now repeat split.
  - right. split; [exact Hsome|]. now apply desktop_config_nil_iff.
Qed.

(** X22 — what a server conversion keeps.  An object with a "command"
    converts both ways without an exception.  [desktop_to_cli_server] gives
    "type" "stdio", the "command", "args" and "env" of the input, each
    present exactly when it is in the input, and no other key:
    "autoApprove" and every other field are dropped.
    [cli_to_desktop_server] keeps the same three, sets "autoApprove" to the
    empty list, and drops every other key, "type" among them. *)
Theorem server_conversion_keeps (server : list (string * json))
  (command : json) :
  Py.lookup "command" server = Some command ->
  exists cli_server desktop_server,
    McpConvert.desktop_to_cli_server (JDict server)
    = McpConvert.Return cli_server /\
    McpConvert.cli_to_desktop_server (JDict server)
    = McpConvert.Return desktop_server /\
    Py.lookup "type" cli_server = Some (JStr "stdio") /\
    Py.lookup "autoApprove" desktop_server = Some (JList []) /\
    Forall
      (fun key =>
         Py.lookup key cli_server = Py.lookup key server /\
         Py.lookup key desktop_server = Py.lookup key server)
      ["command"; "args"; "env"] /\
    (forall key, ~ In key ["type"; "command"; "args"; "env"] ->
                 Py.lookup key cli_server = None) /\
    (forall key, ~ In key ["command"; "args"; "env"; "autoApprove"] ->
                 Py.lookup key desktop_server = None).
Proof.
  intros Hc.
  unfold McpConvert.desktop_to_cli_server, McpConvert.cli_to_desktop_server,
    McpConvert.subscript, Py.has, Py.get.
  rewrite Hc. cbn [McpConvert.bind].
  destruct (Py.lookup "args" server) as [args|] eqn:Ha,
           (Py.lookup "env" server) as [env|] eqn:He;
    (eexists; eexists);
    (split; [reflexivity|]); (split; [reflexivity|]);
    (split; [reflexivity|]); (split; [reflexivity|]);
    (split; [repeat constructor; cbn; congruence|]);
    split; intros key Hkey; cbn in Hkey;
    rewrite ?lookup_dict_set; cbn [Py.lookup];
    repeat match goal with
           | |- context [String.eqb ?k key] =>
               destruct (String.eqb_spec k key) as [E|_];
               [exfalso; apply Hkey; tauto|]
           end;
    reflexivity.
Qed.

(** X23 — round trips of a server entry.  Whatever [desktop_to_cli_server]
    returns goes through [cli_to_desktop_server] and back unchanged, and
    whatever [cli_to_desktop_server] returns goes through
    [desktop_to_cli_server] and back unchanged; where the first conversion
    raises, the same exception comes out. *)
Theorem server_round_trip (server : json) :
  McpConvert.bind (McpConvert.desktop_to_cli_server server)
    (fun cli_server =>
       McpConvert.bind (McpConvert.cli_to_desktop_server (JDict cli_server))
         (fun desktop_server =>
            McpConvert.desktop_to_cli_server (JDict desktop_server)))
  = McpConvert.desktop_to_cli_server server
  /\
  McpConvert.bind (McpConvert.cli_to_desktop_server server)
    (fun desktop_server =>
       McpConvert.bind (McpConvert.desktop_to_cli_server (JDict desktop_server))
         (fun cli_server =>
            McpConvert.cli_to_desktop_server (JDict cli_server)))
  = McpConvert.cli_to_desktop_server server.
Proof.
  destruct server as [| | | | | |fields]; try (split; reflexivity).
  unfold McpConvert.desktop_to_cli_server, McpConvert.cli_to_desktop_server,
    McpConvert.subscript, Py.has, Py.get.
  destruct (Py.lookup "command" fields) as [command|];
    [|split; reflexivity].
  destruct (Py.lookup "args" fields) as [args|],
           (Py.lookup "env" fields) as [env|]; split; reflexivity.
Qed.

End McpFacts.

Lemma desktop_to_cli_keeps_validity_run :
  exists cli_config,
    McpConvert.desktop_to_cli McpSample.desktop_config
    = McpConvert.Return cli_config /\
    McpValidate.validate_cli_config cli_config = [].
Proof.
  exact (desktop_to_cli_keeps_validity McpSample.desktop_config eq_refl).
Defined.

Lemma cli_to_desktop_keeps_validity_run :
  exists desktop_config,
    McpConvert.cli_to_desktop McpSample.path_name McpSample.cli_config
    = McpConvert.Return desktop_config /\
    ((cli_servers_of McpSample.cli_config = [] /\
      desktop_config = [] /\
      McpValidate.validate_desktop_config desktop_config
      = ["Missing required key: 'mcpServers'"])
     \/ (cli_servers_of McpSample.cli_config <> [] /\
         McpValidate.validate_desktop_config desktop_config = [])).
Proof.
  exact (cli_to_desktop_keeps_validity McpSample.path_name
           McpSample.cli_config eq_refl).
Defined.

Lemma server_conversion_keeps_run :
  exists cli_server desktop_server,
    McpConvert.desktop_to_cli_server (JDict McpSample.desktop_server)
    = McpConvert.Return cli_server /\
    McpConvert.cli_to_desktop_server (JDict McpSample.desktop_server)
    = McpConvert.Return desktop_server /\
    Py.lookup "type" cli_server = Some (JStr "stdio") /\
    Py.lookup "autoApprove" desktop_server = Some (JList []) /\
    Forall
      (fun key =>
         Py.lookup key cli_server = Py.lookup key McpSample.desktop_server /\
         Py.lookup key desktop_server = Py.lookup key McpSample.desktop_server)
      ["command"; "args"; "env"] /\
    (forall key, ~ In key ["type"; "command"; "args"; "env"] ->
                 Py.lookup key cli_server = None) /\
    (forall key, ~ In key ["command"; "args"; "env"; "autoApprove"] ->
                 Py.lookup key desktop_server = None).
Proof.
  exact (server_conversion_keeps McpSample.desktop_server (JStr "npx") eq_refl).
Defined.

(** ** The soft-cap phase, and what [evaluate] reads *)

Section SoftPhaseFacts.
Import DecisionEngine.

Variable float_repr : float -> string.
Local Abbreviation evaluate := (DecisionEngine.evaluate float_repr).

(** X24 — over the soft cap only.  When the gate does not fire, the hard
    cap is not exceeded and the projected spend exceeds the soft cap, the
    request is allowed exactly under LOG_ONLY and NOTIFY_OPS (with the log
    flag under the first, the notify flag under the second), degraded
    exactly under DEGRADE_MODEL, queued exactly under QUEUE_REQUESTS with a
    queue that is not full (or without [queue_policy]), and blocked exactly
    under QUEUE_REQUESTS with a full queue; it is never deferred. *)
Theorem over_soft_cap_outcome gov est spent task crit depth :
  per_request_gate gov est = false ->
  hard_cap_crossed gov (spent + est) = false ->
  soft_cap_crossed gov (spent + est) = true ->
  let d := evaluate gov est spent task crit depth in
  (action d = ALLOW <->
   on_soft_cap gov = OnSoftCap.LOG_ONLY
   \/ on_soft_cap gov = OnSoftCap.NOTIFY_OPS) /\
  (action d = DEGRADE <-> on_soft_cap gov = OnSoftCap.DEGRADE_MODEL) /\
  (action d = QUEUE <->
   on_soft_cap gov = OnSoftCap.QUEUE_REQUESTS /\
   forall qp, queue_policy gov = Some qp -> (depth < max_queue_depth qp)%Z) /\
  (action d = BLOCK <->
   on_soft_cap gov = OnSoftCap.QUEUE_REQUESTS /\
   exists qp, queue_policy gov = Some qp /\ (max_queue_depth qp <= depth)%Z) /\
  (log d = true <-> on_soft_cap gov = OnSoftCap.LOG_ONLY) /\
  (notify d = true <-> on_soft_cap gov = OnSoftCap.NOTIFY_OPS) /\
  deferred d = false.
Proof.
  intros Hgate Hhard Hsoft. cbv zeta.
  assert (E : evaluate gov est spent task crit depth
              = match on_soft_cap gov with
                | OnSoftCap.LOG_ONLY =>
                    {| action := ALLOW; reason := "soft_cap_exceeded: log-only";
                       deferred := false; degraded_model := None;
                       log := true; notify := false |}
                | OnSoftCap.DEGRADE_MODEL =>
                    {| action := DEGRADE;
                       reason := "soft_cap_exceeded: degrade-model";
                       deferred := false;
                       degraded_model :=
                         match model_degrade_ladder gov with
                         | m :: _ => Some m
                         | [] => None
                         end;
                       log := false; notify := false |}
                | OnSoftCap.NOTIFY_OPS =>
                    {| action := ALLOW;
                       reason := "soft_cap_exceeded: notify-ops";
                       deferred := false; degraded_model := None;
                       log := false; notify := true |}
                | OnSoftCap.QUEUE_REQUESTS =>
                    _apply_queue_overflow gov
                      (Decision_default QUEUE "soft_cap_exceeded: queue-requests")
                      depth
                end).
  { unfold DecisionEngine.evaluate, per_request_gate, hard_cap_crossed,
      soft_cap_crossed in *.
    rewrite Hsoft.
    destruct (per_request_cap gov) as [cap|]; [rewrite Hgate|];
      (destruct (daily_hard_cap gov) as [hard|]; [rewrite Hhard|]);
      reflexivity. }
  rewrite E. clear E. unfold _apply_queue_overflow.
  destruct (on_soft_cap gov);
    try (cbn; repeat split; try discriminate; auto;
         try (intros [?|?]; discriminate);
         try (intros [? _]; discriminate); fail).
  destruct (queue_policy gov) as [qp|].
  - destruct (Z.geb_spec depth (max_queue_depth qp)) as [Hge|Hlt]; cbn;
      repeat split; try discriminate; auto;
      try (intros [?|?]; discriminate).
    + intros [_ H]. specialize (H qp eq_refl). lia.
    + exists qp. split; [reflexivity|lia].
    + intros q [= <-]. lia.
    + intros [_ (q & [= <-] & H)]. lia.
  - cbn. repeat split; try discriminate; auto;
      try (intros [?|?]; discriminate).
    intros [_ (q & [=] & _)].
Qed.

(** X25 — what [evaluate] reads of a configuration.  Two configurations
    with the same per-request cap, the same soft and hard caps, the same
    two policies, the same first entry of the ladder and the same
    [max_queue_depth] get the same Decision on every request: the allowlist,
    the rest of the ladder, [queue_policy.enabled], its TTL and drop policy,
    the currency, the timezone and the monitoring settings play no part. *)
Theorem evaluate_reads_only gov gov' est spent task crit depth :
  per_request_cap gov = per_request_cap gov' ->
  daily_soft_cap gov = daily_soft_cap gov' ->
  daily_hard_cap gov = daily_hard_cap gov' ->
  on_soft_cap gov = on_soft_cap gov' ->
  on_hard_cap gov = on_hard_cap gov' ->
  hd_error (model_degrade_ladder gov) = hd_error (model_degrade_ladder gov') ->
  option_map max_queue_depth (queue_policy gov)
  = option_map max_queue_depth (queue_policy gov') ->
  evaluate gov est spent task crit depth
  = evaluate gov' est spent task crit depth.
Proof.
  intros Hcap Hsoft Hhard Hon_soft Hon_hard Hladder Hqueue.
  unfold DecisionEngine.evaluate, _apply_queue_overflow.
  rewrite <- Hcap, <- Hsoft, <- Hhard, <- Hon_soft, <- Hon_hard.
  assert (Hfirst : match model_degrade_ladder gov with
                   | m :: _ => Some m
                   | [] => None
                   end
                   = match model_degrade_ladder gov' with
                     | m :: _ => Some m
                     | [] => None
                     end).
  { destruct (model_degrade_ladder gov), (model_degrade_ladder gov');
      exact Hladder. }
  rewrite <- Hfirst.
  destruct (queue_policy gov) as [qp|], (queue_policy gov') as [qp'|];
    cbn in Hqueue; try discriminate Hqueue; [|reflexivity].
  injection Hqueue as <-. reflexivity.
Qed.

End SoftPhaseFacts.

Lemma over_soft_cap_outcome_run :
  action
    (DecisionEngine.evaluate Sample.float_repr
       (Sample.governor (Some 20%float) OnSoftCap.QUEUE_REQUESTS
          OnHardCap.HALT_ALL [] (Some (Sample.queue_of_depth 3)))
       5 8 "job" false 3)
  = BLOCK.
Proof.
  apply (proj2 (proj1 (proj2 (proj2 (proj2
           (over_soft_cap_outcome Sample.float_repr
              (Sample.governor (Some 20%float) OnSoftCap.QUEUE_REQUESTS
                 OnHardCap.HALT_ALL [] (Some (Sample.queue_of_depth 3)))
              5 8 "job" false 3 eq_refl eq_refl eq_refl)))))).
  split; [reflexivity|].
  exists (Sample.queue_of_depth 3). split; [reflexivity|]. cbn. lia.
Defined.

(** A configuration and the same one with another allowlist, a longer
    ladder and a queue that is switched off: the Decision is the same. *)
Lemma evaluate_reads_only_run :
  DecisionEngine.evaluate Sample.float_repr
    {| currency := "USD"; daily_soft_cap := 10%float;
       daily_hard_cap := Some 20%float;
       on_soft_cap := OnSoftCap.DEGRADE_MODEL;
       on_hard_cap := OnHardCap.QUEUE_REQUESTS;
       model_degrade_ladder := ["small"];
       allowlist_tasks_under_hard_cap := [];
       per_request_cap := None;
       reset_timezone := "UTC";
       queue_policy := Some (Sample.queue_of_depth 3);
       spend_monitoring := None |}
    5 18 "job" false 1
  = DecisionEngine.evaluate Sample.float_repr
      {| currency := "EUR"; daily_soft_cap := 10%float;
         daily_hard_cap := Some 20%float;
         on_soft_cap := OnSoftCap.DEGRADE_MODEL;
         on_hard_cap := OnHardCap.QUEUE_REQUESTS;
         model_degrade_ladder := ["small"; "smaller"];
         allowlist_tasks_under_hard_cap := ["job"];
         per_request_cap := None;
         reset_timezone := "Europe/Paris";
         queue_policy :=
           Some {| qp_enabled := false; max_queue_depth := 3;
                   default_ttl_seconds := 60;
                   drop_policy := DropPolicy.DROP_NONCRITICAL_FIRST |};
         spend_monitoring := None |}
      5 18 "job" false 1.
Proof.
  exact (evaluate_reads_only Sample.float_repr _ _ 5 18 "job" false 1
           eq_refl eq_refl eq_refl eq_refl eq_refl eq_refl eq_refl).
Defined.

(** ** The converters, name by name *)

Section ConverterNames.

Lemma lookup_app key (a b : list (string * json)) :
  Py.lookup key (a ++ b)
  = match Py.lookup key a with
    | Some x => Some x
    | None => Py.lookup key b
    end.
Proof.
  induction a as [|[k v] a IH]; cbn; [reflexivity|].
  destruct (String.eqb k key); [reflexivity|exact IH].
Qed.

Lemma last_assigned_cons name k v rest :
  last_assigned name ((k, v) :: rest)
  = match last_assigned name rest with
    | Some x => Some x
    | None => if String.eqb k name then Some v else None
    end.
Proof. unfold last_assigned. cbn [rev]. now rewrite lookup_app. Qed.

(** What a comprehension that returns has put under each name. *)
Lemma comprehension_lookup
  (convert : json -> McpConvert.result (list (string * json))) servers :
  forall acc out,
    McpConvert.comprehension convert servers acc = McpConvert.Return out ->
    forall name,
      match last_assigned name servers with
      | Some server =>
          exists converted,
            convert server = McpConvert.Return converted /\
            Py.lookup name out = Some (JDict converted)
      | None => Py.lookup name out = Py.lookup name acc
      end.
Proof.
  induction servers as [|[k s] rest IH]; intros acc out H name;
    cbn [McpConvert.comprehension] in H.
  - injection H as <-. reflexivity.
  - destruct (convert s) as [c|e] eqn:Hc; cbn [McpConvert.bind] in H;
      [|discriminate H].
    specialize (IH _ _ H name). rewrite last_assigned_cons.
    destruct (last_assigned name rest) as [server|]; [exact IH|].
    rewrite lookup_dict_set in IH.
    destruct (String.eqb k name); [|exact IH].
    exists c. now split.
Qed.

Lemma comprehension_app
  (convert : json -> McpConvert.result (list (string * json))) a b :
  forall acc,
    McpConvert.comprehension convert (a ++ b) acc
    = McpConvert.bind (McpConvert.comprehension convert a acc)
        (McpConvert.comprehension convert b).
Proof.
  induction a as [|[k s] a IH]; intros acc; cbn; [reflexivity|].
  destruct (convert s); cbn; [apply IH|reflexivity].
Qed.

Lemma dict_set_keys x d k v :
  In x (map fst (McpConvert.dict_set d k v)) <-> x = k \/ In x (map fst d).
Proof.
  induction d as [|[k' v'] d IH]; cbn.
  - split; intros [H|H]; auto.
  - destruct (String.eqb_spec k' k) as [->|Hne]; cbn.
    + split; intros H; intuition congruence.
    + rewrite IH. split; intros H; intuition congruence.
Qed.

Lemma dict_set_nodup d k v :
  NoDup (map fst d) -> NoDup (map fst (McpConvert.dict_set d k v)).
Proof.
  induction d as [|[k' v'] d IH]; cbn; intros Hd.
  - repeat constructor. intros [].
  - inversion Hd as [|? ? Hnotin Hrest]; subst.
    destruct (String.eqb_spec k' k) as [->|Hne]; cbn.
    + now constructor.
    + constructor; [|now apply IH].
      rewrite dict_set_keys. intros [E|Hin]; [now elim Hne|now elim Hnotin].
Qed.

Lemma comprehension_nodup
  (convert : json -> McpConvert.result (list (string * json))) servers :
  forall acc out,
    McpConvert.comprehension convert servers acc = McpConvert.Return out ->
    NoDup (map fst acc) -> NoDup (map fst out).
Proof.
  induction servers as [|[k s] rest IH]; intros acc out H Hacc;
    cbn [McpConvert.comprehension] in H.
  - now injection H as <-.
  - destruct (convert s) as [c|e]; cbn [McpConvert.bind] in H;
      [|discriminate H].
    eapply IH; [exact H|]. now apply dict_set_nodup.
Qed.

Lemma dict_set_fresh d k v :
  ~ In k (map fst d) -> McpConvert.dict_set d k v = (d ++ [(k, v)])%list.
Proof.
  induction d as [|[k' v'] d IH]; cbn; intros Hk; [reflexivity|].
  destruct (String.eqb_spec k' k) as [->|Hne].
  - elim Hk. now left.
  - rewrite IH; [reflexivity|]. intros Hin. apply Hk. now right.
Qed.

(** [d.update(other)] with keys that are new to [d] puts [other] after
    [d]. *)
Lemma dict_update_fresh other :
  forall d,
    NoDup (map fst other) ->
    (forall k, In k (map fst other) -> ~ In k (map fst d)) ->
    McpConvert.dict_update d other = (d ++ other)%list.
Proof.
  unfold McpConvert.dict_update.
  induction other as [|[k v] other IH]; intros d Hnd Hfresh; cbn.
  - now rewrite app_nil_r.
  - cbn in Hnd. inversion Hnd as [|? ? Hnotin Hrest]; subst.
    rewrite dict_set_fresh by (apply Hfresh; now left).
    rewrite IH; [now rewrite <- app_assoc|exact Hrest|].
    intros k' Hin. rewrite map_app, in_app_iff. cbn.
    intros [Hd|[<-|[]]]; [|exact (Hnotin Hin)].
    apply (Hfresh k'); [now right|exact Hd].
Qed.

(** X26 — Desktop to CLI, name by name.  When [desktop_to_cli] returns, a
    configuration without "mcpServers" has become the empty object, and
    otherwise the result has the one key "mcpServers": every other
    top-level key is dropped.  Under each name of the input stands the
    conversion of the server of that name, and there is no other name. *)
Theorem desktop_to_cli_name_by_name config cli_config :
  McpConvert.desktop_to_cli config = McpConvert.Return cli_config ->
  (Py.has config "mcpServers" = false /\ cli_config = [])
  \/ exists converted,
       Py.has config "mcpServers" = true /\
       cli_config = [("mcpServers", JDict converted)] /\
       holds_converted McpConvert.desktop_to_cli_server (servers_of config)
         converted.
Proof.
  unfold McpConvert.desktop_to_cli, servers_of, Py.has, Py.get.
  destruct (Py.lookup "mcpServers" config) as [servers|];
    [|intros [= <-]; now left].
  destruct servers as [| | | | | |entries]; try discriminate.
  cbn [McpConvert.items McpConvert.bind].
  destruct (McpConvert.comprehension McpConvert.desktop_to_cli_server entries [])
    as [converted|e] eqn:Hc; cbn [McpConvert.bind McpConvert.dict_set];
    [|discriminate].
  intros [= <-]. right. exists converted.
  split; [reflexivity|]. split; [reflexivity|].
  intros name.
  exact (comprehension_lookup _ _ _ _ Hc name).
Qed.

Section WithPath.

Variable path_name : string -> string.

Lemma project_servers_as_comprehension project_path servers :
  forall acc,
    McpConvert.project_servers path_name project_path servers acc
    = McpConvert.comprehension McpConvert.cli_to_desktop_server
        (map (fun kv : string * json =>
                (path_name project_path ++ "-" ++ fst kv, snd kv))
           servers)
        acc.
Proof.
  induction servers as [|[name server] servers IH]; intros acc; cbn;
    [reflexivity|].
  destruct (McpConvert.cli_to_desktop_server server); cbn;
    [apply IH|reflexivity].
Qed.

Lemma projects_loop_as_comprehension projects :
  forall acc out,
    McpConvert.projects_loop path_name projects acc = McpConvert.Return out ->
    McpConvert.comprehension McpConvert.cli_to_desktop_server
      (flat_map (project_assignments path_name) projects) acc
    = McpConvert.Return out.
Proof.
  induction projects as [|[path pc] projects IH]; intros acc out H;
    cbn [McpConvert.projects_loop flat_map] in *; [exact H|].
  rewrite comprehension_app.
  unfold project_assignments at 1, project_servers_of, servers_of.
  cbn [fst snd].
  destruct pc as [| | | | | |fields]; try (cbn; now apply IH).
  unfold Py.has, Py.get in H.
  destruct (Py.lookup "mcpServers" fields) as [servers|];
    [|cbn; now apply IH].
  destruct servers as [| | | | | |entries]; try discriminate H.
  cbn [McpConvert.items McpConvert.bind] in H.
  rewrite <- project_servers_as_comprehension.
  destruct (McpConvert.project_servers path_name path entries acc) as [mid|e];
    cbn [McpConvert.bind] in *; [now apply IH|discriminate H].
Qed.

(** X27 — CLI to Desktop, name by name.  When [cli_to_desktop] returns,
    the servers of the result are those of the configuration under their
    names and those of each project under their names prefixed with the
    last component of the project path and a dash, each converted; where
    two of them come under one name, the one met last stands.  Without any
    server the result is the empty object. *)
Theorem cli_to_desktop_name_by_name config desktop_config :
  McpConvert.cli_to_desktop path_name config
  = McpConvert.Return desktop_config ->
  exists all_servers,
    desktop_config
    = (if CostGovernorValidator.is_empty all_servers then []
       else [("mcpServers", JDict all_servers)]) /\
    holds_converted McpConvert.cli_to_desktop_server
      (cli_assignments path_name config) all_servers.
Proof.
  unfold McpConvert.cli_to_desktop, cli_assignments.
  intros H.
  (* the servers of the configuration itself *)
  assert (Hglobal :
    forall mid,
      (if Py.has config "mcpServers"
       then McpConvert.bind (McpConvert.items (Py.get config "mcpServers"))
              (fun servers =>
                 McpConvert.bind
                   (McpConvert.comprehension McpConvert.cli_to_desktop_server
                      servers [])
                   (fun converted =>
                      McpConvert.Return (McpConvert.dict_update [] converted)))
       else McpConvert.Return [])
      = McpConvert.Return mid ->
      McpConvert.comprehension McpConvert.cli_to_desktop_server
        (servers_of config) []
      = McpConvert.Return mid).
  { intros mid. unfold Py.has, Py.get, servers_of.
    destruct (Py.lookup "mcpServers" config) as [servers|];
      [|now intros [= <-]].
    destruct servers as [| | | | | |entries]; try discriminate.
    cbn [McpConvert.items McpConvert.bind].
    destruct (McpConvert.comprehension _ entries []) as [converted|e] eqn:Hc;
      cbn [McpConvert.bind]; [|discriminate].
    intros [= <-]. f_equal. symmetry.
    apply (dict_update_fresh converted []).
    - eapply comprehension_nodup; [exact Hc|constructor].
    - intros k _ []. }
  (* the servers of the projects *)
  assert (Hprojects :
    forall mid out,
      (if Py.has config "projects"
       then McpConvert.bind (McpConvert.items (Py.get config "projects"))
              (fun projects => McpConvert.projects_loop path_name projects mid)
       else McpConvert.Return mid)
      = McpConvert.Return out ->
      McpConvert.comprehension McpConvert.cli_to_desktop_server
        match Py.lookup "projects" config with
        | Some (JDict projects) =>
            flat_map (project_assignments path_name) projects
        | _ => []
        end mid
      = McpConvert.Return out).
  { intros mid out. unfold Py.has, Py.get.
    destruct (Py.lookup "projects" config) as [projects|];
      [|now intros [= <-]].
    destruct projects as [| | | | | |entries]; try discriminate.
    cbn [McpConvert.items McpConvert.bind].
    apply projects_loop_as_comprehension. }
  destruct (if Py.has config "mcpServers" then _ else _) as [mid|e] eqn:E1;
    cbn [McpConvert.bind] in H; [|discriminate H].
  destruct (if Py.has config "projects" then _ else _) as [all_servers|e]
    eqn:E2; cbn [McpConvert.bind] in H; [|discriminate H].
  exists all_servers. split.
  - destruct all_servers; cbn in H |- *; now injection H as <-.
  - intros name.
    apply (comprehension_lookup McpConvert.cli_to_desktop_server _ []).
    rewrite comprehension_app, (Hglobal mid eq_refl). cbn [McpConvert.bind].
    apply Hprojects. exact E2.
Qed.

End WithPath.
End ConverterNames.

Lemma desktop_to_cli_name_by_name_run :
  (Py.has McpSample.desktop_config "mcpServers" = false /\
   [("mcpServers",
      JDict [ ("filesystem",
                JDict [("type", JStr "stdio"); ("command", JStr "npx");
                       ("args",
                         JList [JStr "-y";
                                JStr "@modelcontextprotocol/server-filesystem"])]);
              ("git",
                JDict [("type", JStr "stdio"); ("command", JStr "uvx");
                       ("env", JDict [("HOME", JStr "/home/dev")])]) ])]
   = [])
  \/ exists converted,
       Py.has McpSample.desktop_config "mcpServers" = true /\
       [("mcpServers",
          JDict [ ("filesystem",
                    JDict [("type", JStr "stdio"); ("command", JStr "npx");
                           ("args",
                             JList [JStr "-y";
                                    JStr "@modelcontextprotocol/server-filesystem"])]);
                  ("git",
                    JDict [("type", JStr "stdio"); ("command", JStr "uvx");
                           ("env", JDict [("HOME", JStr "/home/dev")])]) ])]
       = [("mcpServers", JDict converted)] /\
       holds_converted McpConvert.desktop_to_cli_server
         (servers_of McpSample.desktop_config) converted.
Proof.
  exact (desktop_to_cli_name_by_name McpSample.desktop_config _ eq_refl).
Defined.

(** The sample CLI configuration becomes a Desktop configuration with the
    global server under its name and the server of the project under
    "app-git". *)
Lemma cli_to_desktop_name_by_name_run :
  exists all_servers,
    [("mcpServers",
       JDict [ ("filesystem",
                 JDict [("command", JStr "npx"); ("autoApprove", JList [])]);
               ("app-git",
                 JDict [("command", JStr "uvx"); ("autoApprove", JList [])]) ])]
    = (if CostGovernorValidator.is_empty all_servers then []
       else [("mcpServers", JDict all_servers)]) /\
    holds_converted McpConvert.cli_to_desktop_server
      (cli_assignments McpSample.path_name McpSample.cli_config) all_servers.
Proof.
  exact (cli_to_desktop_name_by_name McpSample.path_name McpSample.cli_config
           _ eq_refl).
Defined.

(** ** The task and its criticality *)

Section TaskFacts.
Import DecisionEngine.

Variable float_repr : float -> string.
Local Abbreviation evaluate := (DecisionEngine.evaluate float_repr).

(** X28 — where the task and its criticality count.  Unless the gate lets
    the request through, the projected spend exceeds the hard cap and
    [on_hard_cap] is HALT_NONCRITICAL, the Decision is the same for every
    [task_id] and for both values of [is_critical]. *)
Theorem task_and_criticality_count_only_under_halt_noncritical
  gov est spent task task' crit crit' depth :
  per_request_gate gov est = true
  \/ hard_cap_crossed gov (spent + est) = false
  \/ on_hard_cap gov <> OnHardCap.HALT_NONCRITICAL ->
  evaluate gov est spent task crit depth
  = evaluate gov est spent task' crit' depth.
Proof.
  unfold DecisionEngine.evaluate, per_request_gate, hard_cap_crossed.
  intros H.
  destruct (per_request_cap gov) as [cap|];
    [destruct (float_gt est cap); [reflexivity|]|];
    (destruct (daily_hard_cap gov) as [hard|]; [|reflexivity]);
    (destruct (float_gt (spent + est) hard); [|reflexivity]);
    (destruct (on_hard_cap gov); try reflexivity);
    destruct H as [H|[H|H]]; try discriminate H; now elim H.
Qed.

End TaskFacts.

(** Under HALT_ALL a critical task is blocked like any other. *)
Lemma task_and_criticality_count_only_under_halt_noncritical_run :
  DecisionEngine.evaluate Sample.float_repr
    (Sample.governor (Some 20%float) OnSoftCap.LOG_ONLY OnHardCap.HALT_ALL
       [] None)
    5 18 "billing-webhook" true 0
  = DecisionEngine.evaluate Sample.float_repr
      (Sample.governor (Some 20%float) OnSoftCap.LOG_ONLY OnHardCap.HALT_ALL
         [] None)
      5 18 "job" false 0.
Proof.
  apply (task_and_criticality_count_only_under_halt_noncritical
           Sample.float_repr
           (Sample.governor (Some 20%float) OnSoftCap.LOG_ONLY
              OnHardCap.HALT_ALL [] None)
           5 18 "billing-webhook" "job" true false 0).
  right. right. discriminate.
Defined.

(** ** When a validator breaks off with a [TypeError] *)

Section TypeErrors.

Variable float_repr : float -> string.
Variable container_repr : json -> string.
Variable container_eq : json -> json -> bool.
Variable list_gt : list json -> list json -> option bool.
Variable fromisoformat : string -> option bool.

Lemma in_str_set_unhashable v set :
  Py.in_str_set v set
  = if unhashable v then None
    else Some match v with
              | JStr s => Py.mem s set
              | _ => false
              end.
Proof. now destruct v. Qed.

Lemma unhashable_check_iff check :
  unhashable_check (JDict check)
  <-> unhashable (Py.get check "probe_type")
      || unhashable (Py.get check "status") = true.
Proof.
  unfold unhashable_check. rewrite orb_true_iff. split.
  - now intros (c & [= <-] & H).
  - intros H. now exists check.
Qed.

(** The loop over the checks breaks off exactly when one of them is an
    object whose probe type or status cannot be hashed. *)
Lemma check_items_raises_iff checks :
  forall idx seen errors,
    Health.check_items fromisoformat checks idx seen errors = None
    <-> Exists unhashable_check checks.
Proof.
  induction checks as [|item rest IH]; intros idx seen errors;
    cbn [Health.check_items].
  - split; [discriminate|]. intros H. inversion H.
  - rewrite Exists_cons.
    destruct item as [| | | | | |check];
      try (rewrite IH; split;
           [now right|intros [(? & [=] & _)|H]; exact H]).
    rewrite unhashable_check_iff, !in_str_set_unhashable.
    destruct (Py.get check "name") as [| | | |name| |];
      try destruct (PyStr.blank name);
      try destruct (Py.mem name seen);
      destruct (unhashable (Py.get check "probe_type")),
               (unhashable (Py.get check "status"));
      cbv beta iota zeta; cbn [orb];
      try (split; [intros _; now left|reflexivity]);
      (rewrite IH; split; [now right|intros [H|H]; [discriminate H|exact H]]).
Qed.

Lemma check_checks_raises_iff value errors :
  Health._check_checks fromisoformat value errors = None
  <-> exists checks, value = JList checks /\ Exists unhashable_check checks.
Proof.
  unfold Health._check_checks.
  destruct value as [| | | | |[|first rest]|];
    try (split; [discriminate|intros (? & [=] & _)]; fail).
  - split; [discriminate|]. intros (checks & [= <-] & H). inversion H.
  - rewrite check_items_raises_iff. split.
    + intros H. now exists (first :: rest).
    + now intros (checks & [= <-] & H).
Qed.

Lemma raise_if_any_no_type_error header mark errors :
  raise_if_any header mark errors <> Raises TypeError.
Proof. destruct errors; discriminate. Qed.

(** X29 — when a validator breaks off.  The health [runtime_invariants]
    raises [TypeError], reporting nothing of what it found, exactly when
    [checks] is a list with an object whose [probe_type] or [status] is a
    list or an object; the routing [runtime_invariants] does so exactly when
    [constraints] is an object whose two caps are not null and have no
    order. *)
Theorem validators_break_off_iff (health routing : list (string * json)) :
  (Health.runtime_invariants float_repr container_repr fromisoformat health
   = Raises TypeError
   <-> exists checks,
         Py.get health "checks" = JList checks /\
         Exists unhashable_check checks) /\
  (Routing.runtime_invariants container_eq list_gt fromisoformat routing
   = Raises TypeError
   <-> exists constraints,
         Py.get routing "constraints" = JDict constraints /\
         Py.get constraints "daily_soft_cap" <> JNull /\
         Py.get constraints "daily_hard_cap" <> JNull /\
         Py.gt list_gt (Py.get constraints "daily_soft_cap")
           (Py.get constraints "daily_hard_cap") = None).
Proof.
  split.
  - unfold Health.runtime_invariants, Health.collect.
    rewrite <- (check_checks_raises_iff (Py.get health "checks")
                  (Health._check_service_name (Py.get health "service")
                     (Health._check_timestamp fromisoformat
                        (Py.get health "timestamp") "timestamp" []))).
    destruct (Health._check_checks fromisoformat _ _) as [errors|].
    + split; [|discriminate]. intros H.
      now apply raise_if_any_no_type_error in H.
    + now split.
  - unfold Routing.runtime_invariants, Routing.collect,
      Routing._check_constraint_caps.
    destruct (Py.get routing "constraints") as [| | | | | |constraints];
      try (split; [intros H; now apply raise_if_any_no_type_error in H
                  |intros (? & [=] & _)]; fail).
    assert (Hnull : forall v, v <> JNull <-> Routing.is_null v = false).
    { intros v. rewrite <- is_null_iff.
      destruct (Routing.is_null v); split; congruence. }
    split.
    + intros H. exists constraints. split; [reflexivity|].
      rewrite !Hnull.
      destruct (Routing.is_null (Py.get constraints "daily_soft_cap"));
        [now apply raise_if_any_no_type_error in H|].
      destruct (Routing.is_null (Py.get constraints "daily_hard_cap"));
        [now apply raise_if_any_no_type_error in H|].
      cbn [orb] in H.
      destruct (Py.gt list_gt _ _) as [[|]|];
        [now apply raise_if_any_no_type_error in H
        |now apply raise_if_any_no_type_error in H|].
      now repeat split.
    + intros (c & [= <-] & Hs & Hh & Hgt).
      apply Hnull in Hs, Hh. now rewrite Hs, Hh, Hgt.
Qed.

End TypeErrors.


(* ================================================================== *)
(** * Part IV — every violated rule is reported                         *)
(* ================================================================== *)

Section RulesReported.

Variable float_repr : float -> string.
Variable container_repr : json -> string.
Variable container_eq : json -> json -> bool.
Variable list_gt : list json -> list json -> option bool.
Variable fromisoformat : string -> option bool.




(** *** Timestamps, identifiers, secrets *)






(** *** The cost-governor configuration *)


(** *** The log event *)



(** *** The routing decision *)








(** *** The health document *)










(** *** Nothing found, document accepted *)




(** *** Breaking off *)




End RulesReported.


(** The four sample records, each wrong in several ways: every violation is
    in the one report. *)
Example broken_samples_reported :
  CostGovernorValidator.runtime_invariants Sample.float_repr
    Sample.broken_governor
  = Raises (InvariantViolation
      (report "CostGovernor invariant violation(s):" bullet
         [ "daily_soft_cap (<float>) must be <= daily_hard_cap (<float>)";
           "on_soft_cap='degrade-model' requires a non-empty model_degrade_ladder";
           "queue_policy is required when on_soft_cap or on_hard_cap uses a queue-* action" ]))
  /\
  Health.runtime_invariants Sample.float_repr Sample.container_repr
    Sample.fromisoformat Sample.broken_health
  = Raises (InvariantViolation
      (report "HealthStatus invariant violation(s):" bullet
         [ "service must be a non-empty string";
           "summary.healthy must equal computed value 0, got 1";
           "summary.unhealthy must equal computed value 1, got 0";
           "status must be 'unhealthy' for current checks/summary, got 'healthy'" ]))
  /\
  Logging.runtime_invariants Sample.fromisoformat Sample.broken_log_event
  = Raises (InvariantViolation
      (report "LogEvent invariant violation(s):" bullet_logging
         [ "tokens_in and tokens_out must both be present when either is provided";
           "event_type='decision' requires routing_decision_id or meta.routing_decision" ]))
  /\
  Routing.runtime_invariants Sample.container_eq Sample.list_gt
    Sample.fromisoformat Sample.broken_routing
  = Raises (InvariantViolation
      (report "RoutingDecision invariant violation(s):" bullet
         [ "reason_codes must be sorted for deterministic ordering";
           "constraints.daily_soft_cap must be <= constraints.daily_hard_cap" ])).
Proof. repeat apply conj; vm_compute; reflexivity. Qed.
